(* ===== verification/_CoqProject ===== *)
-Q . S2P
Prelude.v
JsCore.v
Catalog.v
Filter.v
RowKey.v
Pivot.v
Matrix.v
HomePage.v
ProductForm.v
Prices.v
PricesAsync.v
Settings.v
Brands.v
AdminLayout.v
Site.v
PrintPage.v
ProductsPage.v
