(* ===== verification/Prelude.v ===== *)
(** * Suspension price tracker: a verification development

    The repository is a Next.js application: React client components
    that read and write a Supabase database.  Its one piece of real
    logic is the pivot engine [processData] shared by the public
    comparison page [src/app/page.tsx] and the admin print page
    [src/app/admin/print/page.js].  A flat list of product records (the
    rows of [products.select("*, brands (name), prices ( * )")]) is
    filtered by the lower-cased search query, the distinct brand names
    are collected and sorted into the brand columns, and the records are
    grouped in a plain object keyed by a ['|']-joined row key, each row
    holding one price object per brand.  The renderer walks rows x
    visible tiers x brands in one of two nestings chosen by [viewMode].
    The admin pages around it are forms whose handlers update React
    state and call the database; the public page recomputes the pivot on
    every keystroke from the batch it cached when it loaded.

    ** Files, and what in the code each one models

    - [Prelude] (this file): notation scope [spt_scope], hint database
      [spt], the tactics [bool_to_prop] and [compute_decide], and list
      lemmas shared by the components: [fold_left_invariant] (the shape
      of every [forEach] loop), filters, [omap], nested traversals
      ([lookup_flat_map_map]), and [run_steps], the
      run of an event-driven page (a step function fed a list of events,
      collecting the effects), with its rule-induction lemmas
      [run_steps_invariant] and [run_steps_effects] that the pages'
      run invariants instantiate.
    - [JsCore]: the JavaScript runtime the code calls, at JS semantics:
      [toLowerCase], [includes], [trim]; [[...new Set(a)]] as
      [js_set_of] (first-occurrence order); [a.sort()] as [js_sort],
      with [js_sort_unique] showing any sorting algorithm gives the same
      array; property reads [obj[k]] ([obj_get], [map_get]) that fall
      back to the members of [Object.prototype]; [Object.values] order
      ([obj_values]: array-index keys first, then insertion order).
    - [Catalog]: the query results: [Tier.key], [PriceRow.t],
      [Prices] (the embedded relation as [null], an array or a single
      object), [Product.t], the grouped [Row.t] and [SettingRow.t].
    - [Filter]: both pages' filter predicates ([home_matches],
      [print_matches]).
    - [RowKey]: both template-literal keys ([home_rowKey],
      [print_rowKey]).
    - [Pivot]: [processData] written once in a Section over the class
      [PivotView] (what a page supplies: predicate, key, category, and
      the promise that a key is neither an inherited property name nor
      an array index); [HomeView] and [PrintView] instantiate it.  The
      grouping loop is [fold_left group_step] over an option, [None]
      being the [TypeError] the JS would throw; [processData] returns
      what reaches [setActiveBrands] and [setGroupedData].
    - [Matrix]: [settings_map], [getVisibleTiers], [renderPriceCell]
      (cells [CellNoPrice] "-", [CellNA] "N/A", [CellValue]), the print
      page's [renderCell], both header rows and both traversals
      ([row_cells]).
    - [HomePage]: [PublicHomepage] as a step function [home_step] over
      a record of its React state plus the suspension point of the async
      [fetchPublicData]; events are the mount effect, the two database
      responses, keystrokes ([handleSearch]) and the view buttons;
      [main_view] is what its [<main>] shows.
    - [ProductForm]: [ManageProducts]: [extractSuggestions] and the
      add-product form as a step function [form_step] ([handleCategoryChange],
      the selects, [handleSubmit] with its trim, its reset and the
      [formData] its closure captured).
    - [Prices]: [ManagePrices] of [src/app/admin/prices/page.js]
      ([getPriceObj], [openEditModal], the price inputs as [editPrice],
      [handleSave] as a function from the modal state and the upsert's
      response to the new state and the list of database writes) and
      [renderChange] of [src/app/admin/history/page.js] with the five
      calls of the "Changes Made" cell ([history_changes]); the page
      around the modal ([prices_step]: the product list, its refetch
      after a save, the table's "Retail Price" column) and the history
      page's state, its mount effect and [fetchHistory] ([history_step])
      and its table ([history_view]); the rendered table rows
      ([price_line]) and edit modal ([modal_view]).
    - [Settings]: [SettingsPage] of [src/app/admin/settings/page.js]
      in [Module SettingsPage]: a step function over the React state and
      a heap of row objects ([handleToggle] copies the array but mutates
      the shared objects, so the arrays are lists of locations); the
      settings response, the toggles, [handleSave], [formatLabel] and
      the render [view] (one card per row).
      [JsCore] gives [split], [join], [replace] and [charAt]/[slice].
    - [Brands]: [ManageBrands] in [Module BrandsPage]: [handleAdd] (its
      [trim] guard, the insert, the dispatch on error code [23505]) and
      [handleDelete], each split at its [await]; [view] is its render.
    - [AdminLayout]: the session gate of [src/app/admin/layout.js]
      ([checkUser], [handleLogout], children shown once [loading] is
      false) and its render ([view]: the loading text or the sidebar).
    - [PrintPage]: [PrintPage] of [src/app/admin/print/page.js] as a
      step function like [HomePage], over [processData] at [PrintView];
      [sheet_view] is the printable area, [controls_view] the controls
      hidden on paper.
    - [ProductsPage]: the rest of [ManageProducts] in
      [Module ProductsPage], around [form_step]: [fetchData] as tasks
      with two [await]s that may overlap (the tasks [fetches] with their
      stage), the answers of the insert and of [handleDelete] (brand
      rows as in [Brands]), and the render [view] (the product table).
    - [Site]: the route table of the [page] files under [src/app], the
      root layout of [src/app/layout.tsx] ([metadata], [RootLayout]),
      the dashboard of [src/app/admin/page.js] ([AdminDashboard]), the
      public page's header and footer, and [render], which composes the
      root layout, the admin gate and a page; [site_links] collects every
      link and redirect of the site.
    - [PricesAsync]: the prices page again, with [handleSave] split at
      its three [await]s (the upsert, [getSession], the history insert):
      [pending] is the suspended handler, holding the product and form
      its closure captured; the other events are [prices_step] of
      [Prices] ([lift]).

    ** What is proved

    - Pivot (C1-C5, C14, C26): [processData] never throws and refines
      the abstract pivot [row_spec]: one row per distinct key in
      first-seen order, the fields of the first record of the key, per
      brand the price of the last record of that key and brand (C1);
      cell conservation (C2), no ghost cells (C3), brand columns exactly
      the filtered brands (C4), sorted and duplicate free (C5); typing
      more characters only removes brand
      columns, rows and filled cells (C14, the specification's filter
      monotonicity at the level of the table); every row is a row of its
      view, with no cell outside the brand columns (C26).
    - Public page (C7, C8, C15, C36): the displayed matrix is
      [processData] of the cached batch under the current query in every
      state reached without typing during loading (C7, by rule induction
      on [reachable_ok]); from any state waiting for the products, a
      keystroke is lost: the table shows the unfiltered batch and agrees
      with the box only when the query filters nothing out (C8);
      composing the page, the pivot and the matrix, the page says "No
      products found" exactly when no record matches the search box and
      otherwise shows one row per distinct key, every row as wide as
      header row 2, and header row 1 as drawn by the browser is as wide
      unless the brand view is on with no tier visible (C15); the search
      box shows the lower-cased text along any run (C36).
    - Matrix (C9, C11, C12, C24, C28, C29): both views show the same
      cell for each (brand, tier), the brand view being the transpose
      (C9); header row 2 names the cells, every row has |tiers| x
      |brands| columns, and header row 1, counting a [colSpan] of 0 as
      the one column HTML draws ([html_colspan], [header1_width]), has
      that many plus one per zero span (C11); the three cell states
      (C12); a brand named like an
      [Object.prototype] member (C24); tier order and its independence
      of the order of the settings rows (C28, C29).
    - Filter and keys (C17, C18): key injectivity without ['|'] and,
      conversely, a colliding record for every record with ['|'] in a
      key field.  Ordering (C27): [processData] keeps the
      order of the query ([order("car_make").order("car_model")]): for
      any transitive order the query's records are sorted by, the rows
      are sorted by it too, through [Sorted_sublist] and the fact that
      the rows are the first records of their keys, a sublist of the
      input ([first_records_sublist]).
    - Products page (C13, C16, C19-C22, C25): along any run, answering
      every running [fetchData] call completes them all and ends the
      loading (C13, liveness); the answers cannot go on for ever: "one
      answer later" is well founded, by the measure [pending] (C25,
      termination); whenever two calls wait for their products, the
      answer arriving last decides the list, so an older snapshot can
      hide the product just inserted (C16); the position stays among
      the offered options except after a successful non-shock-absorber
      insert (C19), and from every such form that insert and a second
      submit send a row with a position the select does not offer
      (C20); edits during a
      pending insert are lost (C21), every row sent along any run has
      trimmed make, model and variant and a brand (C22); the
      suggestions are sorted and exact ([extractSuggestions_makes]).
    - Asynchronous save (C6, C23, C37): a save is pending exactly while
      "Confirm" is disabled, along every run (C6, by the run invariant
      [save_inv]); [handleSave] split at its awaits and run without
      interruption refines the atomic [prices_step] save: same page
      state, same writes in the same order, on both paths of the upsert
      (C23); whatever page events happen while a save runs, nothing is
      written and "Confirm" stays disabled, and the save's completion
      closes whatever modal is then open, losing another product's edit
      (C37).
    - Prices and history (C30-C33): opening the editor, changing one
      tier and saving logs a record on which the history page shows
      exactly that tier's change (C30); the history cell lists exactly
      the tiers whose displayed value changed (C31); whatever the
      edits, a save logs as old prices exactly the values the editor
      was opened with, and on error writes nothing more (C32); the
      editor and the public page read different prices exactly for
      object-shaped price relations (C33); along any run the history
      page shows the loading row, then the answer's rows, and "No
      history found." for an empty answer and for a failed query alike
      (C10).
    - Settings page (C34, C35): toggles clicked in one render all take
      effect, in order, because the row objects are shared (C34);
      loading, flipping one switch and saving sends the rows with that
      switch negated, which changes the public page's visibility map in
      that key alone (C35); [formatLabel] inverts
      the ['_'] join of the key's words ([formatLabel_words]).
    - Brands, gate and print page (C38-C40): every inserted brand name
      is trimmed and non-empty (C38); the admin pages render exactly
      when a session was found (C39); the print sheet is [processData]
      of the cached batch under the current filter in every state
      reached without typing during loading (C40), while
      [print_stale_search] shows the same lost filter as C8.
    - Rendered views (lemmas): each page's render is a function of its
      state ([main_view], [sheet_view], [SettingsPage.view],
      [BrandsPage.view], [ProductsPage.view], [AdminLayout.view],
      [prices_table], [modal_view], [history_view]); the lemmas tie them
      to the handlers: the print sheet's Cost/RRP columns sit under
      their brand ([sheet_columns_aligned]), a click on a switch flips
      that card alone in the next render ([view_after_toggle]), the add
      button is disabled exactly when a submit is refused
      ([view_disabled_refuses]), the logout button exists exactly with
      the sidebar ([logout_clickable]), the modal opens on the stored
      prices ([modal_view_open]).  With no visible tier the public
      page's table has a brand header of [colSpan] 0 cells and empty
      rows ([main_view_no_tiers]).  The print page's filter box too
      shows the lower-cased text along any run
      ([controls_show_lowercase]).
    - Site (lemmas): every path of the route table is served by its page
      ([route_of_path_route], [route_path_inj]); the sidebar links each
      admin page exactly once ([sidebar_routes]); the only link or
      redirect without a page among the sources is [/login]
      ([unrouted_links]); an admin page is on screen exactly when the
      session gate let it through ([render_admin_gated]).

    ** Bounds and fuel

    No fuel is used: every loop of the code is a [forEach], [map],
    [filter] or [Set] over a finite array and is modelled by structural
    recursion on the list ([fold_left], [flat_map], ...).  The
    asynchronous pages are explicit step functions driven by a finite
    list of events ([home_run], [form_run], the pages' [run]), so every
    run terminates and [vm_compute] evaluates the witnesses.  Where the
    program itself could keep going (the database answering the
    overlapping [fetchData] calls of the products page), termination is
    proved with a measure: [pending] counts the answers still owed, two
    per call waiting for the brands and one per call waiting for the
    products, and every answer lowers it ([answer_decreases]); the
    relation is then included in [ltof pending] ([wf_incl]).  Prices
    are integers (the numeric column's value in its smallest unit);
    only their zero test and equality matter, so no width bound is
    needed.

    ** Not modelled

    Markup and CSS: a render is modelled as the data it shows (texts,
    flags such as [disabled], the order of rows and columns), not as
    HTML; the dashboard and the root layout are their texts and frame
    ([Site]), and [inter.className] of [next/font] is an input.  The
    Supabase client ([lib/supabase] is not among the sources) and the
    database: their responses are inputs of the handlers.  Routing,
    authentication internals, [window.print] (an effect), [alert] and
    [confirm] (effects and inputs) and date formatting (an input, the
    parameter [formatDate] of [history_view]).  The page [/login], the
    target of the admin login link and of the gate's redirects, is not
    among the sources.  [Prices] runs [handleSave] as one step;
    [PricesAsync] interleaves it with the page's events.  The prices
    page's inputs hold numbers, where the browser
    holds the typed strings.  Records with [null] text fields are
    outside the model (the code would throw on them).  Writing the
    brand name ["__proto__"] (a setter in JS) is modelled as an
    ordinary property.  Strings are 8-bit: JS strings are UTF-16 and
    the model covers their Latin-1 part: [toLowerCase] maps [A]-[Z]
    and [À]-[Þ] (but [×]) as JS does, and [toUpperCase] maps [a]-[z] and
    [à]-[þ] (but [÷]); the three Latin-1 letters whose upper case lies
    outside Latin-1 ([µ], [ÿ], and [ß], which becomes ["SS"]) are kept
    unchanged by the model's [toUpperCase].

    ** Further work

    A model of the database's tables (the [prices] upsert on
    [product_id], the unique brand name) to state end-to-end properties
    across pages; React's batching of [setState] during a render, so
    that the handlers' closures are tied to renders in every page as in
    [Settings]. *)

From stdpp Require Import base list strings sorting.
From Stdlib Require Import Ascii.

Declare Scope spt_scope.
Delimit Scope spt_scope with spt.

(** The development's hint database. *)
Create HintDb spt discriminated.

(** Boolean connectives to propositions, in hypotheses and goal. *)
Ltac bool_to_prop :=
  repeat match goal with
  | H : (_ && _) = true |- _ => apply andb_true_iff in H as [? ?]
  | H : (_ || _) = false |- _ => apply orb_false_iff in H as [? ?]
  | H : negb _ = true |- _ => apply negb_true_iff in H
  | H : negb _ = false |- _ => apply negb_false_iff in H
  | |- (_ && _) = true => apply andb_true_iff; split
  | |- (_ || _) = false => apply orb_false_iff; split
  end.

Section fold_lemmas.
Context {A B : Type}.

(** An invariant of the accumulator of [fold_left] that every step
    preserves holds at the end: the shape of every [forEach] loop. *)
Lemma fold_left_invariant (P : B -> Prop) (f : B -> A -> B) (l : list A) (b : B) :
  P b -> (forall acc x, x ∈ l -> P acc -> P (f acc x)) -> P (fold_left f l b).
Proof.
  revert b. induction l as [|x l IH]; intros b Hb Hstep; simpl; [done|].
  apply IH; [apply Hstep; [left|done]|].
  intros acc y Hy. apply Hstep. by right.
Qed.
End fold_lemmas.

Section list_lemmas.
Context {A : Type}.

Lemma elem_of_filter_bool (f : A -> bool) (l : list A) (x : A) :
  x ∈ List.filter f l <-> x ∈ l /\ f x = true.
Proof. rewrite !list_elem_of_In. apply filter_In. Qed.

Lemma filter_bool_sublist (f : A -> bool) (l : list A) :
  sublist (List.filter f l) l.
Proof.
  induction l as [|x l IH]; simpl; [constructor|].
  destruct (f x); by constructor.
Qed.

Lemma filter_bool_all (f : A -> bool) (l : list A) :
  (forall x, x ∈ l -> f x = true) -> List.filter f l = l.
Proof.
  induction l as [|x l IH]; intros H; simpl; [done|].
  rewrite H; [|left]. f_equal. apply IH. intros y Hy. apply H. by right.
Qed.

Lemma filter_bool_all_false (f : A -> bool) (l : list A) :
  (forall x, x ∈ l -> f x = false) -> List.filter f l = [].
Proof.
  induction l as [|x l IH]; intros H; simpl; [done|].
  rewrite H; [|left]. apply IH. intros y Hy. apply H. by right.
Qed.

Lemma filter_bool_mono (f g : A -> bool) (l : list A) :
  (forall x, x ∈ l -> f x = true -> g x = true) ->
  sublist (List.filter f l) (List.filter g l).
Proof.
  induction l as [|x l IH]; intros H; simpl; [constructor|].
  assert (IH' : sublist (List.filter f l) (List.filter g l)).
  { apply IH. intros y Hy. apply H. by right. }
  destruct (f x) eqn:Hf.
  - rewrite (H x); [by constructor|left|done].
  - destruct (g x); [by constructor|done].
Qed.
(** A sublist of a list sorted by a transitive relation is sorted. *)
Lemma Sorted_sublist (R : relation A) `{!Transitive R} (l1 l2 : list A) :
  sublist l1 l2 -> Sorted R l2 -> Sorted R l1.
Proof.
  intros Hs Hl. apply StronglySorted_Sorted. apply Sorted_StronglySorted in Hl; [|done].
  induction Hs as [|x l1 l2 Hs IH|x l1 l2 Hs IH]; [constructor| |];
    apply StronglySorted_inv in Hl as [Hl Hx].
  - constructor; [by apply IH|]. rewrite Forall_forall in Hx |- *.
    intros y Hy. apply Hx. by eapply elem_of_sublist.
  - by apply IH.
Qed.

Lemma sublist_map {B : Type} (f : A -> B) (l1 l2 : list A) :
  sublist l1 l2 -> sublist (map f l1) (map f l2).
Proof. induction 1; simpl; by constructor. Qed.
End list_lemmas.

#[export] Hint Resolve filter_bool_sublist : spt.

Section omap_lemmas.
Context {A B : Type}.

Lemma omap_cons (f : A -> option B) (a : A) (l : list A) :
  omap f (a :: l) = match f a with Some y => y :: omap f l | None => omap f l end.
Proof. reflexivity. Qed.

Lemma omap_ext (f g : A -> option B) (l : list A) :
  (forall a, a ∈ l -> f a = g a) -> omap f l = omap g l.
Proof.
  intros H. induction l as [|a l IH]; [done|]. rewrite !omap_cons.
  rewrite (H a) by apply list_elem_of_here.
  rewrite IH; [done|]. intros b Hb. apply H. by apply list_elem_of_further.
Qed.
End omap_lemmas.

Section sum_lemmas.
Context {A : Type}.

Lemma sum_list_map_le (f g : A -> nat) (l : list A) :
  (forall y, y ∈ l -> f y <= g y) -> sum_list (map f l) <= sum_list (map g l).
Proof.
  induction l as [|y l IH]; intros Hle; simpl; [lia|].
  assert (f y <= g y) by (apply Hle; left).
  enough (sum_list (map f l) <= sum_list (map g l)) by lia.
  apply IH. intros z Hz. apply Hle. by right.
Qed.

(** A sum of weights decreases when no weight grows and one shrinks:
    the measure argument of the termination proofs. *)
Lemma sum_list_map_lt (f g : A -> nat) (l : list A) (x : A) :
  (forall y, y ∈ l -> f y <= g y) -> x ∈ l -> f x < g x ->
  sum_list (map f l) < sum_list (map g l).
Proof.
  induction l as [|y l IH]; intros Hle Hx Hlt; [by apply elem_of_nil in Hx|]. simpl.
  assert (Hy : f y <= g y) by (apply Hle; left).
  assert (Hrest : sum_list (map f l) <= sum_list (map g l)).
  { apply sum_list_map_le. intros z Hz. apply Hle. by right. }
  apply elem_of_cons in Hx as [->|Hx]; [lia|].
  enough (sum_list (map f l) < sum_list (map g l)) by lia.
  apply IH; [|done|done]. intros z Hz. apply Hle. by right.
Qed.

Lemma sum_list_map_filter (f : A -> nat) (p : A -> bool) (l : list A) :
  sum_list (map f (List.filter p l)) = sum_list (map (fun x => if p x then f x else 0) l).
Proof. induction l as [|x l IH]; simpl; [done|]. destruct (p x); simpl; lia. Qed.
End sum_lemmas.


(** Close a decidable proposition on closed data by evaluating its
    decision procedure. *)
Ltac compute_decide := eapply bool_decide_eq_true_1; vm_compute; reflexivity.

(** ** Nested traversals

    [xs.map(x => ys.map(y => f(x, y)))] rendered as a flat row of table
    cells is [flat_map (fun x => map (f x) ys) xs]; its cell for
    [(x_i, y_j)] sits at index [i * |ys| + j]. *)
Section nested.
Context {A B C : Type} (f : A -> B -> C).

Lemma length_flat_map_map (xs : list A) (ys : list B) :
  length (flat_map (fun a => map (f a) ys) xs) = length xs * length ys.
Proof.
  induction xs as [|x xs IH]; simpl; [done|].
  rewrite length_app, length_map, IH. lia.
Qed.

Lemma lookup_flat_map_map (xs : list A) (ys : list B) (i j : nat) (x : A) (y : B) :
  xs !! i = Some x -> ys !! j = Some y ->
  flat_map (fun a => map (f a) ys) xs !! (i * length ys + j) = Some (f x y).
Proof.
  revert i. induction xs as [|x0 xs IH]; intros i Hx Hy; [done|].
  pose proof (lookup_lt_Some _ _ _ Hy) as Hj.
  destruct i as [|i]; simpl in *.
  - injection Hx as ->. rewrite lookup_app_l by (rewrite length_map; lia).
    by rewrite list_lookup_fmap, Hy.
  - rewrite lookup_app_r by (rewrite length_map; lia). rewrite length_map.
    replace (length ys + i * length ys + j - length ys) with (i * length ys + j) by lia.
    by apply IH.
Qed.
End nested.

(** ** Runs of an event-driven page

    Every page is a step function [step : S -> E -> option (S * list F)]
    from its state and an event (a click, a keystroke, an answer of the
    database) to the next state and the effects it issues, [None] where
    the event cannot happen in that state.  A run feeds a list of events
    in order and collects the effects. *)
Section runs.
Context {S E F : Type} (step : S -> E -> option (S * list F)).

Fixpoint run_steps (st : S) (evs : list E) : option (S * list F) :=
  match evs with
  | [] => Some (st, [])
  | ev :: evs' =>
      step st ev ≫= fun '(st1, e1) =>
      run_steps st1 evs' ≫= fun '(st2, e2) => Some (st2, e1 ++ e2)
  end.

Lemma run_steps_cons (st st2 : S) (ev : E) (evs : list E) (e : list F) :
  run_steps st (ev :: evs) = Some (st2, e) ->
  exists st1 e1 e2, step st ev = Some (st1, e1) /\ run_steps st1 evs = Some (st2, e2) /\ e = e1 ++ e2.
Proof.
  simpl. destruct (step st ev) as [[st1 e1]|]; simpl; [|done].
  destruct (run_steps st1 evs) as [[st2' e2]|] eqn:Hr; simpl; [|done].
  intros H. injection H as <- <-. by exists st1, e1, e2.
Qed.

(** A property every step keeps holds along every run. *)
Lemma run_steps_invariant (P : S -> Prop) :
  (forall st st' ev e, P st -> step st ev = Some (st', e) -> P st') ->
  forall evs st st' e, P st -> run_steps st evs = Some (st', e) -> P st'.
Proof.
  intros Hstep evs. induction evs as [|ev evs IH]; intros st st' e Hp Hrun.
  - by injection Hrun as <- _.
  - apply run_steps_cons in Hrun as (st1 & e1 & e2 & Hs & Hr & _). eauto.
Qed.

(** A property every effect of every step has holds of all the
    effects of every run. *)
Lemma run_steps_effects (Q : F -> Prop) :
  (forall st st' ev e, step st ev = Some (st', e) -> Forall Q e) ->
  forall evs st st' e, run_steps st evs = Some (st', e) -> Forall Q e.
Proof.
  intros Hstep evs. induction evs as [|ev evs IH]; intros st st' e Hrun.
  - by injection Hrun as _ <-.
  - apply run_steps_cons in Hrun as (st1 & e1 & e2 & Hs & Hr & ->).
    apply Forall_app. eauto.
Qed.

Lemma run_steps_app (st : S) (evs1 evs2 : list E) :
  run_steps st (evs1 ++ evs2) =
    run_steps st evs1 ≫= fun '(st1, e1) => run_steps st1 evs2 ≫= fun '(st2, e2) => Some (st2, e1 ++ e2).
Proof.
  revert st. induction evs1 as [|ev evs1 IH]; intros st; simpl.
  - by destruct (run_steps st evs2) as [[??]|].
  - destruct (step st ev) as [[st1 e1]|]; simpl; [|done]. rewrite IH.
    destruct (run_steps st1 evs1) as [[st2 e2]|]; simpl; [|done].
    destruct (run_steps st2 evs2) as [[st3 e3]|]; simpl; [|done]. by rewrite app_assoc.
Qed.
End runs.
