(* ===== verification/JsCore.v ===== *)
(** * JavaScript built-ins used by the pages

    The string methods ([toLowerCase], [toUpperCase], [includes], [trim]),
    [new Set(array)] spread back into an array, [Array.prototype.sort()]
    without comparator on strings, and property access on plain objects
    ([obj[k]] falls back to [Object.prototype]; [Object.values] lists
    integer-like keys first).  Strings are Rocq strings of 8-bit
    characters read as Latin-1 code points. *)

From stdpp Require Import base list strings sorting gmap.
From Stdlib Require Import Ascii.
From S2P Require Import Prelude.

Local Open Scope string_scope.

(** ** Strings *)

(** [String.append] is [simpl never] under stdpp; its two equations. *)
Lemma string_app_nil_l (s : string) : "" +:+ s = s.
Proof. reflexivity. Qed.

Lemma string_app_cons (c : ascii) (s t : string) :
  String c s +:+ t = String c (s +:+ t).
Proof. reflexivity. Qed.

Lemma string_app_nil_r (s : string) : s +:+ "" = s.
Proof. induction s as [|c s IH]; [done|]. by rewrite string_app_cons, IH. Qed.

Lemma string_app_assoc (s t u : string) : s +:+ (t +:+ u) = (s +:+ t) +:+ u.
Proof. induction s as [|c s IH]; [done|]. by rewrite !string_app_cons, IH. Qed.

Create Rewrite HintDb js_string.
#[export] Hint Rewrite string_app_nil_l string_app_cons string_app_nil_r : js_string.

(** The double quote character, as it appears inside the pages' texts. *)
Definition quote : string := String "034"%char EmptyString.

(** [String.prototype.toLowerCase] on a Latin-1 code point: the
    upper-case letters [A]-[Z] (65-90) and [À]-[Þ] (192-222) but the
    sign [×] (215) map to the letter 32 code points above; every other
    Latin-1 code point is its own lower case. *)
Definition lower_ascii (c : ascii) : ascii :=
  let n := nat_of_ascii c in
  if ((65 <=? n)%nat && (n <=? 90)%nat) || ((192 <=? n)%nat && (n <=? 222)%nat && negb (n =? 215)%nat)
  then ascii_of_nat (n + 32) else c.

(** [String.prototype.toUpperCase] on a Latin-1 code point: [a]-[z]
    and [à]-[þ] but [÷] (247) map 32 code points down.  The three
    Latin-1 letters whose upper case lies outside Latin-1 ([µ] to Greek
    [Μ], [ÿ] to [Ÿ], [ß] to ["SS"]) are left unchanged. *)
Definition upper_ascii (c : ascii) : ascii :=
  let n := nat_of_ascii c in
  if ((97 <=? n)%nat && (n <=? 122)%nat) || ((224 <=? n)%nat && (n <=? 254)%nat && negb (n =? 247)%nat)
  then ascii_of_nat (n - 32) else c.

Fixpoint toLowerCase (s : string) : string :=
  match s with
  | "" => ""
  | String c s' => String (lower_ascii c) (toLowerCase s')
  end.

Fixpoint toUpperCase (s : string) : string :=
  match s with
  | "" => ""
  | String c s' => String (upper_ascii c) (toUpperCase s')
  end.

(** [s.includes(q)]: [q] occurs in [s] at some position. *)
Fixpoint includes (s q : string) : bool :=
  String.prefix q s ||
  match s with
  | "" => false
  | String _ s' => includes s' q
  end.

(** JS white space and line terminators in the Latin-1 range:
    TAB, LF, VT, FF, CR, SPACE and NO-BREAK SPACE. *)
Definition is_js_space (c : ascii) : bool :=
  let n := nat_of_ascii c in
  ((9 <=? n)%nat && (n <=? 13)%nat) || (n =? 32)%nat || (n =? 160)%nat.

Fixpoint trimStart (s : string) : string :=
  match s with
  | "" => ""
  | String c s' => if is_js_space c then trimStart s' else s
  end.

Fixpoint trimEnd (s : string) : string :=
  match s with
  | "" => ""
  | String c s' =>
      match trimEnd s' with
      | "" => if is_js_space c then "" else String c ""
      | t => String c t
      end
  end.

(** [String.prototype.trim]. *)
Definition trim (s : string) : string := trimEnd (trimStart s).

(** *** Lemmas on the string built-ins *)

Lemma lower_ascii_idem (c : ascii) : lower_ascii (lower_ascii c) = lower_ascii c.
Proof. destruct c as [[] [] [] [] [] [] [] []]; reflexivity. Qed.

Lemma lower_upper_ascii (c : ascii) : lower_ascii (upper_ascii c) = lower_ascii c.
Proof. destruct c as [[] [] [] [] [] [] [] []]; reflexivity. Qed.

Lemma toLowerCase_idem (s : string) : toLowerCase (toLowerCase s) = toLowerCase s.
Proof. induction s as [|c s IH]; simpl; [done|]. by rewrite lower_ascii_idem, IH. Qed.

Lemma toLowerCase_toUpperCase (s : string) :
  toLowerCase (toUpperCase s) = toLowerCase s.
Proof. induction s as [|c s IH]; simpl; [done|]. by rewrite lower_upper_ascii, IH. Qed.

Lemma toLowerCase_app (s t : string) :
  toLowerCase (s +:+ t) = toLowerCase s +:+ toLowerCase t.
Proof. induction s as [|c s IH]; simpl; [done|]. by rewrite IH. Qed.

#[export] Hint Rewrite toLowerCase_idem toLowerCase_toUpperCase toLowerCase_app : js_string.

Lemma prefix_iff (q s : string) : String.prefix q s = true <-> exists b, s = q +:+ b.
Proof.
  revert s. induction q as [|c q IH]; intros [|d s]; simpl.
  - split; [by exists ""|done].
  - split; [by exists (String d s)|done].
  - split; [done|]. by intros [b Hb].
  - destruct (ascii_dec c d) as [<-|Hne].
    + rewrite IH. split; intros [b Hb]; exists b; [by subst|by injection Hb].
    + split; [done|]. intros [b Hb]. injection Hb. congruence.
Qed.

(** [includes] is substring containment. *)
Lemma includes_iff (s q : string) :
  includes s q = true <-> exists a b, s = a +:+ q +:+ b.
Proof.
  induction s as [|c s IH]; cbn [includes]; rewrite orb_true_iff, prefix_iff.
  - split.
    + intros [[b Hb]|Hf]; [by exists "", b|done].
    + intros [[|d a] [b Hb]]; [left; by exists b|done].
  - rewrite IH. split.
    + intros [[b Hb]|[a [b Hb]]].
      * by exists "", b.
      * exists (String c a), b. by rewrite Hb.
    + intros [[|d a] [b Hb]]; [left; by exists b|].
      right. injection Hb as -> ->. by exists a, b.
Qed.

Lemma includes_empty (s : string) : includes s "" = true.
Proof. destruct s; reflexivity. Qed.

Lemma includes_refl (s : string) : includes s s = true.
Proof. apply includes_iff. exists "", "". by rewrite string_app_nil_r. Qed.

Lemma includes_trans (s q r : string) :
  includes s q = true -> includes q r = true -> includes s r = true.
Proof.
  rewrite !includes_iff. intros [a [b ->]] [c [d ->]].
  exists (a +:+ c), (d +:+ b). by rewrite <- !string_app_assoc.
Qed.

#[export] Hint Resolve includes_empty includes_refl : spt.

Lemma trimStart_idem (s : string) : trimStart (trimStart s) = trimStart s.
Proof.
  induction s as [|c s IH]; simpl; [done|].
  destruct (is_js_space c) eqn:Hc; [done|]. simpl. by rewrite Hc.
Qed.

Lemma trimEnd_trimStart (s : string) : trimStart (trimEnd s) = trimEnd (trimStart s).
Proof.
  induction s as [|c s IH]; simpl; [done|].
  destruct (is_js_space c) eqn:Hc.
  - rewrite <- IH. by destruct (trimEnd s); simpl; rewrite ?Hc.
  - simpl. destruct (trimEnd s); simpl; by rewrite Hc.
Qed.

Lemma trimEnd_cons (c : ascii) (s : string) :
  trimEnd (String c s) =
  match trimEnd s with
  | "" => if is_js_space c then "" else String c ""
  | t => String c t
  end.
Proof. reflexivity. Qed.

Lemma trimEnd_idem (s : string) : trimEnd (trimEnd s) = trimEnd s.
Proof.
  induction s as [|c s IH]; [done|]. rewrite trimEnd_cons.
  destruct (trimEnd s) as [|d t] eqn:Ht.
  - destruct (is_js_space c) eqn:Hc; simpl; [done|by rewrite Hc].
  - by rewrite trimEnd_cons, IH.
Qed.

(** [trim] is idempotent: trimming an already trimmed value changes
    nothing. *)
Lemma trim_idem (s : string) : trim (trim s) = trim s.
Proof.
  unfold trim. by rewrite trimEnd_trimStart, trimStart_idem, trimEnd_idem.
Qed.

(** ** Splitting, joining and replacing *)

(** [s.split(sep)] for a one-character separator: the first word and
    the words after it. *)
Fixpoint split_char_aux (sep : ascii) (s : string) : string * list string :=
  match s with
  | EmptyString => ("", [])
  | String c s' =>
      let '(w, ws) := split_char_aux sep s' in
      if Ascii.eqb c sep then ("", w :: ws) else (String c w, ws)
  end.

(** The array [s.split(sep)]: never empty, [""] for the empty string. *)
Definition split_char (sep : ascii) (s : string) : list string :=
  let '(w, ws) := split_char_aux sep s in w :: ws.

(** [words.join(sep)]. *)
Fixpoint join (sep : string) (ws : list string) : string :=
  match ws with
  | [] => ""
  | [w] => w
  | w :: ws' => w +:+ sep +:+ join sep ws'
  end.

(** [s.replace(pat, rep)] with a string pattern: only the first
    occurrence is replaced. *)
Fixpoint replace_first (pat rep s : string) : string :=
  if String.prefix pat s then rep +:+ String.substring (String.length pat) (String.length s) s
  else match s with
       | EmptyString => EmptyString
       | String c s' => String c (replace_first pat rep s')
       end.

(** [w.charAt(0).toUpperCase() + w.slice(1)]. *)
Definition capitalize (w : string) : string :=
  match w with
  | EmptyString => EmptyString
  | String c w' => String (upper_ascii c) w'
  end.

(** A string without the character [c]. *)
Definition no_char (c : ascii) (s : string) : Prop := c ∉ String.list_ascii_of_string s.

Lemma split_char_aux_no_sep (sep : ascii) (w : string) :
  no_char sep w -> split_char_aux sep w = (w, []).
Proof.
  unfold no_char. induction w as [|c w IH]; intros Hw; [done|]. simpl in *.
  rewrite IH by (intros Hin; apply Hw; by right).
  destruct (Ascii.eqb_spec c sep) as [->|]; [|done].
  exfalso. apply Hw. left.
Qed.

Lemma split_char_aux_app (sep : ascii) (w rest : string) :
  no_char sep w -> split_char_aux sep (w +:+ String sep rest) = (w, split_char sep rest).
Proof.
  unfold no_char, split_char. induction w as [|c w IH]; intros Hw; simpl.
  - destruct (split_char_aux sep rest). by rewrite Ascii.eqb_refl.
  - rewrite IH by (intros Hin; apply Hw; by right).
    destruct (Ascii.eqb_spec c sep) as [->|]; [|done].
    exfalso. apply Hw. left.
Qed.

Lemma join_cons_cons (sep w w' : string) (ws : list string) :
  join sep (w :: w' :: ws) = w +:+ sep +:+ join sep (w' :: ws).
Proof. reflexivity. Qed.

Lemma join_cons_char (sep : string) (c : ascii) (w : string) (ws : list string) :
  join sep (String c w :: ws) = String c (join sep (w :: ws)).
Proof. by destruct ws. Qed.

(** Joining the words of a split gives the string back. *)
Lemma join_split_char (sep : ascii) (s : string) :
  join (String sep "") (split_char sep s) = s.
Proof.
  unfold split_char. induction s as [|c s IH]; [done|]. simpl.
  destruct (split_char_aux sep s) as [w ws] eqn:E. cbv beta iota in IH.
  destruct (Ascii.eqb_spec c sep) as [->|]; cbv beta iota.
  - by rewrite join_cons_cons, IH.
  - by rewrite join_cons_char, IH.
Qed.

Lemma substring_0_all (m : nat) (s : string) :
  String.length s <= m -> String.substring 0 m s = s.
Proof.
  revert m. induction s as [|c s IH]; intros [|m] Hm; simpl in *; try done; [lia|].
  rewrite IH; [done|lia].
Qed.

Lemma substring_app (m : nat) (p r : string) :
  String.substring (String.length p) m (p +:+ r) = String.substring 0 m r.
Proof. induction p as [|c p IH]; [done|]. by rewrite string_app_cons. Qed.

Lemma length_string_app (p r : string) :
  String.length (p +:+ r) = String.length p + String.length r.
Proof. induction p as [|c p IH]; [done|]. rewrite string_app_cons. simpl. by rewrite IH. Qed.

Lemma replace_first_match (pat rep s : string) :
  String.prefix pat s = true ->
  replace_first pat rep s = rep +:+ String.substring (String.length pat) (String.length s) s.
Proof. intros Hp. destruct s; cbn [replace_first]; by rewrite Hp. Qed.

(** [(pat + r).replace(pat, rep)] is [rep + r]. *)
Lemma replace_first_prefix (pat rep r : string) :
  replace_first pat rep (pat +:+ r) = rep +:+ r.
Proof.
  rewrite replace_first_match by (apply prefix_iff; by exists r).
  rewrite substring_app, substring_0_all; [done|].
  rewrite length_string_app. lia.
Qed.

(** Splitting a join of separator-free words gives the words back. *)
Lemma split_char_join (sep : ascii) (ws : list string) :
  ws <> [] -> Forall (no_char sep) ws -> split_char sep (join (String sep "") ws) = ws.
Proof.
  induction ws as [|w [|w' ws] IH]; intros Hne Hws; [done| |].
  - apply Forall_cons in Hws as [Hw _].
    unfold split_char. simpl. by rewrite split_char_aux_no_sep.
  - apply Forall_cons in Hws as [Hw Hws].
    rewrite join_cons_cons. unfold split_char at 1. rewrite string_app_cons, string_app_nil_l, split_char_aux_app by done.
    by rewrite IH.
Qed.

(** ** Sets and sorting *)

Section js_set.
Context `{EqDecision A}.

(** [Set.prototype.add] on the insertion-ordered contents of a Set. *)
Definition set_add (acc : list A) (x : A) : list A :=
  if decide (x ∈ acc) then acc else acc ++ [x].

(** [[...new Set(l)]]: the distinct elements in first-occurrence order. *)
Definition js_set_of (l : list A) : list A := fold_left set_add l [].

Lemma js_set_of_snoc (l : list A) (x : A) :
  js_set_of (l ++ [x]) = set_add (js_set_of l) x.
Proof. unfold js_set_of. by rewrite fold_left_app. Qed.

Lemma elem_of_fold_set_add (l acc : list A) (x : A) :
  x ∈ fold_left set_add l acc <-> x ∈ acc \/ x ∈ l.
Proof.
  revert acc. induction l as [|y l IH]; intros acc; simpl; [set_solver|].
  rewrite IH. unfold set_add. case_decide; set_solver.
Qed.

Lemma elem_of_js_set_of (l : list A) (x : A) : x ∈ js_set_of l <-> x ∈ l.
Proof. unfold js_set_of. rewrite elem_of_fold_set_add. set_solver. Qed.

Lemma NoDup_js_set_of (l : list A) : NoDup (js_set_of l).
Proof.
  unfold js_set_of. apply fold_left_invariant; [constructor|].
  intros acc x _ Hnd. unfold set_add. case_decide; [done|].
  apply NoDup_app. split_and!; [done| |by constructor; [set_solver|constructor]].
  intros y Hy ->%list_elem_of_singleton. done.
Qed.

Lemma js_set_of_nil (l : list A) : js_set_of l = [] <-> l = [].
Proof.
  split; [|by intros ->]. destruct l as [|x l]; [done|]. intros H.
  assert (Hx : x ∈ js_set_of (x :: l)) by (apply elem_of_js_set_of; left).
  rewrite H in Hx. by apply elem_of_nil in Hx.
Qed.

(** The Set keeps the order of first occurrences: it is a sublist. *)
Lemma js_set_of_sublist (l : list A) : sublist (js_set_of l) l.
Proof.
  induction l as [|x l IH] using rev_ind; [constructor|].
  rewrite js_set_of_snoc. unfold set_add. case_decide.
  - by apply sublist_inserts_r.
  - by apply sublist_app.
Qed.
End js_set.

#[export] Hint Resolve NoDup_js_set_of js_set_of_sublist : spt.

(** [Array.prototype.sort()] with no comparator: strings compared code
    unit by code unit.  The engine's algorithm is not observable on
    duplicate-free input (see [js_sort_unique]); merge sort stands for
    it. *)
Definition js_sort (l : list string) : list string := merge_sort String.le l.

Lemma js_sort_sorted (l : list string) : Sorted String.le (js_sort l).
Proof. apply Sorted_merge_sort. apply _. Qed.

Lemma js_sort_perm (l : list string) : js_sort l ≡ₚ l.
Proof. apply merge_sort_Permutation. Qed.

Lemma elem_of_js_sort (l : list string) (x : string) : x ∈ js_sort l <-> x ∈ l.
Proof. by rewrite js_sort_perm. Qed.

Lemma NoDup_js_sort (l : list string) : NoDup l -> NoDup (js_sort l).
Proof. by rewrite js_sort_perm. Qed.

(** Every sorting algorithm gives the same array: a sorted permutation
    is unique. *)
Lemma js_sort_unique (l l' : list string) :
  Sorted String.le l' -> l' ≡ₚ l -> l' = js_sort l.
Proof.
  intros Hs Hp. apply (Sorted_unique String.le); [done|apply js_sort_sorted|].
  by rewrite js_sort_perm.
Qed.

#[export] Hint Resolve js_sort_sorted NoDup_js_sort : spt.

(** ** Plain objects *)

(** The properties every plain object inherits from [Object.prototype]. *)
Definition object_prototype_keys : list string :=
  ["constructor"; "hasOwnProperty"; "isPrototypeOf"; "propertyIsEnumerable";
   "toLocaleString"; "toString"; "valueOf"; "__defineGetter__";
   "__defineSetter__"; "__lookupGetter__"; "__lookupSetter__"; "__proto__"].

(** The value read by [obj[k]]: an own property, an inherited member of
    [Object.prototype] (a function or object: truthy, and not a price
    object), or [undefined]. *)
Inductive js_prop (V : Type) : Type :=
  | PropOwn (v : V)
  | PropInherited
  | PropUndefined.
Arguments PropOwn {V} v.
Arguments PropInherited {V}.
Arguments PropUndefined {V}.

Definition js_prop_of {V} (own : option V) (k : string) : js_prop V :=
  match own with
  | Some v => PropOwn v
  | None => if decide (k ∈ object_prototype_keys) then PropInherited else PropUndefined
  end.

(** [obj[k]] on an object whose own properties are the map [m]. *)
Definition map_get {V} (m : gmap string V) (k : string) : js_prop V :=
  js_prop_of (m !! k) k.

(** Objects whose enumeration order matters: own properties in insertion
    order. *)
Fixpoint assoc_lookup {V} (o : list (string * V)) (k : string) : option V :=
  match o with
  | [] => None
  | (k', v) :: o' => if decide (k = k') then Some v else assoc_lookup o' k
  end.

(** [obj[k] = v]: overwrite in place, or append a new key. *)
Fixpoint assoc_set {V} (o : list (string * V)) (k : string) (v : V) : list (string * V) :=
  match o with
  | [] => [(k, v)]
  | (k', v') :: o' => if decide (k = k') then (k, v) :: o' else (k', v') :: assoc_set o' k v
  end.

Definition obj_get {V} (o : list (string * V)) (k : string) : js_prop V :=
  js_prop_of (assoc_lookup o k) k.

(** Array-index keys: canonical decimal numerals below [2^32 - 1]. *)
Fixpoint digits_value (s : string) (acc : N) : option N :=
  match s with
  | "" => Some acc
  | String c s' =>
      match Ascii.is_nat c with
      | Some d => digits_value s' (acc * 10 + N.of_nat d)%N
      | None => None
      end
  end.

Definition leading_zero (s : string) : bool :=
  match s with
  | String c (String _ _) => Ascii.eqb c "0"
  | _ => false
  end.

Definition array_index (k : string) : option N :=
  if String.eqb k "" || leading_zero k then None
  else match digits_value k 0 with
       | Some n => if (n <? 4294967295)%N then Some n else None
       | None => None
       end.

Definition index_le {V} (p q : string * V) : Prop :=
  (default 0 (array_index p.1) <= default 0 (array_index q.1))%N.

#[export] Instance index_le_dec {V} : RelDecision (@index_le V).
Proof. intros p q. unfold index_le. apply _. Defined.

Definition is_index_key {V} (p : string * V) : bool :=
  match array_index p.1 with Some _ => true | None => false end.

(** [Object.values(o)]: array-index keys in ascending numeric order,
    then the other string keys in insertion order. *)
Definition obj_values {V} (o : list (string * V)) : list V :=
  map snd (merge_sort index_le (List.filter is_index_key o) ++
           List.filter (fun p => negb (is_index_key p)) o).

(** *** Lemmas on objects *)

Section objects.
Context {V : Type}.

Lemma assoc_lookup_set (o : list (string * V)) (k k' : string) (v : V) :
  assoc_lookup (assoc_set o k v) k' = if decide (k' = k) then Some v else assoc_lookup o k'.
Proof.
  induction o as [|[k0 v0] o IH]; simpl; [by repeat case_decide|].
  repeat (case_decide; simplify_eq/=); try done; congruence.
Qed.

Lemma assoc_set_keys (o : list (string * V)) (k : string) (v : V) :
  map fst (assoc_set o k v) = if decide (k ∈ map fst o) then map fst o else (map fst o ++ [k])%list.
Proof.
  induction o as [|[k0 v0] o IH]; simpl; [done|].
  destruct (decide (k = k0)) as [->|Hk]; simpl.
  - rewrite decide_True; [done|apply list_elem_of_here].
  - rewrite IH. destruct (decide (k ∈ map fst o)) as [Hin|Hin].
    + rewrite decide_True; [done|by apply list_elem_of_further].
    + rewrite decide_False; [done|]. rewrite elem_of_cons. tauto.
Qed.

Lemma assoc_lookup_elem_of (o : list (string * V)) (k : string) (v : V) :
  assoc_lookup o k = Some v -> (k, v) ∈ o.
Proof.
  induction o as [|[k0 v0] o IH]; simpl; [done|].
  case_decide; [intros [= ->]; subst; left|intros; right; auto].
Qed.

Lemma assoc_lookup_None (o : list (string * V)) (k : string) :
  assoc_lookup o k = None <-> k ∉ map fst o.
Proof.
  induction o as [|[k0 v0] o IH]; simpl; [set_solver|].
  case_decide; subst; [set_solver|]. rewrite IH. set_solver.
Qed.

Lemma assoc_lookup_NoDup (o : list (string * V)) (k : string) (v : V) :
  NoDup (map fst o) -> (k, v) ∈ o -> assoc_lookup o k = Some v.
Proof.
  induction o as [|[k0 v0] o IH]; simpl; [set_solver|].
  intros [Hk0 Hnd]%NoDup_cons [[= -> ->]|Hin]%elem_of_cons.
  - by rewrite decide_True.
  - rewrite decide_False; [by apply IH|]. intros ->. apply Hk0.
    apply list_elem_of_fmap. by exists (k0, v).
Qed.

(** A key containing a non-digit is not an array index. *)
Lemma digits_value_non_digit (s t : string) (c : ascii) (acc : N) :
  Ascii.is_nat c = None -> digits_value (s +:+ String c t) acc = None.
Proof.
  revert acc. induction s as [|d s IH]; intros acc Hc; simpl; [by rewrite Hc|].
  destruct (Ascii.is_nat d); [apply IH, Hc|done].
Qed.

Lemma array_index_non_digit (s t : string) (c : ascii) :
  Ascii.is_nat c = None -> array_index (s +:+ String c t) = None.
Proof.
  intros Hc. unfold array_index. rewrite digits_value_non_digit by done.
  by destruct (_ || _).
Qed.

(** Without array-index keys, [Object.values] is insertion order. *)
Lemma obj_values_plain (o : list (string * V)) :
  (forall p, p ∈ o -> array_index p.1 = None) -> obj_values o = map snd o.
Proof.
  intros H. unfold obj_values.
  rewrite (filter_bool_all (fun p => negb (is_index_key p)) o).
  - assert (Hnil : List.filter is_index_key o = []).
    { apply filter_bool_all_false. intros p Hp. unfold is_index_key. by rewrite H. }
    by rewrite Hnil.
  - intros p Hp. unfold is_index_key. by rewrite H.
Qed.
End objects.
