(* ===== verification/Catalog.v ===== *)
(** * The catalog data the pages receive

    The rows of [products.select("*, brands (name), prices ( * )")] and
    what the pages build from them.  A price row has the five numeric
    tier columns of the [prices] table ([null] is [None]); the embedded
    [prices] relation arrives as [null], an array, or a single object
    (the shape [getPriceObj] of [src/app/admin/prices/page.js] tests
    for).  A grouped row is the object built in [processData]. *)

From stdpp Require Import base list strings gmap.
From Stdlib Require Import ZArith.
From S2P Require Import Prelude JsCore.

Local Open Scope string_scope.

(** The tier keys used as property names ([tierKey] in page.tsx). *)
Module Tier.
Inductive key : Type :=
  | price_distributor
  | price_agent
  | price_workshop
  | price_retail
  | price_online.

#[global] Instance key_eq_dec : EqDecision key.
Proof. solve_decision. Defined.
End Tier.

(** A row of the [prices] table (its numeric columns). *)
Module PriceRow.
Record t : Type := mk {
  price_distributor : option Z;
  price_agent : option Z;
  price_workshop : option Z;
  price_retail : option Z;
  price_online : option Z
  }.

#[global] Instance eq_dec : EqDecision t.
Proof. solve_decision. Defined.
End PriceRow.

(** [priceData[tierKey]]. *)
Definition tier_value (pr : PriceRow.t) (k : Tier.key) : option Z :=
  match k with
  | Tier.price_distributor => PriceRow.price_distributor pr
  | Tier.price_agent => PriceRow.price_agent pr
  | Tier.price_workshop => PriceRow.price_workshop pr
  | Tier.price_retail => PriceRow.price_retail pr
  | Tier.price_online => PriceRow.price_online pr
  end.

(** The embedded [prices] relation of a product row, as JSON. *)
Inductive Prices : Type :=
  | PricesNull
  | PricesArray (rows : list PriceRow.t)
  | PricesObject (row : PriceRow.t).

(** A row of the [products] query joined with its brand name
    ([p.brands.name]) and its prices. *)
Module Product.
Record t : Type := mk {
  car_make : string;
  car_model : string;
  product_variant : string;
  position : string;
  category : string;
  part_number : option string;
  brand_name : string;
  prices : Prices
  }.
End Product.

(** A grouped row: [{ key, car_make, car_model, product_variant,
    position, category, pricesByBrand }]; the print page's rows have no
    [category] property ([None]).  [pricesByBrand] maps a brand name to
    the price object or [null]. *)
Module Row.
Record t : Type := mk {
  key : string;
  car_make : string;
  car_model : string;
  product_variant : string;
  position : string;
  category : option string;
  pricesByBrand : gmap string (option PriceRow.t)
  }.

#[global] Instance eq_dec : EqDecision t.
Proof. solve_decision. Defined.
End Row.

(** A row of the [app_settings] table. *)
Module SettingRow.
Record t : Type := mk {
  id : Z;
  setting_key : string;
  is_visible : bool
  }.
End SettingRow.
