(* ===== verification/Filter.v ===== *)
(** * The search filters of the two pivot pages

    [processData]'s [products.filter(...)] on the public page
    ([src/app/page.tsx]) and on the print page
    ([src/app/admin/print/page.js]).  The query is already lower-cased
    by [handleSearch]; each record field is lower-cased here. *)

From stdpp Require Import base list strings.
From S2P Require Import Prelude JsCore Catalog.

Local Open Scope string_scope.

(** [p.part_number && p.part_number.toLowerCase().includes(query)]:
    [null] and the empty string are falsy. *)
Definition part_number_matches (q : string) (pn : option string) : bool :=
  match pn with
  | Some s => negb (String.eqb s "") && includes (toLowerCase s) q
  | None => false
  end.

(** The public page's predicate. *)
Definition home_matches (q : string) (p : Product.t) : bool :=
  includes (toLowerCase (Product.car_make p)) q ||
  includes (toLowerCase (Product.car_model p)) q ||
  includes (toLowerCase (Product.brand_name p)) q ||
  part_number_matches q (Product.part_number p).

(** The print page's predicate: no part number. *)
Definition print_matches (q : string) (p : Product.t) : bool :=
  includes (toLowerCase (Product.car_make p)) q ||
  includes (toLowerCase (Product.car_model p)) q ||
  includes (toLowerCase (Product.brand_name p)) q.

(** The same product with its searchable text stored in upper case. *)
Definition upcase_product (p : Product.t) : Product.t :=
  Product.mk (toUpperCase (Product.car_make p)) (toUpperCase (Product.car_model p))
    (Product.product_variant p) (Product.position p) (Product.category p)
    (toUpperCase <$> Product.part_number p) (toUpperCase (Product.brand_name p))
    (Product.prices p).

(** ** Properties *)

Section filter_props.
Context (matches : string -> Product.t -> bool).

(** A predicate that is [includes] on the lower-cased fields is
    monotone in the query: extending the query (typing more
    characters) can only remove records. *)
Lemma filter_refine (q q' : string) (ps : list Product.t) :
  (forall p, matches q p = true -> matches q' p = true) ->
  sublist (List.filter (matches q) ps) (List.filter (matches q') ps).
Proof. intros H. apply filter_bool_mono. auto. Qed.
End filter_props.

Lemma home_matches_weaken (q q' : string) (p : Product.t) :
  includes q q' = true -> home_matches q p = true -> home_matches q' p = true.
Proof.
  intros Hq. unfold home_matches, part_number_matches.
  rewrite !orb_true_iff. intros [[[H|H]|H]|H]; [left; left; left|left; left; right|left; right|right];
    try (eapply includes_trans; eauto).
  destruct (Product.part_number p) as [s|]; [|done].
  bool_to_prop; [by apply negb_true_iff|]. eapply includes_trans; eauto.
Qed.

(** The empty query (the initial [processData(data, '')]) keeps
    every record, in order. *)
Theorem home_filter_empty_query (ps : list Product.t) :
  List.filter (home_matches "") ps = ps.
Proof.
  apply filter_bool_all. intros p _. unfold home_matches. by rewrite includes_empty.
Qed.

(** Refining the search: if the new query contains the old one
    (the user typed more characters), the records the new query keeps
    are a sublist of those the old one kept. *)
Theorem home_filter_monotone (q q' : string) (ps : list Product.t) :
  includes q q' = true ->
  sublist (List.filter (home_matches q) ps) (List.filter (home_matches q') ps).
Proof. intros Hq. apply filter_refine. intros p. by apply home_matches_weaken. Qed.

Lemma home_filter_monotone_witness :
  includes "hon" "ho" = true /\
  sublist (List.filter (home_matches "hon") [])
          (List.filter (home_matches "ho") []).
Proof. split; [reflexivity|]. apply home_filter_monotone. reflexivity. Defined.

(** Case insensitivity: a record matches a (lower-case) query
    whatever the letter case in which its make, model, brand and part
    number are stored. *)
Theorem home_matches_case_insensitive (q : string) (p : Product.t) :
  home_matches q (upcase_product p) = home_matches q p.
Proof.
  unfold home_matches, upcase_product, part_number_matches; simpl.
  rewrite !toLowerCase_toUpperCase.
  destruct (Product.part_number p) as [s|]; simpl; [|done].
  rewrite toLowerCase_toUpperCase. do 2 f_equal.
  destruct s; reflexivity.
Qed.

(** The print page's filter ignores part numbers: a search for a
    part number finds the record on the public page and not on the
    print page. *)
Theorem print_filter_ignores_part_number :
  exists p q, home_matches q p = true /\ print_matches q p = false.
Proof.
  exists (Product.mk "Honda" "City" "Standard" "Front (2 pcs)" "Shock Absorber"
            (Some "333000") "KYB" PricesNull), "333".
  split; reflexivity.
Qed.
