(* ===== verification/RowKey.v ===== *)
(** * Row keys of the two pivot pages

    The template literals
    [`${p.car_make}|${p.car_model}|${p.product_variant}|${p.position}|${p.category}`]
    of [src/app/page.tsx] and the same without [category] in
    [src/app/admin/print/page.js].  A key always contains ['|'], so it is
    neither an array index nor a member of [Object.prototype]: the
    grouping object enumerates its keys in insertion order and never
    reads an inherited property.  Joined keys identify the row's fields
    when the fields contain no ['|'], and collide otherwise. *)

From stdpp Require Import base list strings.
From Stdlib Require Import Ascii.
From S2P Require Import Prelude JsCore Catalog.

Local Open Scope string_scope.

Definition home_rowKey (p : Product.t) : string :=
  Product.car_make p +:+ "|" +:+ Product.car_model p +:+ "|" +:+
  Product.product_variant p +:+ "|" +:+ Product.position p +:+ "|" +:+
  Product.category p.

Definition print_rowKey (p : Product.t) : string :=
  Product.car_make p +:+ "|" +:+ Product.car_model p +:+ "|" +:+
  Product.product_variant p +:+ "|" +:+ Product.position p.

(** The grouping identity the home key encodes: the five fields. *)
Definition home_identity (p : Product.t) : string * string * string * string * string :=
  (Product.car_make p, Product.car_model p, Product.product_variant p,
   Product.position p, Product.category p).

(** A field without the separator. *)
Definition no_bar (s : string) : Prop := includes s "|" = false.

#[export] Instance no_bar_dec (s : string) : Decision (no_bar s).
Proof. unfold no_bar. apply _. Defined.

(** ** Lemmas *)

Lemma no_bar_cons (c : ascii) (s : string) :
  no_bar (String c s) -> c <> "|"%char /\ no_bar s.
Proof.
  unfold no_bar. intros H. cbn [includes] in H.
  apply orb_false_iff in H as [H1 H2]. split; [|done].
  intros ->. by destruct s.
Qed.

Lemma includes_bar_join (s t : string) : includes (s +:+ "|" +:+ t) "|" = true.
Proof. apply includes_iff. by exists s, t. Qed.

(** Splitting at the first separator: joining is injective on fields
    without ['|']. *)
Lemma bar_join_inj (a b c d : string) :
  no_bar a -> no_bar c -> a +:+ "|" +:+ b = c +:+ "|" +:+ d -> a = c /\ b = d.
Proof.
  revert c. induction a as [|x a IH]; intros [|y c] Ha Hc Heq;
    rewrite ?string_app_nil_l, ?string_app_cons in Heq.
  - by injection Heq.
  - injection Heq as <- _. by apply no_bar_cons in Hc as [? _].
  - injection Heq as -> _. by apply no_bar_cons in Ha as [? _].
  - injection Heq as -> Heq. apply no_bar_cons in Ha as [_ Ha].
    apply no_bar_cons in Hc as [_ Hc]. destruct (IH c Ha Hc Heq) as [-> ->]. done.
Qed.

(** A field that is not [no_bar] splits at a separator. *)
Lemma not_no_bar_split (x : string) : ~ no_bar x -> exists a b, x = a +:+ "|" +:+ b.
Proof.
  unfold no_bar. intros H. apply not_false_is_true in H. by apply includes_iff in H.
Qed.

(** Joining a separator and more text never gives back the prefix. *)
Lemma bar_join_neq (a b : string) : a +:+ "|" +:+ b <> a.
Proof.
  induction a as [|c a IH]; [discriminate|]. rewrite string_app_cons. intros H.
  injection H as H. by apply IH.
Qed.

Lemma prototype_keys_no_bar : Forall no_bar object_prototype_keys.
Proof. repeat constructor. Qed.

(** A string with a separator is not inherited from [Object.prototype]. *)
Lemma bar_join_not_proto (s t : string) : s +:+ "|" +:+ t ∉ object_prototype_keys.
Proof.
  intros Hin. pose proof prototype_keys_no_bar as Hall. rewrite Forall_forall in Hall.
  specialize (Hall _ Hin). unfold no_bar in Hall.
  by rewrite includes_bar_join in Hall.
Qed.

Lemma bar_join_not_index (s t : string) : array_index (s +:+ "|" +:+ t) = None.
Proof. by apply array_index_non_digit. Qed.

Lemma home_rowKey_shape (p : Product.t) :
  exists s t, home_rowKey p = s +:+ "|" +:+ t.
Proof. by eexists _, _. Qed.

Lemma print_rowKey_shape (p : Product.t) :
  exists s t, print_rowKey p = s +:+ "|" +:+ t.
Proof. by eexists _, _. Qed.

Lemma home_rowKey_not_proto (p : Product.t) : home_rowKey p ∉ object_prototype_keys.
Proof. destruct (home_rowKey_shape p) as [s [t ->]]. apply bar_join_not_proto. Qed.

Lemma home_rowKey_not_index (p : Product.t) : array_index (home_rowKey p) = None.
Proof. destruct (home_rowKey_shape p) as [s [t ->]]. apply bar_join_not_index. Qed.

Lemma print_rowKey_not_proto (p : Product.t) : print_rowKey p ∉ object_prototype_keys.
Proof. destruct (print_rowKey_shape p) as [s [t ->]]. apply bar_join_not_proto. Qed.

Lemma print_rowKey_not_index (p : Product.t) : array_index (print_rowKey p) = None.
Proof. destruct (print_rowKey_shape p) as [s [t ->]]. apply bar_join_not_index. Qed.

(** ** Properties *)

(** C17: the home row key identifies the five grouping fields when make,
    model, variant and position contain no ['|'] (the category is last
    and may contain anything). *)
Theorem home_rowKey_inj (p1 p2 : Product.t) :
  Forall no_bar [Product.car_make p1; Product.car_model p1;
                 Product.product_variant p1; Product.position p1] ->
  Forall no_bar [Product.car_make p2; Product.car_model p2;
                 Product.product_variant p2; Product.position p2] ->
  home_rowKey p1 = home_rowKey p2 -> home_identity p1 = home_identity p2.
Proof.
  unfold home_rowKey, home_identity.
  intros H1 H2 H.
  repeat match goal with Hf : Forall _ (_ :: _) |- _ => apply Forall_cons in Hf as [? ?] end.
  apply bar_join_inj in H as [-> H]; [|done..].
  apply bar_join_inj in H as [-> H]; [|done..].
  apply bar_join_inj in H as [-> H]; [|done..].
  apply bar_join_inj in H as [-> ->]; done.
Qed.

(** C18: the converse of C17.  Whenever one of make, model, variant or
    position of a record contains ['|'], some record with different
    grouping fields gets the same key: the separator can be moved into
    the neighbouring field (the delimiter collision the spec's
    structured key rules out), so the two records share one row. *)
Theorem home_rowKey_collision (p : Product.t) :
  ~ Forall no_bar [Product.car_make p; Product.car_model p;
                   Product.product_variant p; Product.position p] ->
  exists p', home_rowKey p' = home_rowKey p /\ home_identity p' <> home_identity p.
Proof.
  destruct p as [mk md vr ps ct pn bn pr]. simpl. intros Hn.
  destruct (decide (no_bar mk)) as [Hmk|Hmk];
    [destruct (decide (no_bar md)) as [Hmd|Hmd];
     [destruct (decide (no_bar vr)) as [Hvr|Hvr];
      [destruct (decide (no_bar ps)) as [Hps|Hps]|]|]|].
  - by exfalso; apply Hn; repeat constructor.
  - destruct (not_no_bar_split _ Hps) as (a & b & ->).
    exists (Product.mk mk md (vr +:+ "|" +:+ a) b ct pn bn pr). unfold home_rowKey, home_identity; simpl.
    split; [by rewrite !string_app_assoc|]. intros H. apply (f_equal (fun x => x.1.1.2)) in H. by apply (bar_join_neq vr a).
  - destruct (not_no_bar_split _ Hvr) as (a & b & ->).
    exists (Product.mk mk (md +:+ "|" +:+ a) b ps ct pn bn pr). unfold home_rowKey, home_identity; simpl.
    split; [by rewrite !string_app_assoc|]. intros H. apply (f_equal (fun x => x.1.1.1.2)) in H. by apply (bar_join_neq md a).
  - destruct (not_no_bar_split _ Hmd) as (a & b & ->).
    exists (Product.mk (mk +:+ "|" +:+ a) b vr ps ct pn bn pr). unfold home_rowKey, home_identity; simpl.
    split; [by rewrite !string_app_assoc|]. intros H. apply (f_equal (fun x => x.1.1.1.1)) in H. by apply (bar_join_neq mk a).
  - destruct (not_no_bar_split _ Hmk) as (a & b & ->).
    exists (Product.mk a (b +:+ "|" +:+ md) vr ps ct pn bn pr). unfold home_rowKey, home_identity; simpl.
    split; [by rewrite !string_app_assoc|]. intros H. apply (f_equal (fun x => x.1.1.1.1)) in H. by apply (bar_join_neq a b).
Qed.

(** A make with a separator in it: ["Proton|Saga"] with model ["FL"]. *)
Definition collision_a : Product.t :=
  Product.mk "Proton|Saga" "FL" "Standard" "Front (2 pcs)" "Shock Absorber" None "KYB" PricesNull.

Lemma home_rowKey_collision_witness :
  ~ Forall no_bar [Product.car_make collision_a; Product.car_model collision_a;
                   Product.product_variant collision_a; Product.position collision_a] /\
  exists p', home_rowKey p' = home_rowKey collision_a /\ home_identity p' <> home_identity collision_a.
Proof.
  assert (H : ~ Forall no_bar [Product.car_make collision_a; Product.car_model collision_a;
                   Product.product_variant collision_a; Product.position collision_a]) by compute_decide.
  split; [exact H|exact (home_rowKey_collision collision_a H)].
Defined.

Lemma home_rowKey_inj_witness :
  let p1 := Product.mk "Honda" "City" "Standard" "Front (2 pcs)" "Shock Absorber" None "KYB" PricesNull in
  let p2 := Product.mk "Honda" "City" "Standard" "Front (2 pcs)" "Shock Absorber" (Some "341000") "Monroe" PricesNull in
  Forall no_bar [Product.car_make p1; Product.car_model p1;
                 Product.product_variant p1; Product.position p1] /\
  Forall no_bar [Product.car_make p2; Product.car_model p2;
                 Product.product_variant p2; Product.position p2] /\
  home_rowKey p1 = home_rowKey p2 /\ home_identity p1 = home_identity p2.
Proof.
  intros p1 p2.
  assert (H1 : Forall no_bar [Product.car_make p1; Product.car_model p1;
                 Product.product_variant p1; Product.position p1]) by compute_decide.
  assert (H2 : Forall no_bar [Product.car_make p2; Product.car_model p2;
                 Product.product_variant p2; Product.position p2]) by compute_decide.
  assert (H3 : home_rowKey p1 = home_rowKey p2) by reflexivity.
  split_and!; [exact H1|exact H2|exact H3|exact (home_rowKey_inj p1 p2 H1 H2 H3)].
Defined.
