(* ===== verification/Pivot.v ===== *)
(** * The pivot engine: [processData]

    [processData(products, query)] of [src/app/page.tsx] (lines 57-89)
    and of [src/app/admin/print/page.js] (lines 43-69): filter the
    records, collect the distinct brand names and sort them, then group
    the records in a plain object keyed by the row key, writing the
    record's first price object (or [null]) under its brand name.  The
    two pages differ only in their filter predicate, their row key and
    whether a row carries [category]: the class [PivotView] states what
    the engine needs of a page, and both pages are instances.

    The grouping can throw a [TypeError] (when [groups[rowKey]] is an
    inherited member of [Object.prototype]); the model returns [None]
    then, and [processData_refines] shows it never happens.  The
    abstract specification is [spec_rows]: one row per distinct key in
    first-seen order, with the fields of the first record of that key
    and, per brand, the price of the last record of that key and brand. *)

From stdpp Require Import base list strings gmap sorting.
From S2P Require Import Prelude JsCore Catalog Filter RowKey.



(** What a page supplies to the engine, and what its row key promises:
    never an inherited property name and never an array index. *)
Class PivotView : Type := {
  pv_matches : string -> Product.t -> bool;
  pv_rowKey : Product.t -> string;
  pv_category : Product.t -> option string;
  pv_rowKey_not_proto : forall p, pv_rowKey p ∉ object_prototype_keys;
  pv_rowKey_not_index : forall p, array_index (pv_rowKey p) = None
}.

(** [(p.prices && p.prices.length > 0) ? p.prices[0] : null]: an object
    has no [length], so only a non-empty array yields a price. *)
Definition first_price (p : Product.t) : option PriceRow.t :=
  match Product.prices p with
  | PricesArray (pr :: _) => Some pr
  | _ => None
  end.

(** The order of the products query of both pages:
    [.order('car_make').order('car_model').order('position')]. *)
Definition query_order (p : Product.t) : string * string * string :=
  (Product.car_make p, Product.car_model p, Product.position p).

(** The same fields of a displayed row. *)
Definition row_order (r : Row.t) : string * string * string :=
  (Row.car_make r, Row.car_model r, Row.position r).

Section engine.
Context `{PivotView}.

(** The object literal created for a new key. *)
Definition new_row (k : string) (p : Product.t) : Row.t :=
  Row.mk k (Product.car_make p) (Product.car_model p) (Product.product_variant p)
    (Product.position p) (pv_category p) ∅.

(** [groups[rowKey].pricesByBrand[p.brands.name] = priceObj]. *)
Definition set_cell (r : Row.t) (b : string) (v : option PriceRow.t) : Row.t :=
  Row.mk (Row.key r) (Row.car_make r) (Row.car_model r) (Row.product_variant r)
    (Row.position r) (Row.category r) (<[b := v]> (Row.pricesByBrand r)).

(** One iteration of [filtered.forEach(p => ...)] on [groups];
    [None] is the [TypeError] of writing through an inherited
    (truthy, non-row) [groups[rowKey]]. *)
Definition group_step (acc : option (list (string * Row.t))) (p : Product.t)
    : option (list (string * Row.t)) :=
  match acc with
  | None => None
  | Some groups =>
      let k := pv_rowKey p in
      let row :=
        match obj_get groups k with
        | PropOwn r => Some r
        | PropUndefined => Some (new_row k p)
        | PropInherited => None
        end in
      match row with
      | Some r => Some (assoc_set groups k (set_cell r (Product.brand_name p) (first_price p)))
      | None => None
      end
  end.

Definition group_records (filtered : list Product.t) : option (list (string * Row.t)) :=
  fold_left group_step filtered (Some []).

(** [[...new Set(filtered.map(p => p.brands.name))].sort()]. *)
Definition extract_brands (filtered : list Product.t) : list string :=
  js_sort (js_set_of (map Product.brand_name filtered)).

Definition filter_records (ps : list Product.t) (q : string) : list Product.t :=
  List.filter (pv_matches q) ps.

(** The result of [processData]: the value given to [setActiveBrands]
    and the value given to [setGroupedData] ([None] when the loop
    threw before reaching it). *)
Definition processData (ps : list Product.t) (q : string) : list string * option (list Row.t) :=
  let filtered := filter_records ps q in
  (extract_brands filtered, obj_values <$> group_records filtered).

(** ** Abstract specification *)

(** The cell of key [k] and brand [b]: the price of the last record
    with that key and brand, if any. *)
Definition last_cell (l : list Product.t) (k b : string) : option (option PriceRow.t) :=
  fold_left (fun acc p =>
    if decide (pv_rowKey p = k /\ Product.brand_name p = b) then Some (first_price p) else acc)
    l None.

Definition first_with_key (l : list Product.t) (k : string) : option Product.t :=
  List.find (fun p => bool_decide (pv_rowKey p = k)) l.

(** The row's descriptive fields are those of record [p]. *)
Definition head_of (r : Row.t) (p : Product.t) : Prop :=
  Row.car_make r = Product.car_make p /\ Row.car_model r = Product.car_model p /\
  Row.product_variant r = Product.product_variant p /\ Row.position r = Product.position p /\
  Row.category r = pv_category p.

(** A row meets the specification for the records [l]. *)
Definition row_spec (l : list Product.t) (r : Row.t) : Prop :=
  (exists p, first_with_key l (Row.key r) = Some p /\ head_of r p) /\
  (forall b, Row.pricesByBrand r !! b = last_cell l (Row.key r) b).

(** The invariant of the [groups] object after a prefix [l]. *)
Definition groups_inv (l : list Product.t) (g : list (string * Row.t)) : Prop :=
  map fst g = js_set_of (map pv_rowKey l) /\
  forall k r, assoc_lookup g k = Some r -> Row.key r = k /\ row_spec l r.

(** ** Lemmas on the specification *)

Lemma last_cell_snoc (l : list Product.t) (p : Product.t) (k b : string) :
  last_cell (l ++ [p]) k b =
  if decide (pv_rowKey p = k /\ Product.brand_name p = b) then Some (first_price p)
  else last_cell l k b.
Proof. unfold last_cell. by rewrite fold_left_app. Qed.

Lemma last_cell_fresh (l : list Product.t) (k b : string) :
  k ∉ map pv_rowKey l -> last_cell l k b = None.
Proof.
  induction l as [|p l IH] using rev_ind; intros Hk; [done|].
  rewrite last_cell_snoc. rewrite map_app in Hk. rewrite decide_False; [|set_solver].
  apply IH. set_solver.
Qed.

Lemma first_with_key_snoc (l : list Product.t) (p : Product.t) (k : string) :
  first_with_key (l ++ [p]) k =
  match first_with_key l k with
  | Some p0 => Some p0
  | None => if bool_decide (pv_rowKey p = k) then Some p else None
  end.
Proof.
  unfold first_with_key. induction l as [|p0 l IH]; simpl; [done|].
  destruct (bool_decide (pv_rowKey p0 = k)); [done|apply IH].
Qed.

Lemma first_with_key_fresh (l : list Product.t) (k : string) :
  k ∉ map pv_rowKey l -> first_with_key l k = None.
Proof.
  induction l as [|p l IH]; intros Hk; simpl; [done|].
  rewrite bool_decide_false; [apply IH|]; set_solver.
Qed.

(** A row of another key is unaffected by one more record. *)
Lemma row_spec_snoc_other (l : list Product.t) (p : Product.t) (r : Row.t) :
  Row.key r <> pv_rowKey p -> row_spec l r -> row_spec (l ++ [p]) r.
Proof.
  intros Hne [[p0 [Hf Hh]] Hc]. split.
  - exists p0. by rewrite first_with_key_snoc, Hf.
  - intros b. rewrite last_cell_snoc, decide_False; [apply Hc|]. intros [? _]. congruence.
Qed.

(** The row of the record's key, after the record's cell is written. *)
Lemma row_spec_snoc_same (l : list Product.t) (p : Product.t) (r : Row.t) :
  Row.key r = pv_rowKey p ->
  (exists p0, first_with_key l (pv_rowKey p) = Some p0 /\ head_of r p0) \/
    (first_with_key l (pv_rowKey p) = None /\ head_of r p) ->
  (forall b, Row.pricesByBrand r !! b = last_cell l (pv_rowKey p) b) ->
  row_spec (l ++ [p]) (set_cell r (Product.brand_name p) (first_price p)).
Proof.
  intros Hk Hhead Hc. split; cbn [set_cell Row.key Row.pricesByBrand]; rewrite Hk.
  - rewrite first_with_key_snoc.
    destruct Hhead as [[p0 [-> Hh]]|[-> Hh]]; [by exists p0|].
    rewrite bool_decide_true; [by exists p|done].
  - intros b. rewrite last_cell_snoc.
    destruct (decide (Product.brand_name p = b)) as [<-|Hb].
    + rewrite lookup_insert_eq, decide_True; done.
    + rewrite lookup_insert_ne, decide_False; [apply Hc|naive_solver|done].
Qed.

Lemma elem_of_keys_lookup (g : list (string * Row.t)) (k : string) (r : Row.t) :
  assoc_lookup g k = Some r -> k ∈ map fst g.
Proof.
  intros Hl%assoc_lookup_elem_of. apply list_elem_of_fmap. by exists (k, r).
Qed.

(** One iteration preserves the invariant and does not throw. *)
Lemma group_step_inv (l : list Product.t) (g : list (string * Row.t)) (p : Product.t) :
  groups_inv l g ->
  exists g', group_step (Some g) p = Some g' /\ groups_inv (l ++ [p]) g'.
Proof.
  intros [Hkeys Hrows]. cbn [group_step]. unfold obj_get, js_prop_of.
  assert (Hsnoc : js_set_of (map pv_rowKey (l ++ [p])) =
                  set_add (js_set_of (map pv_rowKey l)) (pv_rowKey p)).
  { rewrite map_app. apply js_set_of_snoc. }
  destruct (assoc_lookup g (pv_rowKey p)) as [r|] eqn:Hlk.
  - destruct (Hrows _ _ Hlk) as (Hkey & [[p0 [Hf Hh]] Hc]).
    eexists; split; [done|]. split.
    + pose proof (elem_of_keys_lookup _ _ _ Hlk) as Hin.
      rewrite assoc_set_keys, Hsnoc, <- Hkeys. unfold set_add.
      by rewrite !decide_True.
    + intros k' r'. rewrite assoc_lookup_set. case_decide as Hk'.
      * intros [= <-]. subst k'. split; [done|].
        apply row_spec_snoc_same; [done| |by rewrite <- Hkey].
        left. exists p0. by rewrite <- Hkey.
      * intros Hl'. destruct (Hrows _ _ Hl') as [Hk'' Hs]. split; [done|].
        apply row_spec_snoc_other; [congruence|done].
  - rewrite decide_False by apply pv_rowKey_not_proto.
    pose proof Hlk as Hnot. apply assoc_lookup_None in Hnot.
    assert (Hfresh : pv_rowKey p ∉ map pv_rowKey l).
    { rewrite <- elem_of_js_set_of, <- Hkeys. done. }
    eexists; split; [done|]. split.
    + rewrite assoc_set_keys, Hsnoc, <- Hkeys. unfold set_add.
      by rewrite !decide_False.
    + intros k' r'. rewrite assoc_lookup_set. case_decide as Hk'.
      * intros [= <-]. subst k'. split; [done|].
        apply row_spec_snoc_same; [done| |].
        -- right. split; [by apply first_with_key_fresh|done].
        -- intros b. cbn [new_row Row.pricesByBrand]. rewrite lookup_empty. symmetry. by apply last_cell_fresh.
      * intros Hl'. destruct (Hrows _ _ Hl') as [Hk'' Hs]. split; [done|].
        apply row_spec_snoc_other; [congruence|done].
Qed.

(** The loop over the filtered records never throws, and ends in a
    [groups] object meeting the invariant. *)
Lemma group_records_inv (l : list Product.t) :
  exists g, group_records l = Some g /\ groups_inv l g.
Proof.
  induction l as [|p l IH] using rev_ind.
  - exists []. split; [done|]. split; [done|]. intros k r [=].
  - destruct IH as [g [Hg Hinv]]. unfold group_records in *.
    rewrite fold_left_app, Hg. simpl. by apply group_step_inv.
Qed.
End engine.

(** ** The two pages *)

(** The public page: [home_matches], the five-field key, rows with
    [category]. *)
#[export] Instance HomeView : PivotView :=
  Build_PivotView home_matches home_rowKey (fun p => Some (Product.category p))
    home_rowKey_not_proto home_rowKey_not_index.

(** The print page: [print_matches], the four-field key, rows without
    [category]. *)
Definition PrintView : PivotView :=
  Build_PivotView print_matches print_rowKey (fun _ => None)
    print_rowKey_not_proto print_rowKey_not_index.

(** ** Lemmas shared by the theorems *)

Section results.
Context `{PivotView}.

Lemma groups_inv_keys_plain (l : list Product.t) (g : list (string * Row.t)) :
  groups_inv l g -> forall kr, kr ∈ g -> array_index kr.1 = None.
Proof.
  intros [Hkeys _] [k r] Hin. simpl.
  assert (Hk : k ∈ map pv_rowKey l).
  { rewrite <- elem_of_js_set_of, <- Hkeys. apply list_elem_of_fmap. by exists (k, r). }
  apply list_elem_of_fmap in Hk as [p [-> _]]. apply pv_rowKey_not_index.
Qed.

Lemma groups_inv_rows (l : list Product.t) (g : list (string * Row.t)) :
  groups_inv l g ->
  map Row.key (map snd g) = map fst g /\ Forall (row_spec l) (map snd g).
Proof.
  intros [Hkeys Hrows].
  assert (Hnd : NoDup (map fst g)) by (rewrite Hkeys; apply NoDup_js_set_of).
  assert (Hentry : forall k r, (k, r) ∈ g -> Row.key r = k /\ row_spec l r).
  { intros k r Hin. apply Hrows. by apply assoc_lookup_NoDup. }
  split.
  - rewrite map_map. apply map_ext_in. intros [k r] Hin%list_elem_of_In.
    by apply Hentry in Hin as [? _].
  - apply Forall_forall. intros r (kr & -> & Hin)%list_elem_of_fmap.
    destruct kr as [k r]. by apply Hentry in Hin as [_ ?].
Qed.

Lemma last_cell_app_fresh (l l2 : list Product.t) (k b : string) :
  Forall (fun p' => pv_rowKey p' = k -> Product.brand_name p' <> b) l2 ->
  last_cell (l ++ l2) k b = last_cell l k b.
Proof.
  induction l2 as [|p l2 IH] using rev_ind; intros Hl2; [by rewrite app_nil_r|].
  apply Forall_app in Hl2 as [Hl2 Hp]. apply Forall_cons in Hp as [Hp _].
  rewrite app_assoc, last_cell_snoc, decide_False; [by apply IH|naive_solver].
Qed.

Lemma last_cell_is_Some (l : list Product.t) (k b : string) :
  is_Some (last_cell l k b) <-> exists p, p ∈ l /\ pv_rowKey p = k /\ Product.brand_name p = b.
Proof.
  induction l as [|p l IH] using rev_ind.
  - split; [by intros []|]. intros (p & Hp & _). by apply elem_of_nil in Hp.
  - rewrite last_cell_snoc. case_decide as Hd; [split; [intros _; exists p; set_solver|done]|].
    rewrite IH. setoid_rewrite elem_of_app. setoid_rewrite list_elem_of_singleton. naive_solver.
Qed.

Lemma last_cell_Some (l : list Product.t) (k b : string) (v : option PriceRow.t) :
  last_cell l k b = Some v ->
  exists p, p ∈ l /\ pv_rowKey p = k /\ Product.brand_name p = b /\ first_price p = v.
Proof.
  induction l as [|p l IH] using rev_ind; [done|].
  rewrite last_cell_snoc. case_decide as Hd.
  - intros [= <-]. exists p. set_solver.
  - intros (p' & ? & ?)%IH. exists p'. set_solver.
Qed.

Lemma elem_of_extract_brands (l : list Product.t) (b : string) :
  b ∈ extract_brands l <-> exists p, p ∈ l /\ Product.brand_name p = b.
Proof.
  unfold extract_brands. rewrite elem_of_js_sort, elem_of_js_set_of, list_elem_of_fmap.
  naive_solver.
Qed.

(** [processData] never throws: its rows are the values of a [groups]
    object meeting the invariant. *)
Lemma processData_groups (ps : list Product.t) (q : string) :
  exists g, (processData ps q).2 = Some (map snd g) /\ groups_inv (filter_records ps q) g.
Proof.
  destruct (group_records_inv (filter_records ps q)) as [g [Hg Hinv]].
  exists g. simpl. rewrite Hg. simpl.
  by rewrite (obj_values_plain g (groups_inv_keys_plain _ _ Hinv)).
Qed.

Lemma processData_some (ps : list Product.t) (q : string) :
  exists rows, processData ps q = ((processData ps q).1, Some rows).
Proof.
  destruct (processData_groups ps q) as (g & Hg & _).
  exists (map snd g). by rewrite <- Hg, <- surjective_pairing.
Qed.

(** The row keys are the distinct row keys of the filtered records. *)
Lemma processData_keys (ps : list Product.t) (q : string) (rows : list Row.t) :
  (processData ps q).2 = Some rows ->
  map Row.key rows = js_set_of (map pv_rowKey (filter_records ps q)).
Proof.
  intros Hrows. destruct (processData_groups ps q) as (g & Hg & Hinv).
  rewrite Hg in Hrows. injection Hrows as <-.
  rewrite (proj1 (groups_inv_rows _ _ Hinv)). apply Hinv.
Qed.

(** One row per distinct row key of the filtered records. *)
Lemma processData_rows_length (ps : list Product.t) (q : string) (rows : list Row.t) :
  (processData ps q).2 = Some rows ->
  length rows = length (js_set_of (map pv_rowKey (filter_records ps q))).
Proof. intros Hrows. by rewrite <- (processData_keys ps q rows Hrows), length_map. Qed.

(** A table with a row has a brand column: the row's first record is
    a filtered record, and its brand is among the brands. *)
Lemma processData_brands_nonempty (ps : list Product.t) (q : string) (r : Row.t) (rows : list Row.t) :
  (processData ps q).2 = Some (r :: rows) -> (processData ps q).1 <> [].
Proof.
  intros Hrows Hb. pose proof (processData_rows_length _ _ _ Hrows) as Hl.
  destruct (filter_records ps q) as [|p l] eqn:Hf; [done|].
  assert (Hp : Product.brand_name p ∈ (processData ps q).1).
  { simpl. apply elem_of_extract_brands. exists p. rewrite Hf. split; [left|done]. }
  rewrite Hb in Hp. by apply elem_of_nil in Hp.
Qed.

(** The rows of [processData] meet [row_spec]. *)
Lemma processData_rows_spec (ps : list Product.t) (q : string) (rows : list Row.t) (r : Row.t) :
  (processData ps q).2 = Some rows -> r ∈ rows -> row_spec (filter_records ps q) r.
Proof.
  intros Hrows Hr. destruct (processData_groups ps q) as (g & Hg & Hinv).
  rewrite Hg in Hrows. injection Hrows as <-.
  destruct (groups_inv_rows _ _ Hinv) as [_ Hspec]. by eapply Forall_forall in Hspec.
Qed.

(** The first record of each distinct key, in first-seen order, is a
    sublist of the records. *)
Lemma first_records_sublist (l : list Product.t) :
  sublist (omap (first_with_key l) (js_set_of (map pv_rowKey l))) l.
Proof.
  induction l as [|x l IH] using rev_ind; [constructor|].
  assert (Hsame : forall S : list string, (forall k, k ∈ S -> k ∈ map pv_rowKey l) ->
            omap (first_with_key (l ++ [x])) S = omap (first_with_key l) S).
  { intros S HS. apply omap_ext. intros k Hk. rewrite first_with_key_snoc.
    destruct (first_with_key l k) eqn:E; [done|].
    pose proof (HS k Hk) as Hin. apply list_elem_of_fmap in Hin as (p & -> & Hp).
    apply find_none with (x := p) in E; [|by apply list_elem_of_In].
    by rewrite bool_decide_eq_true_2 in E. }
  rewrite map_app. change (map pv_rowKey [x]) with [pv_rowKey x].
  rewrite js_set_of_snoc. unfold set_add. case_decide as Hx.
  - rewrite Hsame by (intros k Hk; by apply elem_of_js_set_of).
    by apply sublist_inserts_r.
  - rewrite omap_app, Hsame by (intros k Hk; by apply elem_of_js_set_of).
    rewrite elem_of_js_set_of in Hx. simpl.
    rewrite first_with_key_snoc, first_with_key_fresh, bool_decide_eq_true_2 by done.
    by apply sublist_app.
Qed.

(** Each row shows the order fields of the first record of its key. *)
Lemma processData_row_order (ps : list Product.t) (q : string) (rows : list Row.t) :
  (processData ps q).2 = Some rows ->
  map row_order rows =
    map query_order (omap (first_with_key (filter_records ps q)) (map Row.key rows)).
Proof.
  intros Hrows.
  assert (Hspec : forall r, r ∈ rows -> row_spec (filter_records ps q) r)
    by (intros r; by apply processData_rows_spec).
  clear Hrows. induction rows as [|r rows IH]; [done|].
  destruct (Hspec r (list_elem_of_here _ _)) as [(p & Hfirst & Hhead) _].
  cbn [map]. rewrite omap_cons, Hfirst. cbn [map].
  destruct Hhead as (Hmk & Hmd & _ & Hpos & _).
  unfold row_order at 1, query_order at 1. rewrite Hmk, Hmd, Hpos. f_equal.
  apply IH. intros r' Hr'. apply Hspec. by apply list_elem_of_further.
Qed.

(** A wider filter keeps every brand column, every row key and every
    cell position of a narrower one. *)
Lemma processData_refine_query (ps : list Product.t) (q q' : string) (rows rows' : list Row.t) :
  (forall p, pv_matches q p = true -> pv_matches q' p = true) ->
  (processData ps q).2 = Some rows -> (processData ps q').2 = Some rows' ->
  (forall b, b ∈ (processData ps q).1 -> b ∈ (processData ps q').1) /\
  forall r, r ∈ rows -> exists r', r' ∈ rows' /\ Row.key r' = Row.key r /\
    forall b, is_Some (Row.pricesByBrand r !! b) -> is_Some (Row.pricesByBrand r' !! b).
Proof.
  intros Hm Hr Hr'.
  assert (Hsub : forall p, p ∈ filter_records ps q -> p ∈ filter_records ps q')
    by (intros p; unfold filter_records; rewrite !elem_of_filter_bool; naive_solver).
  split.
  - intros b. simpl. rewrite !elem_of_extract_brands. naive_solver.
  - intros r Hrin. destruct (processData_rows_spec ps q rows r Hr Hrin) as [(p & Hfirst & _) Hc].
    apply find_some in Hfirst as [Hp Hk%bool_decide_eq_true_1]. apply list_elem_of_In in Hp.
    assert (Hkey : Row.key r ∈ map Row.key rows').
    { rewrite (processData_keys ps q' rows' Hr'), elem_of_js_set_of, <- Hk.
      apply list_elem_of_fmap. eauto. }
    apply list_elem_of_fmap in Hkey as (r' & Hk' & Hr'in). exists r'. split_and!; [done|done|].
    intros b Hb. destruct (processData_rows_spec ps q' rows' r' Hr' Hr'in) as [_ Hc'].
    rewrite Hc in Hb. rewrite Hc', <- Hk', last_cell_is_Some.
    apply last_cell_is_Some in Hb as (p' & ? & ? & ?). eauto.
Qed.

(** ** Properties of [processData] *)

(** C1: refinement: [processData] never throws, and its rows are the
    abstract pivot of the filtered records: one row per distinct row
    key, in first-seen order, each with the fields of the first record
    of its key and, per brand, the price object of the last record of
    its key and brand. *)
Theorem processData_refines (ps : list Product.t) (q : string) :
  exists rows, (processData ps q).2 = Some rows /\
    map Row.key rows = js_set_of (map pv_rowKey (filter_records ps q)) /\
    Forall (row_spec (filter_records ps q)) rows.
Proof.
  destruct (processData_groups ps q) as (g & Hg & Hinv).
  destruct (groups_inv_rows _ _ Hinv) as [Hk Hs].
  exists (map snd g). split_and!; [done| |done]. rewrite Hk. apply Hinv.
Qed.

(** C2: cell conservation with last-write-wins: for a filtered record
    with no later record of the same key and brand, its row stores
    exactly its price object (or [null]) under its brand. *)
Theorem processData_cell_conservation (ps : list Product.t) (q : string)
    (l1 l2 : list Product.t) (p : Product.t) :
  filter_records ps q = l1 ++ p :: l2 ->
  Forall (fun p' => pv_rowKey p' = pv_rowKey p -> Product.brand_name p' <> Product.brand_name p) l2 ->
  exists rows r, (processData ps q).2 = Some rows /\ r ∈ rows /\
    Row.key r = pv_rowKey p /\
    Row.pricesByBrand r !! Product.brand_name p = Some (first_price p).
Proof.
  intros Hf Hl2. destruct (processData_groups ps q) as (g & Hrows & Hinv).
  assert (Hin : pv_rowKey p ∈ map Row.key (map snd g)).
  { rewrite (proj1 (groups_inv_rows _ _ Hinv)), (proj1 Hinv), elem_of_js_set_of, Hf.
    apply list_elem_of_fmap. exists p. set_solver. }
  apply list_elem_of_fmap in Hin as [r [Hk Hr]].
  exists (map snd g), r. split_and!; [done|done|done|].
  destruct (processData_rows_spec ps q _ r Hrows Hr) as [_ Hc].
  rewrite Hc, <- Hk, Hf.
  replace (l1 ++ p :: l2)%list with ((l1 ++ [p]) ++ l2)%list by (by rewrite <- app_assoc).
  rewrite last_cell_app_fresh, last_cell_snoc, decide_True; done.
Qed.

(** C3: no ghost cells: every cell a row stores comes from a filtered
    record of that row's key and that brand. *)
Theorem processData_cell_provenance (ps : list Product.t) (q : string)
    (rows : list Row.t) (r : Row.t) (b : string) (v : option PriceRow.t) :
  (processData ps q).2 = Some rows -> r ∈ rows ->
  Row.pricesByBrand r !! b = Some v ->
  exists p, p ∈ ps /\ pv_matches q p = true /\ pv_rowKey p = Row.key r /\
    Product.brand_name p = b /\ first_price p = v.
Proof.
  intros Hrows Hr Hv. destruct (processData_rows_spec ps q rows r Hrows Hr) as [_ Hc].
  rewrite Hc in Hv. apply last_cell_Some in Hv as (p & Hp & ?).
  unfold filter_records in Hp. apply elem_of_filter_bool in Hp. naive_solver.
Qed.

(** C4: the active brands are exactly the brand names of the filtered
    records (brand completeness and no ghost brands). *)
Theorem processData_brands_exact (ps : list Product.t) (q : string) (b : string) :
  b ∈ (processData ps q).1 <->
  exists p, p ∈ ps /\ pv_matches q p = true /\ Product.brand_name p = b.
Proof.
  simpl. rewrite elem_of_extract_brands. unfold filter_records.
  setoid_rewrite elem_of_filter_bool. naive_solver.
Qed.

(** C5: the active brands are sorted ascending and listed once each:
    the column order of both header rows. *)
Theorem processData_brands_sorted (ps : list Product.t) (q : string) :
  Sorted String.le (processData ps q).1 /\ NoDup (processData ps q).1.
Proof. simpl. unfold extract_brands. auto with spt. Qed.
(** C26: every row [processData] hands to the table has the type of a
    row of its page: its key is the row key of a filtered record whose
    descriptive fields (and, on the home page, category) it carries,
    and every brand it has a cell for is one of the active brand
    columns, so no cell lies outside the header. *)
Theorem processData_rows_typed (ps : list Product.t) (q : string) (rows : list Row.t) :
  (processData ps q).2 = Some rows ->
  Forall (fun r =>
    (exists p, p ∈ ps /\ pv_matches q p = true /\ pv_rowKey p = Row.key r /\ head_of r p) /\
    (forall b, is_Some (Row.pricesByBrand r !! b) -> b ∈ (processData ps q).1)) rows.
Proof.
  intros Hrows. apply Forall_forall. intros r Hr.
  destruct (processData_rows_spec ps q rows r Hrows Hr) as [(p & Hfirst & Hhead) Hc]. split.
  - apply find_some in Hfirst as [Hp Hk%bool_decide_eq_true_1].
    apply list_elem_of_In, elem_of_filter_bool in Hp as [Hp Hm]. by exists p.
  - intros b [v Hv]. rewrite Hc in Hv. apply last_cell_Some in Hv as (p' & Hp' & _ & Hb & _).
    apply elem_of_extract_brands. by exists p'.
Qed.
(** C27: display order: whatever order the database sorts the products
    by (make, model, position, under its collation, any transitive
    relation), the rows of the table come out in that order: grouping
    keeps each key at its first record, and filtering and grouping
    only drop records (the specification's "the engine depends on this
    pre-sort for display ordering and does not re-sort"). *)
Theorem processData_keeps_query_order (R : relation (string * string * string)) `{!Transitive R}
    (ps : list Product.t) (q : string) (rows : list Row.t) :
  Sorted R (map query_order ps) -> (processData ps q).2 = Some rows ->
  Sorted R (map row_order rows).
Proof.
  intros Hs Hrows. rewrite (processData_row_order ps q rows Hrows), (processData_keys ps q rows Hrows).
  apply (Sorted_sublist R _ (map query_order ps)); [|done].
  apply sublist_map. etransitivity; [apply first_records_sublist|apply filter_bool_sublist].
Qed.
End results.

(** ** Refining the search on the public page *)

(** C14: filter monotonicity (§8 of the specification) at the level of
    the table: if the query [q] contains the query [q'] (the user typed
    more characters), every brand column, every row and every filled
    cell position of the public page's table under [q] is also in the
    table under [q']; in particular the table under any query is part
    of the table under [""]. *)
Theorem home_search_monotone (ps : list Product.t) (q q' : string) (rows rows' : list Row.t) :
  includes q q' = true ->
  (processData ps q).2 = Some rows -> (processData ps q').2 = Some rows' ->
  (forall b, b ∈ (processData ps q).1 -> b ∈ (processData ps q').1) /\
  forall r, r ∈ rows -> exists r', r' ∈ rows' /\ Row.key r' = Row.key r /\
    forall b, is_Some (Row.pricesByBrand r !! b) -> is_Some (Row.pricesByBrand r' !! b).
Proof.
  intros Hq. apply processData_refine_query. intros p. by apply home_matches_weaken.
Qed.

(** ** The scenario of the specification

    Two records of the same Honda City front shock absorber, one per
    brand: KYB with retail 120, Monroe with retail 0. *)
Section scenario.
Local Open Scope string_scope.

Definition kyb_price : PriceRow.t := PriceRow.mk None None None (Some 120%Z) None.
Definition monroe_price : PriceRow.t := PriceRow.mk None None None (Some 0%Z) None.

Definition kyb_city : Product.t :=
  Product.mk "Honda" "City" "Standard" "Front" "Shock Absorber" None "KYB"
    (PricesArray [kyb_price]).
Definition monroe_city : Product.t :=
  Product.mk "Honda" "City" "Standard" "Front" "Shock Absorber" None "Monroe"
    (PricesArray [monroe_price]).

Definition scenario : list Product.t := [kyb_city; monroe_city].

Definition scenario_rows : list Row.t :=
  default [] (processData scenario "").2.
Definition scenario_row : Row.t :=
  Row.mk "Honda|City|Standard|Front|Shock Absorber" "Honda" "City" "Standard" "Front"
    (Some "Shock Absorber")
    (<["Monroe" := Some monroe_price]> (<["KYB" := Some kyb_price]> ∅)).
End scenario.

Lemma processData_cell_conservation_witness :
  filter_records scenario "" = [] ++ kyb_city :: [monroe_city] /\
  Forall (fun p' => pv_rowKey p' = pv_rowKey kyb_city ->
            Product.brand_name p' <> Product.brand_name kyb_city) [monroe_city] /\
  exists rows r, (processData scenario "").2 = Some rows /\ r ∈ rows /\
    Row.key r = pv_rowKey kyb_city /\
    Row.pricesByBrand r !! Product.brand_name kyb_city = Some (first_price kyb_city).
Proof.
  assert (Hf : filter_records scenario "" = [] ++ kyb_city :: [monroe_city]) by reflexivity.
  assert (Hl : Forall (fun p' => pv_rowKey p' = pv_rowKey kyb_city ->
            Product.brand_name p' <> Product.brand_name kyb_city) [monroe_city]) by (repeat constructor; intros _; vm_compute; discriminate).
  split; [exact Hf|]. split; [exact Hl|].
  exact (processData_cell_conservation scenario "" [] [monroe_city] kyb_city Hf Hl).
Defined.

Lemma processData_cell_provenance_witness :
  (processData scenario "").2 = Some scenario_rows /\ scenario_row ∈ scenario_rows /\
  Row.pricesByBrand scenario_row !! "KYB"%string = Some (Some kyb_price) /\
  exists p, p ∈ scenario /\ pv_matches "" p = true /\ pv_rowKey p = Row.key scenario_row /\
    Product.brand_name p = "KYB"%string /\ first_price p = Some kyb_price.
Proof.
  assert (H1 : (processData scenario "").2 = Some scenario_rows) by reflexivity.
  assert (H2 : scenario_row ∈ scenario_rows) by compute_decide.
  assert (H3 : Row.pricesByBrand scenario_row !! "KYB"%string = Some (Some kyb_price)) by reflexivity.
  split_and!; [exact H1|exact H2|exact H3|].
  exact (processData_cell_provenance scenario "" scenario_rows scenario_row _ _ H1 H2 H3).
Defined.

Lemma processData_rows_typed_witness :
  (processData scenario "").2 = Some scenario_rows /\
  Forall (fun r =>
    (exists p, p ∈ scenario /\ pv_matches "" p = true /\ pv_rowKey p = Row.key r /\ head_of r p) /\
    (forall b, is_Some (Row.pricesByBrand r !! b) -> b ∈ (processData scenario "").1)) scenario_rows.
Proof.
  assert (H1 : (processData scenario "").2 = Some scenario_rows) by reflexivity.
  split; [exact H1|exact (processData_rows_typed scenario "" scenario_rows H1)].
Defined.

Lemma home_search_monotone_witness :
  includes "monroe" "" = true /\
  (processData scenario "monroe").2 = Some (default [] (processData scenario "monroe").2) /\
  (processData scenario "").2 = Some scenario_rows /\
  ((forall b, b ∈ (processData scenario "monroe").1 -> b ∈ (processData scenario "").1) /\
   forall r, r ∈ default [] (processData scenario "monroe").2 ->
     exists r', r' ∈ scenario_rows /\ Row.key r' = Row.key r /\
       forall b, is_Some (Row.pricesByBrand r !! b) -> is_Some (Row.pricesByBrand r' !! b)).
Proof.
  assert (Hq : includes "monroe" "" = true) by reflexivity.
  assert (H1 : (processData scenario "monroe").2 = Some (default [] (processData scenario "monroe").2))
    by reflexivity.
  assert (H2 : (processData scenario "").2 = Some scenario_rows) by reflexivity.
  split; [exact Hq|]. split; [exact H1|]. split; [exact H2|].
  exact (home_search_monotone scenario "monroe" "" _ _ Hq H1 H2).
Defined.

(** Three records as the public page's query returns them, by make. *)
Definition saga_record : Product.t :=
  Product.mk "Proton" "Saga" "Standard" "Front" "Shock Absorber" None "KYB"
    (PricesArray [kyb_price]).

Definition ordered_scenario : list Product.t := [kyb_city; monroe_city; saga_record].

(** The order by make alone, a transitive relation on the three fields. *)
Definition make_le (a b : string * string * string) : Prop := String.le a.1.1 b.1.1.

#[export] Instance make_le_trans : Transitive make_le.
Proof. intros x y z Hxy Hyz. unfold make_le in *. by trans y.1.1. Qed.

Lemma processData_keeps_query_order_witness :
  Sorted make_le (map query_order ordered_scenario) /\
  (processData ordered_scenario "").2 = Some (default [] (processData ordered_scenario "").2) /\
  Sorted make_le (map row_order (default [] (processData ordered_scenario "").2)).
Proof.
  assert (Hs : Sorted make_le (map query_order ordered_scenario))
    by (repeat constructor; reflexivity).
  assert (Hr : (processData ordered_scenario "").2 = Some (default [] (processData ordered_scenario "").2))
    by reflexivity.
  split; [exact Hs|]. split; [exact Hr|].
  exact (processData_keeps_query_order make_le ordered_scenario "" _ Hs Hr).
Defined.

