(* ===== verification/Matrix.v ===== *)
(** * The price matrix: visible tiers, cells and the two traversals

    [getVisibleTiers] and [renderPriceCell] of [src/app/page.tsx], the
    two header rows and the two nestings of the data cells (customer
    view: tiers then brands; brand view: brands then tiers), and
    [renderCell] of [src/app/admin/print/page.js].  A cell is one of the
    three rendered states: ["-"] (no price object for the brand),
    ["N/A"] (a price object whose tier value is falsy) and a value. *)

From stdpp Require Import base list strings gmap.
From Stdlib Require Import ZArith.
From S2P Require Import Prelude JsCore Catalog Filter RowKey Pivot.

(** ** Settings and visible tiers *)

(** [settingsData.forEach(s => settingsMap[s.setting_key] = s.is_visible)],
    starting from [{}] (also when the response has no data). *)
Definition settings_map (settingsData : option (list SettingRow.t)) : gmap string bool :=
  match settingsData with
  | None => ∅
  | Some rows =>
      fold_left (fun m s => <[SettingRow.setting_key s := SettingRow.is_visible s]> m) rows ∅
  end.

(** [if (settings.show_x)]: a missing key is [undefined], falsy. *)
Definition setting_on (settings : gmap string bool) (k : string) : bool :=
  match map_get settings k with
  | PropOwn b => b
  | PropInherited => true
  | PropUndefined => false
  end.

Module TierDesc.
Record t : Type := mk { key : Tier.key; label : string; color : string }.
End TierDesc.

Definition tier_if (settings : gmap string bool) (k : string) (d : TierDesc.t) : list TierDesc.t :=
  if setting_on settings k then [d] else [].

Definition getVisibleTiers (settings : gmap string bool) : list TierDesc.t :=
  tier_if settings "show_distributor" (TierDesc.mk Tier.price_distributor "Distributor" "bg-slate-600") ++
  tier_if settings "show_agent" (TierDesc.mk Tier.price_agent "Agent" "bg-slate-600") ++
  tier_if settings "show_workshop" (TierDesc.mk Tier.price_workshop "Workshop" "bg-slate-600") ++
  tier_if settings "show_retail" (TierDesc.mk Tier.price_retail "Retail" "bg-yellow-600") ++
  tier_if settings "show_online" (TierDesc.mk Tier.price_online "Online" "bg-blue-600").

(** ** Cells *)

(** The three states of [renderPriceCell]; a value cell records whether
    it is highlighted as retail. *)
Inductive Cell : Type :=
  | CellNoPrice
  | CellNA
  | CellValue (v : Z) (isRetail : bool).

(** [renderPriceCell(row, brandName, tierKey)]. *)
Definition renderPriceCell (row : Row.t) (brandName : string) (tierKey : Tier.key) : Cell :=
  match map_get (Row.pricesByBrand row) brandName with
  | PropOwn None | PropUndefined => CellNoPrice
  | PropInherited => CellNA
  | PropOwn (Some priceData) =>
      match tier_value priceData tierKey with
      | None => CellNA
      | Some val =>
          if decide (val = 0%Z) then CellNA
          else CellValue val (bool_decide (tierKey = Tier.price_retail))
      end
  end.

(** The print page's cell: ["-"] or a value. *)
Inductive PrintCell : Type :=
  | PrintDash
  | PrintValue (v : Z).

(** [renderCell(row, brand, field)]: [priceData ? priceData[field] : 0]. *)
Definition renderCell (row : Row.t) (brand : string) (field : Tier.key) : PrintCell :=
  let val :=
    match map_get (Row.pricesByBrand row) brand with
    | PropOwn (Some priceData) => tier_value priceData field
    | PropOwn None | PropUndefined => Some 0%Z
    | PropInherited => None
    end in
  match val with
  | None => PrintDash
  | Some v => if decide (v = 0%Z) then PrintDash else PrintValue v
  end.

(** ** The table *)

(** [viewMode]: ['customer'] or ['brand']. *)
Inductive ViewMode : Type :=
  | customer
  | brand.

#[global] Instance ViewMode_eq_dec : EqDecision ViewMode.
Proof. solve_decision. Defined.

(** Header row 1: a group cell with its [colSpan]. *)
Definition header1 (mode : ViewMode) (tiers : list TierDesc.t) (brands : list string)
    : list (string * nat) :=
  match mode with
  | customer => map (fun t => (TierDesc.label t, length brands)) tiers
  | brand => map (fun b => (b, length tiers)) brands
  end.

(** Header row 2: brand names repeated per tier, or tier labels
    repeated per brand. *)
Definition header2 (mode : ViewMode) (tiers : list TierDesc.t) (brands : list string)
    : list string :=
  match mode with
  | customer => flat_map (fun t => map (fun b => b) brands) tiers
  | brand => flat_map (fun b => map (fun t => TierDesc.label t) tiers) brands
  end.

(** The data cells of one body row. *)
Definition row_cells (mode : ViewMode) (tiers : list TierDesc.t) (brands : list string)
    (row : Row.t) : list Cell :=
  match mode with
  | customer => flat_map (fun t => map (fun b => renderPriceCell row b (TierDesc.key t)) brands) tiers
  | brand => flat_map (fun b => map (fun t => renderPriceCell row b (TierDesc.key t)) tiers) brands
  end.

(** The print page's data cells: distributor cost then retail per brand. *)
Definition print_row_cells (brands : list string) (row : Row.t) : list PrintCell :=
  flat_map (fun b => [renderCell row b Tier.price_distributor; renderCell row b Tier.price_retail]) brands.

(** How a browser counts a header cell's [colSpan]: HTML treats a
    span of 0 as 1. *)
Definition html_colspan (n : nat) : nat := if decide (n = 0) then 1 else n.

(** The number of columns header row 1 takes on screen. *)
Definition header1_width (mode : ViewMode) (tiers : list TierDesc.t) (brands : list string) : nat :=
  sum_list (map (fun c => html_colspan c.2) (header1 mode tiers brands)).

(** ** Lemmas *)

Lemma sum_list_const {A} (l : list A) (n : nat) :
  sum_list (map (fun _ => n) l) = length l * n.
Proof. induction l as [|x l IH]; simpl; [done|]. rewrite IH. lia. Qed.

Lemma header1_spans (mode : ViewMode) (tiers : list TierDesc.t) (brands : list string) :
  sum_list (map snd (header1 mode tiers brands)) = length tiers * length brands.
Proof.
  destruct mode; simpl; rewrite map_map; simpl; rewrite sum_list_const; lia.
Qed.

(** On screen, header row 1 is [|tiers| * |brands|] columns wide, plus
    one column per cell whose span is 0: every tier cell of the
    customer view when no brand is active, every brand cell of the
    brand view when no tier is visible. *)
Lemma header1_width_eq (mode : ViewMode) (tiers : list TierDesc.t) (brands : list string) :
  header1_width mode tiers brands =
    length tiers * length brands +
    match mode with
    | customer => if decide (brands = []) then length tiers else 0
    | brand => if decide (tiers = []) then length brands else 0
    end.
Proof.
  unfold header1_width, html_colspan.
  destruct mode; simpl; rewrite map_map; simpl; rewrite sum_list_const;
    [destruct brands|destruct tiers]; simpl; repeat case_decide; try done; lia.
Qed.

(** Every body row and header row 2 have one column per tier and brand. *)
Lemma table_widths (mode : ViewMode) (tiers : list TierDesc.t) (brands : list string) (row : Row.t) :
  length (row_cells mode tiers brands row) = length tiers * length brands /\
  length (header2 mode tiers brands) = length tiers * length brands.
Proof. destruct mode; simpl; rewrite !length_flat_map_map; lia. Qed.

(** The canonical order of the five tiers and their setting keys. *)
Definition all_tiers : list (string * Tier.key) :=
  [("show_distributor", Tier.price_distributor); ("show_agent", Tier.price_agent);
   ("show_workshop", Tier.price_workshop); ("show_retail", Tier.price_retail);
   ("show_online", Tier.price_online)].

(** ** Properties *)

(** C9: axis consistency: for every visible tier [t] (position [i])
    and active brand [b] (position [j]), the customer view shows at
    column [i * |brands| + j] and the brand view at column
    [j * |tiers| + i] the same cell, [renderPriceCell row b t]. *)
Theorem row_cells_axis_consistent (tiers : list TierDesc.t) (brands : list string)
    (row : Row.t) (i j : nat) (t : TierDesc.t) (b : string) :
  tiers !! i = Some t -> brands !! j = Some b ->
  row_cells customer tiers brands row !! (i * length brands + j) =
    Some (renderPriceCell row b (TierDesc.key t)) /\
  row_cells brand tiers brands row !! (j * length tiers + i) =
    Some (renderPriceCell row b (TierDesc.key t)).
Proof.
  intros Ht Hb. split.
  - exact (lookup_flat_map_map (fun t b => renderPriceCell row b (TierDesc.key t)) _ _ _ _ _ _ Ht Hb).
  - exact (lookup_flat_map_map (fun b t => renderPriceCell row b (TierDesc.key t)) _ _ _ _ _ _ Hb Ht).
Qed.

(** C11: the headers name the cells: in each view, header row 2 at a
    data cell's column is that cell's brand (customer view) or tier
    label (brand view); header row 2 and every body row have
    [|tiers| * |brands|] columns; header row 1, counted as the browser
    draws it (a [colSpan] of 0 takes one column), has as many columns
    plus one per zero span, so it lines up with the data exactly when
    its spans are non-zero. *)
Theorem table_headers_aligned (tiers : list TierDesc.t) (brands : list string)
    (row : Row.t) (i j : nat) (t : TierDesc.t) (b : string) :
  tiers !! i = Some t -> brands !! j = Some b ->
  header2 customer tiers brands !! (i * length brands + j) = Some b /\
  header2 brand tiers brands !! (j * length tiers + i) = Some (TierDesc.label t) /\
  forall mode,
    length (row_cells mode tiers brands row) = length tiers * length brands /\
    length (header2 mode tiers brands) = length tiers * length brands /\
    header1_width mode tiers brands =
      length tiers * length brands +
      match mode with
      | customer => if decide (brands = []) then length tiers else 0
      | brand => if decide (tiers = []) then length brands else 0
      end.
Proof.
  intros Ht Hb. split_and!.
  - exact (lookup_flat_map_map (fun _ b => b) _ _ _ _ _ _ Ht Hb).
  - exact (lookup_flat_map_map (fun _ t => TierDesc.label t) _ _ _ _ _ _ Hb Ht).
  - intros mode. rewrite header1_width_eq. destruct (table_widths mode tiers brands row). lia.
Qed.

(** C12: the three cell states, for a brand name that is not a member
    of [Object.prototype]: ["-"] exactly when the row stores no price
    object for the brand ([undefined] or [null]); ["N/A"] exactly when
    it stores one whose tier value is [null] or 0; otherwise the value,
    highlighted when the tier is retail. *)
Theorem renderPriceCell_states (row : Row.t) (b : string) (t : Tier.key) :
  b ∉ object_prototype_keys ->
  (renderPriceCell row b t = CellNoPrice <->
     Row.pricesByBrand row !! b = None \/ Row.pricesByBrand row !! b = Some None) /\
  (renderPriceCell row b t = CellNA <->
     exists pd, Row.pricesByBrand row !! b = Some (Some pd) /\
       (tier_value pd t = None \/ tier_value pd t = Some 0%Z)) /\
  (forall v r, renderPriceCell row b t = CellValue v r <->
     exists pd, Row.pricesByBrand row !! b = Some (Some pd) /\ tier_value pd t = Some v /\
       v <> 0%Z /\ r = bool_decide (t = Tier.price_retail)).
Proof.
  intros Hb. unfold renderPriceCell, map_get, js_prop_of.
  destruct (Row.pricesByBrand row !! b) as [[pd|]|].
  - destruct (tier_value pd t) as [v|] eqn:Hv; [case_decide as Hz|];
      split_and!; try intros v' r'; split; intros Hx; naive_solver.
  - split_and!; try intros v' r'; split; intros Hx; naive_solver.
  - rewrite decide_False by done.
    split_and!; try intros v' r'; split; intros Hx; naive_solver.
Qed.

(** C24: a brand named like a member of [Object.prototype] (here
    ["constructor"]) that has no record in a row renders ["N/A"], the
    state of a stored price without this tier, instead of ["-"]:
    [row.pricesByBrand[brandName]] reads the inherited function. *)
Theorem renderPriceCell_inherited_brand (row : Row.t) (t : Tier.key) :
  Row.pricesByBrand row !! "constructor"%string = None ->
  renderPriceCell row "constructor" t = CellNA.
Proof. intros H. unfold renderPriceCell, map_get, js_prop_of. by rewrite H. Qed.

Lemma renderPriceCell_inherited_brand_witness :
  Row.pricesByBrand scenario_row !! "constructor"%string = None /\
  renderPriceCell scenario_row "constructor" Tier.price_retail = CellNA.
Proof.
  assert (H : Row.pricesByBrand scenario_row !! "constructor"%string = None) by reflexivity.
  split; [exact H|exact (renderPriceCell_inherited_brand scenario_row Tier.price_retail H)].
Defined.

(** The print page merges two of the three states: a brand with
    no record in the row and a brand whose stored retail is 0 both print
    ["-"], while the public page shows ["-"] and ["N/A"]. *)
Example print_cell_merges_states :
  renderCell scenario_row "Bilstein" Tier.price_retail = PrintDash /\
  renderCell scenario_row "Monroe" Tier.price_retail = PrintDash /\
  renderPriceCell scenario_row "Bilstein" Tier.price_retail = CellNoPrice /\
  renderPriceCell scenario_row "Monroe" Tier.price_retail = CellNA.
Proof. vm_compute. split_and!; reflexivity. Qed.

(** When the embedded [prices] relation arrives as a single object
    (the shape [getPriceObj] of the prices page accepts), the public
    page treats the product as having no price: its retail 150 renders
    ["-"]. *)
Example object_prices_render_no_price :
  let p := Product.mk "Perodua" "Myvi" "Standard" "Rear (2 pcs)" "Shock Absorber" None "KYB"
             (PricesObject (PriceRow.mk None None None (Some 150%Z) None)) in
  option_map (map (fun r => renderPriceCell r "KYB" Tier.price_retail))
    (processData [p] "").2 = Some [CellNoPrice].
Proof. vm_compute. reflexivity. Qed.

Definition setting_entry (s : SettingRow.t) : string * bool :=
  (SettingRow.setting_key s, SettingRow.is_visible s).

Lemma settings_map_list_to_map (rows : list SettingRow.t) :
  settings_map (Some rows) = list_to_map (reverse (map setting_entry rows)).
Proof.
  unfold settings_map. induction rows as [|s rows IH] using rev_ind; [done|].
  rewrite fold_left_app, IH, map_app, reverse_app. done.
Qed.

(** C28: the visible tiers are the enabled ones in the fixed order
    distributor, agent, workshop, retail, online, whatever order the
    settings rows come in. *)
Theorem getVisibleTiers_order (settings : gmap string bool) :
  map TierDesc.key (getVisibleTiers settings) =
  map snd (List.filter (fun kt => setting_on settings kt.1) all_tiers).
Proof.
  unfold getVisibleTiers, tier_if. simpl.
  repeat (destruct (setting_on settings _); simpl); reflexivity.
Qed.

(** C29: with one row per setting key, the visibility map, and so the
    visible tiers, do not depend on the order of the [app_settings]
    rows. *)
Theorem settings_map_order_independent (rows rows' : list SettingRow.t) :
  NoDup (map SettingRow.setting_key rows) -> rows ≡ₚ rows' ->
  settings_map (Some rows) = settings_map (Some rows') /\
  getVisibleTiers (settings_map (Some rows)) = getVisibleTiers (settings_map (Some rows')).
Proof.
  intros Hnd Hp.
  assert (Heq : settings_map (Some rows) = settings_map (Some rows')).
  { rewrite !settings_map_list_to_map. apply list_to_map_proper.
    - rewrite fmap_reverse, reverse_Permutation. unfold fmap, setting_entry.
      rewrite map_map. done.
    - by rewrite !reverse_Permutation, Hp. }
  by rewrite Heq.
Qed.

(** ** Witnesses on the scenario *)

Definition demo_settings_rows : list SettingRow.t :=
  [SettingRow.mk 1 "show_distributor" true; SettingRow.mk 2 "show_agent" false;
   SettingRow.mk 4 "show_retail" true].

Definition demo_tiers : list TierDesc.t := getVisibleTiers (settings_map (Some demo_settings_rows)).

Definition retail_desc : TierDesc.t := TierDesc.mk Tier.price_retail "Retail" "bg-yellow-600".

Lemma row_cells_axis_consistent_witness :
  demo_tiers !! 1 = Some retail_desc /\ ["KYB"; "Monroe"]%string !! 1 = Some "Monroe"%string /\
  row_cells customer demo_tiers ["KYB"; "Monroe"] scenario_row !! (1 * 2 + 1) =
    Some (renderPriceCell scenario_row "Monroe" Tier.price_retail) /\
  row_cells brand demo_tiers ["KYB"; "Monroe"] scenario_row !! (1 * 2 + 1) =
    Some (renderPriceCell scenario_row "Monroe" Tier.price_retail).
Proof.
  assert (Ht : demo_tiers !! 1 = Some retail_desc) by reflexivity.
  assert (Hb : ["KYB"; "Monroe"]%string !! 1 = Some "Monroe"%string) by reflexivity.
  split_and!; [exact Ht|exact Hb|..];
    apply (row_cells_axis_consistent demo_tiers ["KYB"; "Monroe"] scenario_row 1 1 _ _ Ht Hb).
Defined.

Lemma table_headers_aligned_witness :
  demo_tiers !! 1 = Some retail_desc /\ ["KYB"; "Monroe"]%string !! 0 = Some "KYB"%string /\
  header2 customer demo_tiers ["KYB"; "Monroe"] !! (1 * 2 + 0) = Some "KYB"%string.
Proof.
  assert (Ht : demo_tiers !! 1 = Some retail_desc) by reflexivity.
  assert (Hb : ["KYB"; "Monroe"]%string !! 0 = Some "KYB"%string) by reflexivity.
  split_and!; [exact Ht|exact Hb|].
  apply (table_headers_aligned demo_tiers ["KYB"; "Monroe"] scenario_row 1 0 _ _ Ht Hb).
Defined.

Lemma renderPriceCell_states_witness :
  "KYB"%string ∉ object_prototype_keys /\
  (renderPriceCell scenario_row "KYB" Tier.price_retail = CellValue 120 true <->
   exists pd, Row.pricesByBrand scenario_row !! "KYB"%string = Some (Some pd) /\
     tier_value pd Tier.price_retail = Some 120%Z /\ 120%Z <> 0%Z /\
     true = bool_decide (Tier.price_retail = Tier.price_retail)).
Proof.
  assert (Hb : "KYB"%string ∉ object_prototype_keys) by compute_decide.
  split; [exact Hb|].
  apply (renderPriceCell_states scenario_row "KYB" Tier.price_retail Hb).
Defined.

Lemma settings_map_order_independent_witness :
  NoDup (map SettingRow.setting_key demo_settings_rows) /\
  demo_settings_rows ≡ₚ reverse demo_settings_rows /\
  getVisibleTiers (settings_map (Some demo_settings_rows)) =
  getVisibleTiers (settings_map (Some (reverse demo_settings_rows))).
Proof.
  assert (Hnd : NoDup (map SettingRow.setting_key demo_settings_rows)) by compute_decide.
  assert (Hp : demo_settings_rows ≡ₚ reverse demo_settings_rows)
    by (symmetry; apply reverse_Permutation).
  split_and!; [exact Hnd|exact Hp|].
  apply (settings_map_order_independent _ _ Hnd Hp).
Defined.


