(* ===== verification/HomePage.v ===== *)
(** * The public page as a state machine

    [PublicHomepage] of [src/app/page.tsx]: its React state
    ([loading], [settings], [viewMode], [rawProducts], [groupedData],
    [activeBrands], [search]) and the point where the asynchronous
    [fetchPublicData] is suspended.  Events are the mount effect, the two
    database responses, keystrokes in the search box ([handleSearch]) and
    the two view buttons.  The search box is rendered while the page is
    loading, so a keystroke can arrive between the mount and the
    products response.  [main_view] is what the page's [<main>] shows. *)

From stdpp Require Import base list strings gmap.
From Stdlib Require Import Ascii.
From S2P Require Import Prelude JsCore Catalog Filter RowKey Pivot Matrix.

(** Where [fetchPublicData] is suspended. *)
Inductive FetchPhase : Type :=
  | NotStarted
  | AwaitSettings
  | AwaitProducts
  | Done.

Record HomeState : Type := mkHome {
  loading : bool;
  settings : gmap string bool;
  viewMode : ViewMode;
  rawProducts : list Product.t;
  groupedData : list Row.t;
  activeBrands : list string;
  search : string;
  phase : FetchPhase
}.

(** The [useState] initial values. *)
Definition home_init : HomeState :=
  mkHome true ∅ customer [] [] [] "" NotStarted.

(** The products query's response: [{ data, error }]. *)
Inductive ProductsResponse : Type :=
  | ProductsError
  | ProductsData (data : option (list Product.t)).

Inductive HomeEvent : Type :=
  | EvMount
  | EvSettingsResponse (settingsData : option (list SettingRow.t))
  | EvProductsResponse (r : ProductsResponse)
  | EvSearchInput (value : string)
  | EvSetViewMode (m : ViewMode).

(** [processData(products, query)]: [setActiveBrands] then, unless the
    grouping loop threw, [setGroupedData]. *)
Definition apply_processData (st : HomeState) (products : list Product.t) (query : string)
    : HomeState :=
  let '(brands, rows) := processData products query in
  mkHome (loading st) (settings st) (viewMode st) (rawProducts st)
    (default (groupedData st) rows) brands (search st) (phase st).

(** [handleSearch]: [setSearch(query); processData(rawProducts, query)]
    with [query = e.target.value.toLowerCase()]. *)
Definition handleSearch (st : HomeState) (value : string) : HomeState :=
  let query := toLowerCase value in
  apply_processData
    (mkHome (loading st) (settings st) (viewMode st) (rawProducts st)
       (groupedData st) (activeBrands st) query (phase st))
    (rawProducts st) query.

(** The products response: on error only [setLoading(false)]; on data,
    [setRawProducts(data || [])], [processData(data || [], '')] and
    [setLoading(false)]. *)
Definition receive_products (st : HomeState) (r : ProductsResponse) : HomeState :=
  match r with
  | ProductsError =>
      mkHome false (settings st) (viewMode st) (rawProducts st) (groupedData st)
        (activeBrands st) (search st) Done
  | ProductsData data =>
      let ps := default [] data in
      let st' := apply_processData
        (mkHome (loading st) (settings st) (viewMode st) ps (groupedData st)
           (activeBrands st) (search st) (phase st)) ps "" in
      mkHome false (settings st') (viewMode st') (rawProducts st') (groupedData st')
        (activeBrands st') (search st') Done
  end.

(** One event; [None] when the event cannot occur in this state. *)
Definition home_step (st : HomeState) (ev : HomeEvent) : option HomeState :=
  match ev, phase st with
  | EvMount, NotStarted =>
      Some (mkHome true (settings st) (viewMode st) (rawProducts st) (groupedData st)
              (activeBrands st) (search st) AwaitSettings)
  | EvSettingsResponse d, AwaitSettings =>
      Some (mkHome (loading st) (settings_map d) (viewMode st) (rawProducts st)
              (groupedData st) (activeBrands st) (search st) AwaitProducts)
  | EvProductsResponse r, AwaitProducts => Some (receive_products st r)
  | EvSearchInput v, _ => Some (handleSearch st v)
  | EvSetViewMode m, _ =>
      Some (mkHome (loading st) (settings st) m (rawProducts st) (groupedData st)
              (activeBrands st) (search st) (phase st))
  | _, _ => None
  end.

Fixpoint home_run (st : HomeState) (evs : list HomeEvent) : option HomeState :=
  match evs with
  | [] => Some st
  | ev :: evs' => home_step st ev ≫= fun st' => home_run st' evs'
  end.

(** The table the page renders once loaded: one list of cells per row. *)
Definition render_table (st : HomeState) : list (list Cell) :=
  map (row_cells (viewMode st) (getVisibleTiers (settings st)) (activeBrands st)) (groupedData st).


(** [No products found matching "{search}"]. *)
Definition no_match_message (q : string) : string :=
  "No products found matching " +:+ quote +:+ q +:+ quote.

(** The sticky first cell of a body row: [{row.car_make} {row.car_model}],
    the variant, the position badge. *)
Definition row_head (r : Row.t) : string * string * string :=
  (Row.car_make r +:+ " " +:+ Row.car_model r, Row.product_variant r, Row.position r).

(** The hero's controls: the search box's value and the two view
    buttons, each with its label and whether it has the active style. *)
Definition view_label (m : ViewMode) : string :=
  match m with
  | customer => "Customer View (By Price Tier)"
  | brand => "Brand View (By Brand)"
  end.

Definition controls_view (st : HomeState) : string * list (ViewMode * string * bool) :=
  (search st, map (fun m => (m, view_label m, bool_decide (viewMode st = m))) [customer; brand]).

(** What [<main>] shows. *)
Inductive MainView : Type :=
  | MainLoading
  | MainEmpty (message : string)
  | MainTable (h1 : list (string * nat)) (h2 : list string)
      (body : list ((string * string * string) * list Cell)).

(** The [loading ? ... : groupedData.length === 0 ? ... : <table>]
    of the page's [<main>]. *)
Definition main_view (st : HomeState) : MainView :=
  if loading st then MainLoading
  else
    match groupedData st with
    | [] => MainEmpty (no_match_message (search st))
    | _ =>
        let tiers := getVisibleTiers (settings st) in
        MainTable (header1 (viewMode st) tiers (activeBrands st))
          (header2 (viewMode st) tiers (activeBrands st))
          (map (fun r => (row_head r, row_cells (viewMode st) tiers (activeBrands st) r))
             (groupedData st))
    end.

(** ** Consistency *)

(** The displayed rows and brand columns are [processData] of the
    cached batch under the current query. *)
Definition consistent (st : HomeState) : Prop :=
  processData (rawProducts st) (search st) = (activeBrands st, Some (groupedData st)).

(** Events a user can cause without typing while the page is loading:
    the products response arrives with an empty search box. *)
Definition event_ok (st : HomeState) (ev : HomeEvent) : Prop :=
  match ev with
  | EvProductsResponse (ProductsData _) => search st = ""
  | _ => True
  end.

Inductive reachable_ok : HomeState -> Prop :=
  | reach_init : reachable_ok home_init
  | reach_step st ev st' :
      reachable_ok st -> event_ok st ev -> home_step st ev = Some st' -> reachable_ok st'.

(** ** Lemmas *)

Lemma apply_processData_consistent (st : HomeState) (ps : list Product.t) (q : string) :
  rawProducts st = ps -> search st = q -> consistent (apply_processData st ps q).
Proof.
  intros <- <-. unfold consistent, apply_processData.
  destruct (processData_some (rawProducts st) (search st)) as [rows Hr].
  rewrite Hr. simpl. by rewrite Hr.
Qed.

(** [processData] always reaches [setGroupedData]: the state it leaves,
    field by field. *)
Lemma apply_processData_fields (st : HomeState) (ps : list Product.t) (q : string) (rows : list Row.t) :
  (processData ps q).2 = Some rows ->
  apply_processData st ps q =
    mkHome (loading st) (settings st) (viewMode st) (rawProducts st) rows (processData ps q).1
      (search st) (phase st).
Proof. unfold apply_processData. destruct (processData ps q) as [b r]. simpl. by intros ->. Qed.

Lemma consistent_same_data (st st' : HomeState) :
  rawProducts st' = rawProducts st -> search st' = search st ->
  activeBrands st' = activeBrands st -> groupedData st' = groupedData st ->
  consistent st -> consistent st'.
Proof. unfold consistent. intros -> -> -> ->. done. Qed.

(** The invariant by rule induction on [reachable_ok]. *)
Lemma home_reachable_consistent (st : HomeState) : reachable_ok st -> consistent st.
Proof.
  induction 1 as [|st ev st' Hreach IH Hok Hstep].
  - reflexivity.
  - unfold home_step in Hstep.
    destruct ev as [|d|[|data]|v|m]; destruct (phase st) eqn:Hph; try discriminate;
      injection Hstep as <-;
      first [ apply (consistent_same_data st); [done..|exact IH]
            | apply apply_processData_consistent; done
            | idtac ].
    all: simpl in Hok; unfold receive_products.
    all: pose proof (apply_processData_consistent
           (mkHome (loading st) (settings st) (viewMode st) (default [] data) (groupedData st)
              (activeBrands st) (search st) (phase st)) (default [] data) "" eq_refl Hok) as Hc.
    all: revert Hc; unfold consistent, apply_processData; simpl; by destruct (processData _ _).
Qed.

(** ** Properties *)

(** C7: in every state reached without typing into the search box
    while the products are loading (the products response arrives with
    an empty query), the brand columns and rows on screen are exactly
    [processData] of the cached batch under the current query. *)
Theorem home_consistent (st : HomeState) : reachable_ok st -> consistent st.
Proof. exact (home_reachable_consistent st). Qed.

(** A run whose every event is allowed by [event_ok]. *)
Fixpoint run_ok (st : HomeState) (evs : list HomeEvent) : Prop :=
  match evs with
  | [] => True
  | ev :: evs' =>
      event_ok st ev /\
      match home_step st ev with Some st' => run_ok st' evs' | None => False end
  end.

Lemma reachable_ok_run (st st' : HomeState) (evs : list HomeEvent) :
  reachable_ok st -> run_ok st evs -> home_run st evs = Some st' -> reachable_ok st'.
Proof.
  revert st. induction evs as [|ev evs IH]; intros st Hr Hok Hrun; simpl in *.
  - by injection Hrun as <-.
  - destruct Hok as [Hev Hok]. destruct (home_step st ev) as [st1|] eqn:Hs; [|done].
    simpl in Hrun. apply (IH st1); [|done|done]. by apply (reach_step st ev st1).
Qed.

(** The page loads the scenario, then the user searches "MONROE". *)
Definition monroe_trace : list HomeEvent :=
  [EvMount; EvSettingsResponse None; EvProductsResponse (ProductsData (Some scenario));
   EvSearchInput "MONROE"].

Definition monroe_state : HomeState := default home_init (home_run home_init monroe_trace).

Lemma home_consistent_witness :
  reachable_ok monroe_state /\ consistent monroe_state.
Proof.
  assert (H : reachable_ok monroe_state).
  { apply (reachable_ok_run home_init _ monroe_trace reach_init); [|reflexivity].
    vm_compute. repeat split. }
  split; [exact H|exact (home_consistent monroe_state H)].
Defined.

(** C8: a keystroke while the products load is lost.  From any state
    waiting for the products, typing [v] and then receiving a batch
    [ps] ends loading with the box holding [toLowerCase v] but the table
    showing [processData ps ""], the unfiltered batch: the page matches
    its search box exactly when the query filters nothing out of the
    table. *)
Theorem home_stale_search (st : HomeState) (v : string) (ps : list Product.t) :
  phase st = AwaitProducts ->
  exists st', home_run st [EvSearchInput v; EvProductsResponse (ProductsData (Some ps))] = Some st' /\
    loading st' = false /\ search st' = toLowerCase v /\ rawProducts st' = ps /\
    processData ps "" = (activeBrands st', Some (groupedData st')) /\
    (consistent st' <-> processData ps (toLowerCase v) = processData ps "").
Proof.
  intros Hp. destruct (processData_some (rawProducts st) (toLowerCase v)) as [rows1 Hr1].
  destruct (processData_some ps "") as [rows0 Hr0].
  assert (Hs : handleSearch st v =
                 mkHome (loading st) (settings st) (viewMode st) (rawProducts st) rows1
                   (processData (rawProducts st) (toLowerCase v)).1 (toLowerCase v) (phase st)).
  { unfold handleSearch. cbv zeta. rewrite (apply_processData_fields _ _ _ rows1); [done|by rewrite Hr1]. }
  exists (receive_products (handleSearch st v) (ProductsData (Some ps))).
  split; [cbn [home_run home_step]; by rewrite Hs, Hp|].
  rewrite Hs. unfold receive_products. cbv zeta. change (default [] (Some ps)) with ps.
  rewrite (apply_processData_fields _ _ _ rows0) by (rewrite Hr0; done).
  unfold consistent. cbn [loading search rawProducts activeBrands groupedData].
  rewrite Hr0. by split_and!.
Qed.

(** The page waiting for its products, after the mount and the
    settings' answer. *)
Definition awaiting_state : HomeState :=
  default home_init (home_run home_init [EvMount; EvSettingsResponse None]).

Lemma home_stale_search_witness :
  phase awaiting_state = AwaitProducts /\
  exists st', home_run awaiting_state [EvSearchInput "Saga"; EvProductsResponse (ProductsData (Some scenario))] = Some st' /\
    loading st' = false /\ search st' = toLowerCase "Saga" /\ rawProducts st' = scenario /\
    processData scenario "" = (activeBrands st', Some (groupedData st')) /\
    (consistent st' <-> processData scenario (toLowerCase "Saga") = processData scenario "").
Proof. split; [reflexivity|]. apply home_stale_search. reflexivity. Defined.

(** The search box is case insensitive: typing a value in upper
    case leads to the same state as typing it in lower case. *)
Theorem handleSearch_case_insensitive (st : HomeState) (v : string) :
  home_step st (EvSearchInput (toUpperCase v)) = home_step st (EvSearchInput v).
Proof. simpl. unfold handleSearch. by rewrite toLowerCase_toUpperCase. Qed.

(** ** What the page shows *)

(** Exactly one view button has the active style: the one whose
    [setViewMode] produced the current nesting of the table. *)
Lemma controls_one_active (st : HomeState) :
  List.filter (fun b => b.2) (controls_view st).2 = [(viewMode st, view_label (viewMode st), true)].
Proof. unfold controls_view. simpl. by destruct (viewMode st). Qed.

(** The search box is controlled by [search], which [handleSearch]
    sets to the lower-cased input: along any run the box shows no
    upper-case ASCII letter, whatever was typed into it, and the
    no-match message quotes the lower-cased text. *)
Lemma home_step_search_lower (st st' : HomeState) (ev : HomeEvent) :
  toLowerCase (search st) = search st -> home_step st ev = Some st' ->
  toLowerCase (search st') = search st'.
Proof.
  intros Hl Hs. unfold home_step in Hs.
  destruct ev, (phase st); try discriminate; injection Hs as <-;
    unfold receive_products, handleSearch, apply_processData; repeat case_match; simpl;
    rewrite ?toLowerCase_idem; done.
Qed.

(** C36: along any run of the public page from its mount, the search
    box ([value={search}]) shows no upper-case letter: [handleSearch]
    stores the lower-cased input, so typing ["Saga"] shows ["saga"]. *)
Theorem home_search_box_lowercase (evs : list HomeEvent) (st : HomeState) :
  home_run home_init evs = Some st -> toLowerCase ((controls_view st).1) = (controls_view st).1.
Proof.
  cbn [controls_view fst]. generalize home_init (eq_refl : toLowerCase (search home_init) = search home_init).
  induction evs as [|ev evs IH]; intros st0 Hl Hrun; simpl in Hrun; [by injection Hrun as <-|].
  destruct (home_step st0 ev) as [st1|] eqn:Hs; [|done]. eapply IH; [|exact Hrun].
  by eapply home_step_search_lower.
Qed.

Lemma home_search_box_lowercase_witness :
  exists st, home_run home_init [EvMount; EvSearchInput "Saga"] = Some st /\
    toLowerCase ((controls_view st).1) = (controls_view st).1.
Proof.
  eexists. split; [reflexivity|].
  apply (home_search_box_lowercase [EvMount; EvSearchInput "Saga"]). reflexivity.
Defined.

(** C15: composition of the page state, the pivot and the matrix: in
    every state reached without typing while the products load, once
    loading is over the page says [No products found matching "q"]
    exactly when no record of the batch matches the query [q] in the
    search box; otherwise it shows one body row per distinct row key of
    the matching records, every body row with one cell per column of
    header row 2, and header row 1, as the browser draws it, exactly as
    wide unless the brand view is on with no tier visible (its brand
    cells then have [colSpan] 0 and take one column each above rows
    without data cells). *)
Theorem home_main_view (st : HomeState) :
  reachable_ok st -> loading st = false ->
  (main_view st = MainEmpty (no_match_message (search st)) <->
     filter_records (rawProducts st) (search st) = []) /\
  forall h1 h2 body, main_view st = MainTable h1 h2 body ->
    length body = length (js_set_of (map home_rowKey (filter_records (rawProducts st) (search st)))) /\
    Forall (fun rc => length rc.2 = length h2) body /\
    (sum_list (map (fun c => html_colspan c.2) h1) = length h2 <->
       viewMode st = customer \/ getVisibleTiers (settings st) <> []).
Proof.
  intros Hr Hl.
  assert (Hrows : (processData (rawProducts st) (search st)).2 = Some (groupedData st))
    by (by rewrite (home_reachable_consistent st Hr)).
  pose proof (processData_rows_length _ _ _ Hrows) as Hlen.
  unfold main_view. rewrite Hl. destruct (groupedData st) as [|r rs] eqn:Eg; split.
  - split; [intros _|done]. symmetry in Hlen. apply nil_length_inv in Hlen.
    apply (proj1 (js_set_of_nil _)) in Hlen. by apply map_eq_nil in Hlen.
  - done.
  - split; [done|]. intros Hf. rewrite Hf in Hlen. discriminate.
  - intros h1 h2 body [= <- <- <-]. split_and!.
    + etransitivity; [|exact Hlen]. simpl. by rewrite length_map.
    + assert (Hw : forall r', length (row_cells (viewMode st) (getVisibleTiers (settings st))
                                   (activeBrands st) r') =
                              length (header2 (viewMode st) (getVisibleTiers (settings st)) (activeBrands st)))
        by (intros r'; by rewrite (proj1 (table_widths _ _ _ r')), (proj2 (table_widths _ _ _ r'))).
      apply Forall_forall. intros rc [->|(r' & -> & _)%list_elem_of_fmap]%elem_of_cons; apply Hw.
    + assert (Hb : activeBrands st <> []).
      { pose proof (home_reachable_consistent st Hr) as Hc. unfold consistent in Hc.
        rewrite Eg in Hc. pose proof (processData_brands_nonempty (rawProducts st) (search st) r rs) as Hn.
        rewrite Hc in Hn. by apply Hn. }
      fold (header1_width (viewMode st) (getVisibleTiers (settings st)) (activeBrands st)).
      rewrite header1_width_eq, (proj2 (table_widths _ _ _ r)).
      destruct (viewMode st); [rewrite decide_False by done; split; [by left|intros _; lia]|].
      case_decide as Ht.
      * rewrite Ht. split; [|by intros [?|?]].
        destruct (activeBrands st); [done|]. simpl. lia.
      * split; [by right|intros _; lia].
Qed.

(** The page loads the scenario, then the user searches "Civic". *)
Definition civic_trace : list HomeEvent :=
  [EvMount; EvSettingsResponse None; EvProductsResponse (ProductsData (Some scenario));
   EvSearchInput "Civic"].

Definition civic_state : HomeState := default home_init (home_run home_init civic_trace).

Lemma home_main_view_witness :
  reachable_ok civic_state /\ loading civic_state = false /\
  main_view civic_state = MainEmpty (no_match_message "civic") /\
  filter_records (rawProducts civic_state) (search civic_state) = [].
Proof.
  assert (H : reachable_ok civic_state).
  { apply (reachable_ok_run home_init _ civic_trace reach_init); [|reflexivity].
    vm_compute. repeat split. }
  assert (Hl : loading civic_state = false) by reflexivity.
  split_and!; [exact H|exact Hl|reflexivity|].
  apply (proj1 (home_main_view civic_state H Hl)). reflexivity.
Defined.

(** ** No visible tier *)

(** With no tier visible (all [show_] settings off or missing, e.g.
    when the settings query returned no data) the table degenerates to
    rows with no data cell, under an empty header row 2, in both
    views (§7 of the specification). *)
Lemma main_view_no_tiers (st : HomeState) (h1 : list (string * nat)) (h2 : list string)
    (body : list ((string * string * string) * list Cell)) :
  getVisibleTiers (settings st) = [] -> main_view st = MainTable h1 h2 body ->
  h2 = [] /\ Forall (fun rc => rc.2 = []) body /\ sum_list (map snd h1) = 0.
Proof.
  intros Ht Hv. unfold main_view in Hv. rewrite Ht in Hv.
  destruct (loading st); [done|]. destruct (groupedData st) as [|r rs]; [done|].
  injection Hv as <- <- <-.
  assert (Hw : forall r', row_cells (viewMode st) [] (activeBrands st) r' = [])
    by (intros r'; apply nil_length_inv; rewrite (proj1 (table_widths _ _ _ r')); simpl; lia).
  split_and!.
  - apply nil_length_inv. rewrite (proj2 (table_widths _ _ _ r)). simpl. lia.
  - apply Forall_forall. intros rc [->|(r' & -> & _)%list_elem_of_fmap]%elem_of_cons; apply Hw.
  - rewrite header1_spans. simpl. lia.
Qed.

(** The page loads the scenario without settings data and the user
    switches to the brand view. *)
Definition no_tiers_trace : list HomeEvent :=
  [EvMount; EvSettingsResponse None; EvProductsResponse (ProductsData (Some scenario));
   EvSetViewMode brand].

(** Yet the brand view still draws header row 1: one cell per brand
    with [colSpan={0}], which the browser widens to one column each, so
    the header spans two columns above rows with no data cell. *)
Example no_tiers_brand_header :
  exists st h1 h2 body, home_run home_init no_tiers_trace = Some st /\
    main_view st = MainTable h1 h2 body /\
    h1 = [("KYB", 0); ("Monroe", 0)] /\ h2 = [] /\ map snd body = [[]] /\
    sum_list (map (fun c => html_colspan c.2) h1) = 2.
Proof. do 4 eexists. split; [reflexivity|]. split; [reflexivity|]. vm_compute. split_and!; reflexivity. Qed.

