(* ===== verification/ProductForm.v ===== *)
(** * The "Manage Products" page

    [ManageProducts] of [src/app/admin/products/page.js]: the
    suggestion lists built by [extractSuggestions], and the add-product
    form as a state machine over [formData] and [submitting].  The
    category select offers "Shock Absorber" and "Coil Spring"; the
    position select offers three positions for a shock absorber and
    "Carset (4 pcs)" otherwise.  [handleCategoryChange] keeps the
    position among the offered ones; the reset after a successful
    [handleSubmit] does not. *)

From stdpp Require Import base list strings sorting.
From S2P Require Import Prelude JsCore Catalog.

Local Open Scope string_scope.

(** ** Suggestions *)

Record Suggestions : Type := mkSuggestions {
  makes : list string;
  models : list string;
  variants : list string
}.

(** [extractSuggestions(data)]: the distinct makes, models and variants,
    each sorted. *)
Definition extractSuggestions (data : list Product.t) : Suggestions :=
  mkSuggestions
    (js_sort (js_set_of (map Product.car_make data)))
    (js_sort (js_set_of (map Product.car_model data)))
    (js_sort (js_set_of (map Product.product_variant data))).

(** ** The form *)

Record FormData : Type := mkForm {
  brand_id : string;
  car_make : string;
  car_model : string;
  product_variant : string;
  category : string;
  position : string;
  part_number : string
}.

(** The [useState] initial form. *)
Definition form_init : FormData :=
  mkForm "" "" "" "" "Shock Absorber" "Front (2 pcs)" "".

(** The options the category select renders. *)
Definition category_options : list string := ["Shock Absorber"; "Coil Spring"].

(** The options the position select renders for a category. *)
Definition position_options (category : string) : list string :=
  if String.eqb category "Shock Absorber"
  then ["Front (2 pcs)"; "Rear (2 pcs)"; "Full Set (4 pcs)"]
  else ["Carset (4 pcs)"].

(** [handleCategoryChange]. *)
Definition handleCategoryChange (f : FormData) (newCategory : string) : FormData :=
  let newPosition := if String.eqb newCategory "Coil Spring" then "Carset (4 pcs)" else "Front (2 pcs)" in
  mkForm (brand_id f) (car_make f) (car_model f) (product_variant f) newCategory newPosition
    (part_number f).

(** The row [handleSubmit] inserts: make, model and variant trimmed. *)
Definition cleanData (f : FormData) : FormData :=
  mkForm (brand_id f) (trim (car_make f)) (trim (car_model f)) (trim (product_variant f))
    (category f) (position f) (part_number f).

(** After a successful insert: [{...formData, position: 'Front (2 pcs)',
    part_number: ''}]. *)
Definition reset_after_insert (f : FormData) : FormData :=
  mkForm (brand_id f) (car_make f) (car_model f) (product_variant f) (category f)
    "Front (2 pcs)" "".

(** The browser blocks the submit while a [required] control (brand,
    make, model, variant) is empty. *)
Definition required_filled (f : FormData) : bool :=
  negb (String.eqb (brand_id f) "") && negb (String.eqb (car_make f) "") &&
  negb (String.eqb (car_model f) "") && negb (String.eqb (product_variant f) "").

(** The text inputs and the brand select. *)
Inductive TextField : Type :=
  | FBrand | FMake | FModel | FVariant | FPartNumber.

Definition set_text (f : FormData) (fld : TextField) (v : string) : FormData :=
  match fld with
  | FBrand => mkForm v (car_make f) (car_model f) (product_variant f) (category f) (position f) (part_number f)
  | FMake => mkForm (brand_id f) v (car_model f) (product_variant f) (category f) (position f) (part_number f)
  | FModel => mkForm (brand_id f) (car_make f) v (product_variant f) (category f) (position f) (part_number f)
  | FVariant => mkForm (brand_id f) (car_make f) (car_model f) v (category f) (position f) (part_number f)
  | FPartNumber => mkForm (brand_id f) (car_make f) (car_model f) (product_variant f) (category f) (position f) v
  end.

(** The page's [formData] and [submitting] state, and the [formData]
    the pending [handleSubmit] call closed over (it resets from that
    value, not from the current one). *)
Record FormState : Type := mkFormState {
  formData : FormData;
  submitting : bool;
  captured : FormData
}.

Definition form_state_init : FormState := mkFormState form_init false form_init.

Inductive FormEvent : Type :=
  | EvText (fld : TextField) (v : string)
  | EvCategory (v : string)
  | EvPosition (v : string)
  | EvSubmit                          (** the form is submitted *)
  | EvInsertDone (ok : bool).         (** the insert request returns *)

(** One event and the row sent to the database, if any.  Select
    events only carry rendered options; a submit is possible only when
    the required controls are filled and no insert is pending (the
    button is disabled while [submitting]). *)
Definition form_step (st : FormState) (ev : FormEvent) : option (FormState * option FormData) :=
  let f := formData st in
  match ev with
  | EvText fld v => Some (mkFormState (set_text f fld v) (submitting st) (captured st), None)
  | EvCategory v =>
      if decide (v ∈ category_options)
      then Some (mkFormState (handleCategoryChange f v) (submitting st) (captured st), None)
      else None
  | EvPosition v =>
      if decide (v ∈ position_options (category f))
      then Some (mkFormState (mkForm (brand_id f) (car_make f) (car_model f) (product_variant f)
                                (category f) v (part_number f)) (submitting st) (captured st), None)
      else None
  | EvSubmit =>
      if submitting st || negb (required_filled f) then None
      else Some (mkFormState f true f, Some (cleanData f))
  | EvInsertDone ok =>
      if submitting st
      then Some (mkFormState (if ok then reset_after_insert (captured st) else f) false (captured st), None)
      else None
  end.

(** Run a list of events, collecting the rows sent to the database. *)
Fixpoint form_run (st : FormState) (evs : list FormEvent) : option (FormState * list FormData) :=
  match evs with
  | [] => Some (st, [])
  | ev :: evs' =>
      form_step st ev ≫= fun '(st', out) =>
      form_run st' evs' ≫= fun '(st'', outs) =>
      Some (st'', match out with Some r => r :: outs | None => outs end)
  end.

(** The invariant the selects are meant to maintain. *)
Definition position_valid (f : FormData) : Prop := position f ∈ position_options (category f).

#[export] Instance position_valid_dec (f : FormData) : Decision (position_valid f).
Proof. unfold position_valid. apply _. Defined.

(** The row [handleSubmit] sends keeps no white space around make,
    model and variant, and names a brand. *)
Definition row_ok (r : FormData) : Prop :=
  trim (car_make r) = car_make r /\ trim (car_model r) = car_model r /\
  trim (product_variant r) = product_variant r /\ brand_id r <> "".

(** ** Lemmas *)

Lemma form_step_row_ok (st st' : FormState) (ev : FormEvent) (r : FormData) :
  form_step st ev = Some (st', Some r) -> row_ok r.
Proof.
  destruct ev as [fld v|v|v| |ok]; simpl; intros Hs.
  - done.
  - by case_decide.
  - by case_decide.
  - destruct (submitting st || negb (required_filled (formData st))) eqn:E; [done|].
    injection Hs as _ <-. apply orb_false_iff in E as [_ E]. apply negb_false_iff in E.
    unfold required_filled in E. repeat (apply andb_prop in E as [E ?]).
    split_and!; simpl; rewrite ?trim_idem; try done.
    intros Hb. rewrite Hb in E. done.
  - by destruct (submitting st).
Qed.

(** ** Properties *)

(** C19: every event keeps the position among the options the category
    select offers, except a successful insert submitted for a category
    other than "Shock Absorber": the reset writes "Front (2 pcs)"
    whatever the category. *)
Theorem form_step_position_valid (st st' : FormState) (ev : FormEvent) (out : option FormData) :
  position_valid (formData st) ->
  form_step st ev = Some (st', out) ->
  (ev = EvInsertDone true -> category (captured st) = "Shock Absorber") ->
  position_valid (formData st').
Proof.
  unfold position_valid. intros Hv Hs Hcap.
  destruct ev as [fld v|v|v| |[]]; simpl in Hs.
  - injection Hs as <- _. by destruct fld.
  - case_decide as Hc; [|done]. injection Hs as <- _. simpl.
    unfold category_options in Hc. apply list_elem_of_In in Hc. simpl in Hc.
    destruct Hc as [<-|[<-|[]]]; vm_compute; [left|left].
  - case_decide as Hp; [|done]. by injection Hs as <- _.
  - destruct (submitting st || _); [done|]. by injection Hs as <- _.
  - destruct (submitting st); [|done]. injection Hs as <- _. simpl.
    rewrite Hcap by done. vm_compute. left.
  - destruct (submitting st); [|done]. by injection Hs as <- _.
Qed.

Definition coil_state : FormState :=
  mkFormState (handleCategoryChange form_init "Coil Spring") false form_init.

Lemma form_step_position_valid_witness :
  position_valid (formData form_state_init) /\
  form_step form_state_init (EvCategory "Coil Spring") = Some (coil_state, None) /\
  (EvCategory "Coil Spring" = EvInsertDone true -> category (captured form_state_init) = "Shock Absorber") /\
  position_valid (formData coil_state).
Proof.
  assert (H1 : position_valid (formData form_state_init)) by compute_decide.
  assert (H2 : form_step form_state_init (EvCategory "Coil Spring") = Some (coil_state, None))
    by reflexivity.
  assert (H3 : EvCategory "Coil Spring" = EvInsertDone true ->
               category (captured form_state_init) = "Shock Absorber") by (intros; reflexivity).
  split_and!; [exact H1|exact H2|exact H3|].
  exact (form_step_position_valid _ _ _ _ H1 H2 H3).
Defined.

(** C20: the reset after a successful insert breaks the position for
    every category but "Shock Absorber".  From any idle form with its
    required controls filled and such a category, submitting and
    getting a successful answer leaves the form on that category with
    position "Front (2 pcs)", which its position select does not offer;
    submitting again at once inserts a row with that position. *)
Theorem coil_spring_reset_breaks_position (st : FormState) :
  submitting st = false -> required_filled (formData st) = true ->
  category (formData st) <> "Shock Absorber" ->
  exists st', form_run st [EvSubmit; EvInsertDone true; EvSubmit] =
      Some (st', [cleanData (formData st); cleanData (reset_after_insert (formData st))]) /\
    formData st' = reset_after_insert (formData st) /\ ~ position_valid (formData st') /\
    position (cleanData (reset_after_insert (formData st))) = "Front (2 pcs)" /\
    category (cleanData (reset_after_insert (formData st))) = category (formData st).
Proof.
  intros Hs Hr Hc.
  assert (Hr' : required_filled (reset_after_insert (formData st)) = true) by exact Hr.
  eexists. split.
  - cbn [form_run form_step]. rewrite Hs, Hr. cbn [orb negb mbind option_bind submitting formData captured].
    rewrite Hr'. reflexivity.
  - cbn [formData]. split_and!; try done.
    unfold position_valid, position_options. cbn [position category reset_after_insert].
    rewrite (proj2 (String.eqb_neq _ _) Hc). intros H. by apply list_elem_of_singleton in H.
Qed.

(** The form filled for a Proton Saga coil spring set. *)
Definition coil_trace : list FormEvent :=
  [EvText FBrand "3"; EvText FMake "Proton"; EvText FModel "Saga"; EvText FVariant "Standard";
   EvCategory "Coil Spring"; EvSubmit; EvInsertDone true; EvSubmit].

Definition coil_filled : FormState :=
  default form_state_init (fst <$> form_run form_state_init (take 5 coil_trace)).

Lemma coil_spring_reset_breaks_position_witness :
  submitting coil_filled = false /\ required_filled (formData coil_filled) = true /\
  category (formData coil_filled) <> "Shock Absorber" /\
  exists st', form_run coil_filled [EvSubmit; EvInsertDone true; EvSubmit] =
      Some (st', [cleanData (formData coil_filled); cleanData (reset_after_insert (formData coil_filled))]) /\
    formData st' = reset_after_insert (formData coil_filled) /\ ~ position_valid (formData st') /\
    position (cleanData (reset_after_insert (formData coil_filled))) = "Front (2 pcs)" /\
    category (cleanData (reset_after_insert (formData coil_filled))) = category (formData coil_filled).
Proof.
  assert (H1 : submitting coil_filled = false) by reflexivity.
  assert (H2 : required_filled (formData coil_filled) = true) by reflexivity.
  assert (H3 : category (formData coil_filled) <> "Shock Absorber") by (vm_compute; discriminate).
  split_and!; [exact H1|exact H2|exact H3|exact (coil_spring_reset_breaks_position _ H1 H2 H3)].
Defined.

(** C22: along any run of the form, every row sent to the database has
    its make, model and variant without surrounding white space and a
    brand: [handleSubmit] sends [cleanData] of a form whose required
    controls are filled. *)
Theorem form_rows_trimmed (st0 st : FormState) (evs : list FormEvent) (rows : list FormData) :
  form_run st0 evs = Some (st, rows) -> Forall row_ok rows.
Proof.
  revert st0 rows. induction evs as [|ev evs IH]; intros st0 rows Hrun; simpl in Hrun.
  - by injection Hrun as _ <-.
  - destruct (form_step st0 ev) as [[st1 out]|] eqn:Hs; [|done]. simpl in Hrun.
    destruct (form_run st1 evs) as [[st2 outs]|] eqn:Hr; [|done]. injection Hrun as <- <-.
    destruct out as [r|]; [constructor; [by eapply form_step_row_ok|]|]; by eapply IH.
Qed.

Lemma form_rows_trimmed_witness :
  exists st rows, form_run form_state_init coil_trace = Some (st, rows) /\ Forall row_ok rows.
Proof.
  eexists _, _. split; [reflexivity|].
  eapply (form_rows_trimmed form_state_init _ coil_trace). reflexivity.
Defined.

(** A make of only white space passes the [required] check and is
    inserted as the empty string. *)
Example whitespace_make_inserted_empty :
  exists st, form_run form_state_init
    [EvText FBrand "3"; EvText FMake "  "; EvText FModel "Saga"; EvText FVariant "Standard"; EvSubmit]
    = Some (st, [mkForm "3" "" "Saga" "Standard" (category form_init) (position form_init) ""]).
Proof. eexists. reflexivity. Qed.

(** C21: edits made while an insert is pending are lost when it
    succeeds: the reset restores the form captured at submit time. *)
Theorem form_edit_during_insert_lost (st : FormState) (v : string) :
  submitting st = false -> required_filled (formData st) = true ->
  exists st', form_run st [EvSubmit; EvText FMake v; EvInsertDone true] =
                Some (st', [cleanData (formData st)]) /\
    car_make (formData st') = car_make (formData st) /\ submitting st' = false.
Proof.
  intros Hs Hr. eexists. simpl. rewrite Hs, Hr. simpl. split; [reflexivity|done].
Qed.

Lemma form_edit_during_insert_lost_witness :
  let st := mkFormState (mkForm "3" "Proton" "Saga" "Standard" "Shock Absorber" "Front (2 pcs)" "")
              false form_init in
  submitting st = false /\ required_filled (formData st) = true /\
  exists st', form_run st [EvSubmit; EvText FMake "Perodua"; EvInsertDone true] =
                Some (st', [cleanData (formData st)]) /\
    car_make (formData st') = car_make (formData st) /\ submitting st' = false.
Proof.
  intros st.
  assert (H1 : submitting st = false) by reflexivity.
  assert (H2 : required_filled (formData st) = true) by reflexivity.
  split_and!; [exact H1|exact H2|exact (form_edit_during_insert_lost st "Perodua" H1 H2)].
Defined.

(** Each suggestion list is sorted, free of duplicates, and holds
    exactly the values of that field in the fetched products. *)
Theorem extractSuggestions_makes (data : list Product.t) (m : string) :
  Sorted String.le (makes (extractSuggestions data)) /\
  NoDup (makes (extractSuggestions data)) /\
  (m ∈ makes (extractSuggestions data) <-> exists p, p ∈ data /\ Product.car_make p = m).
Proof.
  simpl. split_and!; [auto with spt|auto with spt|].
  rewrite elem_of_js_sort, elem_of_js_set_of, list_elem_of_fmap. naive_solver.
Qed.
