(* ===== verification/Prices.v ===== *)
(** * Price editing and the price history

    [ManagePrices] of [src/app/admin/prices/page.js]: [getPriceObj]
    reads the embedded [prices] relation in any of its three JSON
    shapes, [openEditModal] fills the edit form ([x || 0]), and
    [handleSave] upserts the form and, when the upsert succeeds, writes
    a [price_history] record with the old and the new price objects.
    [renderChange] of [src/app/admin/history/page.js] turns a history
    record into the lines of its "Changes Made" column.  The renders are
    [prices_table] (one [price_line] per product), [modal_view] (the
    edit modal) and [history_view] (date, product info, changes). *)

From stdpp Require Import base list strings pretty.
From Stdlib Require Import ZArith.
From S2P Require Import Prelude JsCore Catalog Pivot.

(** ** The prices page *)

(** [getPriceObj(product)]. *)
Definition getPriceObj (p : Product.t) : option PriceRow.t :=
  match Product.prices p with
  | PricesNull => None
  | PricesArray rows => head rows
  | PricesObject o => Some o
  end.

(** [x || 0] on a numeric column ([null], [undefined] and 0 give 0). *)
Definition or_zero (v : option Z) : Z := default 0%Z v.

(** The edit form's state [prices]. *)
Module PriceForm.
Record t : Type := mk {
  price_distributor : Z;
  price_agent : Z;
  price_workshop : Z;
  price_retail : Z;
  price_online : Z
  }.
End PriceForm.

Definition form_value (f : PriceForm.t) (k : Tier.key) : Z :=
  match k with
  | Tier.price_distributor => PriceForm.price_distributor f
  | Tier.price_agent => PriceForm.price_agent f
  | Tier.price_workshop => PriceForm.price_workshop f
  | Tier.price_retail => PriceForm.price_retail f
  | Tier.price_online => PriceForm.price_online f
  end.

Definition set_form_value (f : PriceForm.t) (k : Tier.key) (v : Z) : PriceForm.t :=
  match k with
  | Tier.price_distributor => PriceForm.mk v (PriceForm.price_agent f) (PriceForm.price_workshop f) (PriceForm.price_retail f) (PriceForm.price_online f)
  | Tier.price_agent => PriceForm.mk (PriceForm.price_distributor f) v (PriceForm.price_workshop f) (PriceForm.price_retail f) (PriceForm.price_online f)
  | Tier.price_workshop => PriceForm.mk (PriceForm.price_distributor f) (PriceForm.price_agent f) v (PriceForm.price_retail f) (PriceForm.price_online f)
  | Tier.price_retail => PriceForm.mk (PriceForm.price_distributor f) (PriceForm.price_agent f) (PriceForm.price_workshop f) v (PriceForm.price_online f)
  | Tier.price_online => PriceForm.mk (PriceForm.price_distributor f) (PriceForm.price_agent f) (PriceForm.price_workshop f) (PriceForm.price_retail f) v
  end.

(** A product of the list: its [id] and its record. *)
Definition ListedProduct : Type := Z * Product.t.

Record PricesState : Type := mkPricesState {
  isEditing : bool;
  currentProduct : option ListedProduct;
  saving : bool;
  prices : PriceForm.t
}.

(** [openEditModal(product)]. *)
Definition openEditModal (st : PricesState) (lp : ListedProduct) : PricesState :=
  let currentPriceObj := getPriceObj lp.2 in
  let field k := or_zero (currentPriceObj ≫= fun o => tier_value o k) in
  mkPricesState true (Some lp) (saving st)
    (PriceForm.mk (field Tier.price_distributor) (field Tier.price_agent)
       (field Tier.price_workshop) (field Tier.price_retail) (field Tier.price_online)).

(** A [price_history] row: [old_prices] is [None] for the [{}] written
    when the product had no price object. *)
Record HistoryRecord : Type := mkHistory {
  product_id : Z;
  changed_by : option string;
  old_prices : option PriceRow.t;
  new_prices : PriceRow.t
}.

(** The database writes [handleSave] issues. *)
Inductive DbWrite : Type :=
  | UpsertPrices (product_id : Z) (values : PriceForm.t)
  | InsertHistory (h : HistoryRecord).

(** The upsert's [{ data, error }] after [.select().single()]. *)
Inductive UpsertResponse : Type :=
  | UpsertError
  | UpsertOk (newPriceData : PriceRow.t).

(** [handleSave]: the upsert is always sent; on error the modal stays
    open; on success the history row records [getPriceObj] of the
    product being edited and the row the database returned.  [None]:
    no product is being edited ([currentProduct.id] would throw). *)
Definition handleSave (st : PricesState) (resp : UpsertResponse) (sessionUser : option string)
    : option (PricesState * list DbWrite) :=
  match currentProduct st with
  | None => None
  | Some (productId, product) =>
      let upsert := UpsertPrices productId (prices st) in
      match resp with
      | UpsertError => Some (mkPricesState (isEditing st) (currentProduct st) false (prices st), [upsert])
      | UpsertOk newPriceData =>
          let h := mkHistory productId sessionUser (getPriceObj product) newPriceData in
          Some (mkPricesState false (currentProduct st) false (prices st), [upsert; InsertHistory h])
      end
  end.

(** ** The history page *)

(** A line of the "Changes Made" column: label, old and new value as
    displayed ([v || 0]). *)
Definition ChangeLine : Type := string * Z * Z.

Definition js_truthy_num (v : option Z) : bool :=
  match v with Some x => negb (Z.eqb x 0) | None => false end.

(** [renderChange(label, oldVal, newVal)]. *)
Definition renderChange (label : string) (oldVal newVal : option Z) : option ChangeLine :=
  if negb (js_truthy_num oldVal) && negb (js_truthy_num newVal) then None
  else if decide (oldVal = newVal) then None
  else Some (label, or_zero oldVal, or_zero newVal).

(** The tiers in the order the history page lists them. *)
Definition history_tiers : list (string * Tier.key) :=
  [("Retail", Tier.price_retail); ("Distributor", Tier.price_distributor);
   ("Agent", Tier.price_agent); ("Workshop", Tier.price_workshop);
   ("Online", Tier.price_online)].

(** The five [renderChange] calls of a history row
    ([log.old_prices?.price_x], [log.new_prices?.price_x]). *)
Definition history_changes (old : option PriceRow.t) (new : option PriceRow.t) : list ChangeLine :=
  omap (fun lk : string * Tier.key =>
          renderChange lk.1 (old ≫= fun o => tier_value o lk.2) (new ≫= fun o => tier_value o lk.2))
       history_tiers.

(** An edit of one tier's input ([setPrices({...prices, price_x: v})]). *)
Definition editPrice (st : PricesState) (k : Tier.key) (v : Z) : PricesState :=
  mkPricesState (isEditing st) (currentProduct st) (saving st) (set_form_value (prices st) k v).

Definition history_label (k : Tier.key) : string :=
  match k with
  | Tier.price_retail => "Retail"
  | Tier.price_distributor => "Distributor"
  | Tier.price_agent => "Agent"
  | Tier.price_workshop => "Workshop"
  | Tier.price_online => "Online"
  end.

(** The page's initial state and a row the database stores when the
    retail price of the KYB City shock goes from 120 to 150. *)
Definition prices_init : PricesState :=
  mkPricesState false None false (PriceForm.mk 0 0 0 0 0).

Definition saved_row : PriceRow.t :=
  PriceRow.mk (Some 0%Z) (Some 0%Z) (Some 0%Z) (Some 150%Z) (Some 0%Z).

(** ** The page around the modal *)

Record PricesPage : Type := mkPricesPage {
  products : list ListedProduct;
  loading : bool;
  modal : PricesState
}.

(** The mount effect has called [fetchProducts]. *)
Definition prices_page_init : PricesPage := mkPricesPage [] true prices_init.

Inductive PricesEvent : Type :=
  | EvProductsAnswer (answer : option (option (list ListedProduct)))
  | EvOpen (row : nat)
  | EvPriceInput (k : Tier.key) (v : Z)
  | EvCancel
  | EvSave (resp : UpsertResponse) (sessionUser : option string).

Definition with_modal (pg : PricesPage) (m : PricesState) : PricesPage :=
  mkPricesPage (products pg) (loading pg) m.

(** [fetchProducts()]: [setLoading(true)] until the query answers. *)
Definition fetchProducts (pg : PricesPage) : PricesPage :=
  mkPricesPage (products pg) true (modal pg).

(** One event and the database writes; [None] when it cannot happen:
    the table shows "Loading..." instead of its rows (and their
    "Update Prices" buttons) while [loading], the modal's controls
    exist only while [isEditing], and "Confirm" is disabled while
    [saving].  [handleSave] is one step: the upsert answers before the
    next event. *)
Definition prices_step (pg : PricesPage) (ev : PricesEvent) : option (PricesPage * list DbWrite) :=
  match ev with
  | EvProductsAnswer a =>
      let ps := match a with Some data => default [] data | None => products pg end in
      Some (mkPricesPage ps false (modal pg), [])
  | EvOpen i =>
      if loading pg then None
      else products pg !! i ≫= fun lp => Some (with_modal pg (openEditModal (modal pg) lp), [])
  | EvPriceInput k v =>
      if isEditing (modal pg) then Some (with_modal pg (editPrice (modal pg) k v), []) else None
  | EvCancel =>
      if isEditing (modal pg)
      then Some (with_modal pg (mkPricesState false (currentProduct (modal pg)) (saving (modal pg))
                                  (prices (modal pg))), [])
      else None
  | EvSave resp user =>
      if isEditing (modal pg) && negb (saving (modal pg)) then
        handleSave (modal pg) resp user ≫= fun '(m', ws) =>
        Some (match resp with
              | UpsertOk _ => fetchProducts (with_modal pg m')
              | UpsertError => with_modal pg m'
              end, ws)
      else None
  end.

(** The "Retail Price" column: [priceObj ? `RM ${priceObj.price_retail}`
    : 'Not Set']. *)
Inductive RetailCell : Type :=
  | RetailNotSet
  | RetailRM (v : option Z).

Definition retail_cell (lp : ListedProduct) : RetailCell :=
  match getPriceObj lp.2 with
  | None => RetailNotSet
  | Some o => RetailRM (PriceRow.price_retail o)
  end.

(** The text of the cell: a template literal prints [null] as "null". *)
Definition retail_text (c : RetailCell) : string :=
  match c with
  | RetailNotSet => "Not Set"
  | RetailRM None => "RM null"
  | RetailRM (Some v) => "RM " +:+ pretty v
  end.

(** A row of the table: [{p.brands?.name}], [{p.car_make} {p.car_model}],
    the variant, the position and the retail cell. *)
Record PriceLine : Type := mkPriceLine {
  line_brand : string;
  line_vehicle : string;
  line_variant : string;
  line_position : string;
  line_retail : RetailCell
}.

Definition price_line (lp : ListedProduct) : PriceLine :=
  let p := lp.2 in
  mkPriceLine (Product.brand_name p) (Product.car_make p +:+ " " +:+ Product.car_model p)
    (Product.product_variant p) (Product.position p) (retail_cell lp).

Inductive PricesTable : Type :=
  | TableLoading
  | TableEmpty
  | TableRows (lines : list PriceLine).

Definition prices_table (pg : PricesPage) : PricesTable :=
  if loading pg then TableLoading
  else match products pg with
       | [] => TableEmpty
       | ps => TableRows (map price_line ps)
       end.

(** The modal's inputs, in the order of the form, with their labels. *)
Definition modal_fields : list (string * Tier.key) :=
  [("Distributor", Tier.price_distributor); ("Agent", Tier.price_agent);
   ("Workshop", Tier.price_workshop); ("Online", Tier.price_online);
   ("Retail (RRP)", Tier.price_retail)].

(** The edit modal, rendered while [isEditing]: each input's label and
    value, and the confirm button's [disabled] flag and label. *)
Definition modal_view (m : PricesState) : option (list (string * Z) * (bool * string)) :=
  if isEditing m then
    Some (map (fun lk => (lk.1, form_value (prices m) lk.2)) modal_fields,
          (saving m, if saving m then "Saving..." else "Confirm"))
  else None.

(** ** The history page's state *)

(** A row of [price_history] joined with its product ([null] when the
    product is gone). *)
Record HistoryLog : Type := mkLog {
  log_changed_at : string;
  log_product : option Product.t;
  log_old_prices : option PriceRow.t;
  log_new_prices : option PriceRow.t
}.

Record HistoryState : Type := mkHistoryState {
  logs : list HistoryLog;
  history_loading : bool
}.

(** [fetchHistory] after its query answered. *)
Definition history_answer (st : HistoryState) (answer : option (option (list HistoryLog))) : HistoryState :=
  match answer with
  | None => mkHistoryState (logs st) false
  | Some data => mkHistoryState (default [] data) false
  end.

(** The "Product Info" cell: [{log.products?.brands?.name}
    {log.products?.car_model}], the variant and the position; a log
    whose product is gone shows empty texts. *)
Definition history_info (p : option Product.t) : string * string * string :=
  match p with
  | Some p => (Product.brand_name p +:+ " " +:+ Product.car_model p, Product.product_variant p,
               Product.position p)
  | None => (" ", "", "")
  end.

Inductive HistoryView : Type :=
  | HistoryLoadingRow
  | HistoryEmptyRow
  | HistoryRows (rows : list (string * (string * string * string) * list ChangeLine)).

(** The table body: per log, the date [formatDate(log.changed_at)]
    ([toLocaleString('en-MY', ...)], a locale formatting the model takes
    as the argument [formatDate]), the product info and the "Changes
    Made" cell. *)
Definition history_view (formatDate : string -> string) (st : HistoryState) : HistoryView :=
  if history_loading st then HistoryLoadingRow
  else match logs st with
       | [] => HistoryEmptyRow
       | ls => HistoryRows (map (fun l => (formatDate (log_changed_at l), history_info (log_product l),
                                           history_changes (log_old_prices l) (log_new_prices l))) ls)
       end.

(** The page around the table: the mount effect
    ([useEffect(() => { fetchHistory() }, [])]) starts [fetchHistory],
    which is suspended at its query ([HistAwaiting]); on error it only
    logs ([console.error]) and clears [loading]. *)
Inductive HistoryPhase : Type :=
  | HistNotStarted
  | HistAwaiting
  | HistDone.

Record HistoryPage : Type := mkHistoryPage {
  history_state : HistoryState;
  history_phase : HistoryPhase
}.

Definition history_init : HistoryPage := mkHistoryPage (mkHistoryState [] true) HistNotStarted.

Inductive HistoryEvent : Type :=
  | HistMount
  | HistAnswer (answer : option (option (list HistoryLog))).

Inductive HistoryEffect : Type :=
  | HistConsoleError.

Definition history_step (pg : HistoryPage) (ev : HistoryEvent) : option (HistoryPage * list HistoryEffect) :=
  match ev, history_phase pg with
  | HistMount, HistNotStarted =>
      Some (mkHistoryPage (mkHistoryState (logs (history_state pg)) true) HistAwaiting, [])
  | HistAnswer a, HistAwaiting =>
      Some (mkHistoryPage (history_answer (history_state pg) a) HistDone,
            match a with None => [HistConsoleError] | Some _ => [] end)
  | _, _ => None
  end.

Definition history_run : HistoryPage -> list HistoryEvent -> option (HistoryPage * list HistoryEffect) :=
  run_steps history_step.

(** ** Lemmas *)

Lemma form_value_set (f : PriceForm.t) (k k' : Tier.key) (v : Z) :
  form_value (set_form_value f k v) k' = if decide (k' = k) then v else form_value f k'.
Proof. destruct k, k'; simpl; done. Qed.

(** An [omap] that keeps the entries whose two values differ. *)
Lemma omap_changed {A : Type} (l : list A) (f g : A -> Z) (lab : A -> string) :
  omap (fun a => if decide (f a = g a) then None else Some (lab a, f a, g a)) l =
  map (fun a => (lab a, f a, g a)) (List.filter (fun a => negb (Z.eqb (f a) (g a))) l).
Proof.
  induction l as [|a l IH]; [done|]. rewrite omap_cons. simpl.
  case_decide as Hd; [rewrite (proj2 (Z.eqb_eq _ _) Hd)|rewrite (proj2 (Z.eqb_neq _ _) Hd)];
    simpl; by rewrite IH.
Qed.

(** [renderChange] in terms of the displayed values [v || 0]. *)
Lemma renderChange_displayed (label : string) (oldVal newVal : option Z) :
  renderChange label oldVal newVal =
  if decide (or_zero oldVal = or_zero newVal) then None
  else Some (label, or_zero oldVal, or_zero newVal).
Proof.
  unfold renderChange, js_truthy_num, or_zero.
  destruct oldVal as [a|], newVal as [b|]; simpl.
  all: try destruct (Z.eqb_spec a 0); try destruct (Z.eqb_spec b 0); subst; simpl.
  all: repeat case_decide; simplify_eq/=; first [done | lia | congruence].
Qed.

Lemma openEditModal_form (st : PricesState) (lp : ListedProduct) (k : Tier.key) :
  form_value (prices (openEditModal st lp)) k = or_zero (getPriceObj lp.2 ≫= fun o => tier_value o k).
Proof. by destruct k. Qed.

(** Opening the editor on row [i] of the loaded list shows the modal
    with each input holding the product's stored value, or 0. *)
Lemma modal_view_open (pg pg' : PricesPage) (i : nat) (lp : ListedProduct) (ws : list DbWrite) :
  products pg !! i = Some lp -> prices_step pg (EvOpen i) = Some (pg', ws) ->
  modal_view (modal pg') =
    Some (map (fun lk => (lk.1, or_zero (getPriceObj lp.2 ≫= fun o => tier_value o lk.2))) modal_fields,
          (saving (modal pg), if saving (modal pg) then "Saving..." else "Confirm")).
Proof.
  intros Hi Hs. simpl in Hs. destruct (loading pg); [done|]. rewrite Hi in Hs.
  injection Hs as <- _. reflexivity.
Qed.

(** Edits of the price inputs keep the modal open on the same product. *)
Lemma edits_keep_product (st : PricesState) (edits : list (Tier.key * Z)) :
  currentProduct (fold_left (fun s kv => editPrice s kv.1 kv.2) edits st) = currentProduct st /\
  isEditing (fold_left (fun s kv => editPrice s kv.1 kv.2) edits st) = isEditing st.
Proof. revert st. induction edits as [|[k v] edits IH]; intros st; [done|]. apply (IH (editPrice st k v)). Qed.

(** After a successful save the modal is closed and the table shows
    "Loading..." until the refetch answers, so no row of the list as it
    was before the save can be opened again. *)
Lemma save_refreshes (pg pg' : PricesPage) (row : PriceRow.t) (user : option string) (ws : list DbWrite) :
  prices_step pg (EvSave (UpsertOk row) user) = Some (pg', ws) ->
  prices_table pg' = TableLoading /\ isEditing (modal pg') = false /\
  prices_step pg' (EvOpen 0) = None.
Proof.
  cbn [prices_step]. destruct (isEditing (modal pg) && negb (saving (modal pg))); [|done].
  unfold handleSave. destruct (currentProduct (modal pg)) as [[pid p]|]; [|done].
  cbn. intros [= <- _]. done.
Qed.

(** The history lines of a save whose new row differs from the old one
    in at most the tier [k]. *)
Lemma history_changes_one (old : option PriceRow.t) (row : PriceRow.t) (k : Tier.key) (v : Z) :
  (forall k', or_zero (tier_value row k') =
              if decide (k' = k) then v else or_zero (old ≫= fun o => tier_value o k')) ->
  history_changes old (Some row) =
    if decide (or_zero (old ≫= fun o => tier_value o k) = v) then []
    else [(history_label k, or_zero (old ≫= fun o => tier_value o k), v)].
Proof.
  intros H.
  assert (H' : forall k', or_zero (Some row ≫= fun o => tier_value o k') =
                 if decide (k' = k) then v else or_zero (old ≫= fun o => tier_value o k')) by exact H.
  unfold history_changes, history_tiers. rewrite !omap_cons, !renderChange_displayed, !H'.
  destruct k; simpl; repeat case_decide; simplify_eq/=; done.
Qed.

(** C10: What the history page shows along any run: "Loading logs..."
    until its query answers, then the rows of the answer, and "No
    history found." when the answer is empty, [null] or an error; a
    failed query only writes to the console, so the user sees the same
    table as for an empty history. *)
Theorem history_run_view (formatDate : string -> string) (evs : list HistoryEvent)
    (pg : HistoryPage) (effs : list HistoryEffect) :
  history_run history_init evs = Some (pg, effs) ->
  match history_phase pg with
  | HistDone =>
      exists a, evs = [HistMount; HistAnswer a] /\
        history_view formatDate (history_state pg) =
          match default [] (default None a) with
          | [] => HistoryEmptyRow
          | ls => history_view formatDate (mkHistoryState ls false)
          end /\
        (effs = [HistConsoleError] <-> a = None)
  | _ => history_view formatDate (history_state pg) = HistoryLoadingRow
  end.
Proof.
  destruct evs as [|[|a1] [|[|a] evs]]; cbn; try done; intros Hr; simplify_eq/=; try done.
  - destruct evs as [|ev evs]; cbn in Hr.
    + injection Hr as <- <-. simpl. exists a. split; [done|].
      destruct a as [[ls|]|]; simpl; [destruct ls|..]; split; (done || by split).
    + destruct ev, a; simpl in Hr; done.
Qed.

(** The history query fails. *)
Lemma history_run_view_witness :
  exists pg effs, history_run history_init [HistMount; HistAnswer None] = Some (pg, effs) /\
  match history_phase pg with
  | HistDone =>
      exists a, [HistMount; HistAnswer None] = [HistMount; HistAnswer a] /\
        history_view (fun d => d) (history_state pg) =
          match default [] (default None a) with
          | [] => HistoryEmptyRow
          | ls => history_view (fun d => d) (mkHistoryState ls false)
          end /\
        (effs = [HistConsoleError] <-> a = None)
  | _ => history_view (fun d => d) (history_state pg) = HistoryLoadingRow
  end.
Proof.
  eexists _, _. split; [reflexivity|].
  apply (history_run_view (fun d => d) [HistMount; HistAnswer None]). reflexivity.
Defined.

(** ** Properties *)

(** C31: a history row lists, in the order Retail, Distributor, Agent,
    Workshop, Online, exactly the tiers whose displayed value ([v || 0])
    changed, with their old and new displayed values: [renderChange]'s
    two tests ([!oldVal && !newVal], [oldVal === newVal]) together
    amount to comparing the displayed values. *)
Theorem history_changes_exact (old new : option PriceRow.t) :
  history_changes old new =
  map (fun lk : string * Tier.key =>
         (lk.1, or_zero (old ≫= fun o => tier_value o lk.2), or_zero (new ≫= fun o => tier_value o lk.2)))
      (List.filter (fun lk : string * Tier.key =>
         negb (Z.eqb (or_zero (old ≫= fun o => tier_value o lk.2))
                     (or_zero (new ≫= fun o => tier_value o lk.2)))) history_tiers).
Proof.
  unfold history_changes. rewrite (omap_ext _ _ _ (fun lk _ => renderChange_displayed _ _ _)).
  apply omap_changed.
Qed.

(** C32: open the editor on a product and make any edits: saving
    always sends the upsert of the edited form; when it succeeds the
    modal closes and the one history row written holds the returned row
    as new prices and, as old prices, exactly the values the editor was
    opened with, whatever the edits; when it fails nothing else is
    written and the modal stays open on the same product. *)
Theorem handleSave_logs_prefill (st : PricesState) (lp : ListedProduct) (edits : list (Tier.key * Z))
    (row : PriceRow.t) (user : option string) :
  let S := fold_left (fun s kv => editPrice s kv.1 kv.2) edits (openEditModal st lp) in
  (exists h, handleSave S (UpsertOk row) user =
      Some (mkPricesState false (Some lp) false (prices S), [UpsertPrices lp.1 (prices S); InsertHistory h]) /\
    new_prices h = row /\
    forall k, or_zero (old_prices h ≫= fun o => tier_value o k) = form_value (prices (openEditModal st lp)) k) /\
  handleSave S UpsertError user = Some (mkPricesState true (Some lp) false (prices S), [UpsertPrices lp.1 (prices S)]).
Proof.
  intros S. destruct lp as [pid p].
  destruct (edits_keep_product (openEditModal st (pid, p)) edits) as [Hc He].
  fold S in Hc, He. unfold handleSave. rewrite Hc, He. split; [|done].
  eexists. split; [reflexivity|]. split; [done|]. intros k. by rewrite openEditModal_form.
Qed.

(** C30: open the edit modal on a product, change the tier [k] to [v]
    and save; when the database returns the row it stored, the history
    page shows for that save exactly one line, the tier [k] going from
    its displayed value to [v], or no line when [v] is the displayed
    value. *)
Theorem edit_one_tier_history (st : PricesState) (lp : ListedProduct) (k : Tier.key) (v : Z)
    (row : PriceRow.t) (user : option string) (st' : PricesState) (writes : list DbWrite) :
  (forall k', tier_value row k' = Some (form_value (prices (editPrice (openEditModal st lp) k v)) k')) ->
  handleSave (editPrice (openEditModal st lp) k v) (UpsertOk row) user = Some (st', writes) ->
  exists h, writes = [UpsertPrices lp.1 (prices (editPrice (openEditModal st lp) k v)); InsertHistory h] /\
    history_changes (old_prices h) (Some (new_prices h)) =
      if decide (or_zero (getPriceObj lp.2 ≫= fun o => tier_value o k) = v) then []
      else [(history_label k, or_zero (getPriceObj lp.2 ≫= fun o => tier_value o k), v)].
Proof.
  intros Hrow Hsave. destruct lp as [pid p].
  unfold handleSave in Hsave. simpl in Hsave. injection Hsave as _ <-.
  eexists. split; [reflexivity|]. apply history_changes_one.
  intros k'. rewrite Hrow. change (or_zero (Some ?x)) with x.
  unfold editPrice; cbn [prices]. by rewrite form_value_set, openEditModal_form.
Qed.

Lemma edit_one_tier_history_witness :
  exists st' writes,
    handleSave (editPrice (openEditModal prices_init (7%Z, kyb_city)) Tier.price_retail 150)
      (UpsertOk saved_row) None = Some (st', writes) /\
    exists h, writes = [UpsertPrices 7%Z (prices (editPrice (openEditModal prices_init (7%Z, kyb_city)) Tier.price_retail 150));
                        InsertHistory h] /\
      history_changes (old_prices h) (Some (new_prices h)) =
        if decide (or_zero (getPriceObj kyb_city ≫= fun o => tier_value o Tier.price_retail) = 150%Z) then []
        else [(history_label Tier.price_retail,
               or_zero (getPriceObj kyb_city ≫= fun o => tier_value o Tier.price_retail), 150%Z)].
Proof.
  eexists _, _. split; [reflexivity|].
  eapply (edit_one_tier_history prices_init (7%Z, kyb_city) Tier.price_retail 150 saved_row None);
    [intros []; reflexivity | reflexivity].
Defined.

(** C33: the price editor ([getPriceObj]) and the public matrix
    ([first_price] of [processData]) read different prices for a
    product exactly when its embedded [prices] relation arrives as a
    single object: the editor then shows that object while the public
    page shows no price at all. *)
Theorem getPriceObj_first_price (p : Product.t) :
  getPriceObj p <> first_price p <->
  exists o, Product.prices p = PricesObject o /\ getPriceObj p = Some o /\ first_price p = None.
Proof.
  unfold getPriceObj, first_price.
  destruct (Product.prices p) as [|[|r rows]|o]; split; intros H;
    first [by exfalso; apply H | by destruct H as (? & ? & ? & ?) | by eexists].
Qed.

(** A product whose price row has no retail value is listed as
    "RM null". *)
Example retail_null_shows_rm_null :
  retail_text (retail_cell (5%Z, Product.mk "Perodua" "Axia" "Standard" "Front (2 pcs)" "Shock Absorber"
                                   None "KYB" (PricesArray [PriceRow.mk (Some 90%Z) None None None None])))
  = "RM null".
Proof. reflexivity. Qed.
