(* ===== verification/PricesAsync.v ===== *)
(** * The prices page with [handleSave] split at its [await]s

    [Prices] runs [handleSave] of [src/app/admin/prices/page.js] as one
    step ([prices_step] on [EvSave]).  The handler is asynchronous: it
    sets [saving], awaits the upsert, then the session, then the
    history insert, and only then closes the modal and refetches.  The
    page stays live meanwhile: the "Cancel" button is not disabled, and
    once the modal is closed the table's "Update Prices" buttons can be
    clicked again.  This file models the page with the handler's
    suspension point ([pending]: the product and the form its closure
    captured, and which answer it waits for), proves that a save nobody
    interrupts is exactly the atomic step of [Prices]
    ([save_refines]), that a save is pending exactly while "Confirm"
    is disabled, and exhibits the interleaving the atomic model cannot
    show. *)

From stdpp Require Import base list strings.
From Stdlib Require Import ZArith.
From S2P Require Import Prelude JsCore Catalog Pivot Prices.

Module PricesAsync.

(** What the suspended [handleSave] waits for. *)
Inductive SaveStage : Type :=
  | AwaitUpsert
  | AwaitSession (newPriceData : PriceRow.t)
  | AwaitHistory.

(** A running [handleSave]: the [currentProduct] and [prices] of the
    render whose "Confirm" was clicked, and its stage. *)
Record PendingSave : Type := mkPending {
  save_product : ListedProduct;
  save_prices : PriceForm.t;
  save_stage : SaveStage
}.

Record state : Type := mk {
  page : PricesPage;
  pending : option PendingSave
}.

Definition init : state := mk prices_page_init None.

Inductive Effect : Type :=
  | Write (w : DbWrite)
  | SaveErrorAlert.

Inductive Event : Type :=
  | EvProductsAnswer (answer : option (option (list ListedProduct)))
  | EvOpen (row : nat)
  | EvPriceInput (k : Tier.key) (v : Z)
  | EvCancel
  | EvConfirm
  | EvUpsertAnswer (resp : UpsertResponse)
  | EvSessionAnswer (sessionUser : option string)
  | EvHistoryDone.

(** An event of [Prices] that is not part of [handleSave]. *)
Definition lift (st : state) (ev : PricesEvent) : option (state * list Effect) :=
  prices_step (page st) ev ≫= fun '(pg, ws) => Some (mk pg (pending st), map Write ws).

Definition with_pending (st : state) (m : PricesState) (p : option PendingSave) : state :=
  mk (with_modal (page st) m) p.

(** One event.  The modal is a fixed overlay over the whole page, so a
    row of the table can be opened only while it is closed; "Confirm"
    is disabled while [saving]; an answer arrives only to a save
    waiting for it. *)
Definition step (st : state) (ev : Event) : option (state * list Effect) :=
  let m := modal (page st) in
  match ev with
  | EvProductsAnswer a => lift st (Prices.EvProductsAnswer a)
  | EvOpen i => if isEditing m then None else lift st (Prices.EvOpen i)
  | EvPriceInput k v => lift st (Prices.EvPriceInput k v)
  | EvCancel => lift st Prices.EvCancel
  | EvConfirm =>
      if isEditing m && negb (saving m) then
        currentProduct m ≫= fun lp =>
        Some (with_pending st (mkPricesState (isEditing m) (Some lp) true (prices m))
                (Some (mkPending lp (prices m) AwaitUpsert)),
              [Write (UpsertPrices lp.1 (prices m))])
      else None
  | EvUpsertAnswer resp =>
      match pending st with
      | Some (mkPending lp f AwaitUpsert) =>
          match resp with
          | UpsertError =>
              Some (with_pending st (mkPricesState (isEditing m) (currentProduct m) false (prices m)) None,
                    [SaveErrorAlert])
          | UpsertOk row => Some (mk (page st) (Some (mkPending lp f (AwaitSession row))), [])
          end
      | _ => None
      end
  | EvSessionAnswer user =>
      match pending st with
      | Some (mkPending lp f (AwaitSession row)) =>
          Some (mk (page st) (Some (mkPending lp f AwaitHistory)),
                [Write (InsertHistory (mkHistory lp.1 user (getPriceObj lp.2) row))])
      | _ => None
      end
  | EvHistoryDone =>
      match pending st with
      | Some (mkPending _ _ AwaitHistory) =>
          Some (mk (fetchProducts (with_modal (page st)
                      (mkPricesState false (currentProduct m) false (prices m)))) None, [])
      | _ => None
      end
  end.

Definition run : state -> list Event -> option (state * list Effect) := run_steps step.

(** The events of a save that nothing interrupts. *)
Definition save_events (resp : UpsertResponse) (user : option string) : list Event :=
  EvConfirm :: EvUpsertAnswer resp ::
  match resp with UpsertError => [] | UpsertOk _ => [EvSessionAnswer user; EvHistoryDone] end.

(** The database writes among the effects. *)
Definition writes (effs : list Effect) : list DbWrite :=
  omap (fun e => match e with Write w => Some w | SaveErrorAlert => None end) effs.

(** The events of the page itself, which a running save does not
    wait for: the products' answer, "Update Prices" on a row, the price
    inputs and "Cancel". *)
Definition page_event (ev : Event) : bool :=
  match ev with
  | EvProductsAnswer _ | EvOpen _ | EvPriceInput _ _ | EvCancel => true
  | _ => false
  end.

(** A save is pending exactly while the modal state says [saving]. *)
Definition save_inv (st : state) : Prop :=
  saving (modal (page st)) = true <-> is_Some (pending st).

(** ** Lemmas *)

(** The steps of [Prices] that [lift] reuses keep [saving] and write
    nothing. *)
Lemma prices_step_saving (pg pg' : PricesPage) (ev : PricesEvent) (ws : list DbWrite) :
  (forall r u, ev <> Prices.EvSave r u) -> prices_step pg ev = Some (pg', ws) ->
  saving (modal pg') = saving (modal pg) /\ ws = [].
Proof.
  intros Hns Hs. destruct ev as [a|i|k v| |r u]; simpl in Hs.
  - by injection Hs as <- <-.
  - destruct (loading pg); [done|]. destruct (products pg !! i); [|done].
    by injection Hs as <- <-.
  - destruct (isEditing (modal pg)); [|done]. by injection Hs as <- <-.
  - destruct (isEditing (modal pg)); [|done]. by injection Hs as <- <-.
  - by exfalso; apply (Hns r u).
Qed.

Lemma lift_inv (st st' : state) (ev : PricesEvent) (e : list Effect) :
  (forall r u, ev <> Prices.EvSave r u) -> save_inv st -> lift st ev = Some (st', e) -> save_inv st'.
Proof.
  intros Hns Hinv Hl. unfold lift in Hl.
  destruct (prices_step (page st) ev) as [[pg ws]|] eqn:Hs; [|done]. injection Hl as <- _.
  unfold save_inv. simpl. by rewrite (proj1 (prices_step_saving _ _ _ _ Hns Hs)).
Qed.

(** An event of the page leaves a running save as it is, keeps
    [saving], and has no effect. *)
Lemma step_page_event (st st' : state) (ev : Event) (e : list Effect) :
  page_event ev = true -> step st ev = Some (st', e) ->
  pending st' = pending st /\ saving (modal (page st')) = saving (modal (page st)) /\ e = [].
Proof.
  intros Hev Hs.
  assert (Hl : exists pev, (forall r u, pev <> Prices.EvSave r u) /\ lift st pev = Some (st', e)).
  { destruct ev; try done; simpl in Hs; try (eexists; split; [|exact Hs]; done).
    destruct (isEditing _); [done|]. eexists; split; [|exact Hs]; done. }
  destruct Hl as (pev & Hns & Hl). unfold lift in Hl.
  destruct (prices_step (page st) pev) as [[pg ws]|] eqn:Hp; [|done]. injection Hl as <- <-.
  destruct (prices_step_saving _ _ _ _ Hns Hp) as [Hsv ->]. done.
Qed.

Lemma run_page_events (evs : list Event) (st st' : state) (e : list Effect) :
  forallb page_event evs = true -> run st evs = Some (st', e) ->
  pending st' = pending st /\ saving (modal (page st')) = saving (modal (page st)) /\ e = [].
Proof.
  revert st e. induction evs as [|ev evs IH]; intros st e Hev Hrun.
  - by injection Hrun as <- <-.
  - simpl in Hev. apply andb_prop in Hev as [Hev Hevs].
    apply run_steps_cons in Hrun as (st1 & e1 & e2 & Hs & Hr & ->).
    destruct (step_page_event _ _ _ _ Hev Hs) as (Hp1 & Hs1 & ->).
    destruct (IH _ _ Hevs Hr) as (Hp2 & Hs2 & ->). by rewrite Hp2, Hs2.
Qed.

Lemma step_inv (st st' : state) (ev : Event) (e : list Effect) :
  save_inv st -> step st ev = Some (st', e) -> save_inv st'.
Proof.
  intros Hinv Hs. destruct ev as [a|i|k v| | |resp|user|]; simpl in Hs;
    try (eapply lift_inv; [|exact Hinv|exact Hs]; done).
  - destruct (isEditing _); [done|]. eapply lift_inv; [|exact Hinv|exact Hs]; done.
  - destruct (isEditing _ && negb _); [|done]. destruct (currentProduct _); [|done].
    injection Hs as <- _. unfold save_inv. simpl. split; [done|]. intros _; done.
  - destruct (pending st) as [[lp f [|row|]]|] eqn:Hp; try done.
    destruct resp; injection Hs as <- _; unfold save_inv in *; simpl.
    + split; [done|]. by intros [].
    + rewrite Hp in Hinv. rewrite Hinv. split; intros _; eexists; done.
  - destruct (pending st) as [[lp f [|row|]]|] eqn:Hp; try done.
    injection Hs as <- _. unfold save_inv in *. simpl. rewrite Hp in Hinv. rewrite Hinv.
    split; intros _; eexists; done.
  - destruct (pending st) as [[lp f [|row|]]|] eqn:Hp; try done.
    injection Hs as <- _. unfold save_inv. simpl. split; [done|]. by intros [].
Qed.

Lemma run_inv (st st' : state) (evs : list Event) (e : list Effect) :
  save_inv st -> run st evs = Some (st', e) -> save_inv st'.
Proof.
  apply run_steps_invariant, step_inv.
Qed.

(** ** Properties *)

(** C23: refinement: a save whose answers arrive before any other event is
    the atomic step [prices_step] of [Prices] on [EvSave]: same page
    state, same database writes in the same order, and no save left
    pending; when the atomic step refuses the save, "Confirm" cannot be
    clicked. *)
Theorem save_refines (st : state) (resp : UpsertResponse) (user : option string) :
  pending st = None ->
  match prices_step (page st) (Prices.EvSave resp user) with
  | Some (pg', ws) =>
      exists effs, run st (save_events resp user) = Some (mk pg' None, effs) /\ writes effs = ws
  | None => step st EvConfirm = None
  end.
Proof.
  intros Hp. destruct st as [pg p]. simpl in Hp. subst p. cbn [page prices_step step].
  destruct (isEditing (modal pg) && negb (saving (modal pg))) eqn:Hb; [|done].
  unfold handleSave. destruct (currentProduct (modal pg)) as [[pid prod]|] eqn:Hc; [|done].
  destruct resp as [|row]; simpl; rewrite Hb; simpl; rewrite Hc; simpl;
    eexists; (split; [reflexivity|reflexivity]).
Qed.

(** C6: A save is pending exactly while "Confirm" is disabled ([saving]):
    along any run from the mount, [handleSave] never runs twice at
    once, and every save that ends (its error answer or its history
    insert) enables "Confirm" again. *)
Theorem saving_iff_pending (evs : list Event) (st : state) (e : list Effect) :
  run init evs = Some (st, e) -> saving (modal (page st)) = true <-> is_Some (pending st).
Proof. intros Hrun. apply (run_inv init st evs e); [|done]. unfold save_inv. simpl. split; [done|by intros []]. Qed.

(** The listed products of the scenario. *)
Definition city_kyb : ListedProduct := (7%Z, kyb_city).
Definition city_monroe : ListedProduct := (8%Z, monroe_city).

(** The admin edits the KYB shock's retail price and confirms, cancels
    while the save is running, opens the Monroe shock and types a new
    retail price; the first save's answers then arrive. *)
Definition interleaved_save : list Event :=
  [EvProductsAnswer (Some (Some [city_kyb; city_monroe]));
   EvOpen 0; EvPriceInput Tier.price_retail 150; EvConfirm; EvCancel;
   EvOpen 1; EvPriceInput Tier.price_retail 99;
   EvUpsertAnswer (UpsertOk saved_row); EvSessionAnswer (Some "admin"); EvHistoryDone].

(** C37: whatever the admin does on the page while a save runs
    (cancelling it, opening another product, typing its prices),
    "Confirm" stays disabled, nothing is written, and the save stays
    pending; when it completes after its history insert
    ([setIsEditing(false)]), it closes the modal open at that time,
    whichever product it shows: the other product's edit is lost
    although its modal was never cancelled. *)
Theorem interleaved_save_closes_next_modal (st st1 : state) (p : PendingSave) (evs : list Event)
    (effs : list Effect) :
  pending st = Some p -> saving (modal (page st)) = true ->
  forallb page_event evs = true -> run st evs = Some (st1, effs) ->
  effs = [] /\ pending st1 = Some p /\ step st1 EvConfirm = None /\
  (save_stage p = AwaitHistory ->
     exists st2, step st1 EvHistoryDone = Some (st2, []) /\
       isEditing (modal (page st2)) = false /\ pending st2 = None).
Proof.
  intros Hp Hsv Hev Hrun. destruct (run_page_events _ _ _ _ Hev Hrun) as (Hp1 & Hs1 & ->).
  rewrite Hp in Hp1. split_and!; [done|done| |].
  - cbn [step]. by rewrite Hs1, Hsv, andb_false_r.
  - intros Hst. destruct p as [lp f stage]. simpl in Hst. subst stage.
    eexists. cbn [step]. rewrite Hp1. split; [reflexivity|done].
Qed.

(** The state of [interleaved_save] when the first save waits for its
    history insert, and the admin's events meanwhile. *)
Definition awaiting_history : state :=
  match run init [EvProductsAnswer (Some (Some [city_kyb; city_monroe]));
                  EvOpen 0; EvPriceInput Tier.price_retail 150; EvConfirm;
                  EvUpsertAnswer (UpsertOk saved_row); EvSessionAnswer (Some "admin")] with
  | Some (st, _) => st
  | None => init
  end.

Definition kyb_save : PendingSave :=
  mkPending city_kyb (set_form_value (prices (openEditModal prices_init city_kyb)) Tier.price_retail 150)
    AwaitHistory.

Definition edit_monroe : list Event := [EvCancel; EvOpen 1; EvPriceInput Tier.price_retail 99].

Lemma interleaved_save_closes_next_modal_witness :
  pending awaiting_history = Some kyb_save /\ saving (modal (page awaiting_history)) = true /\
  forallb page_event edit_monroe = true /\
  exists st1, run awaiting_history edit_monroe = Some (st1, []) /\
    currentProduct (modal (page st1)) = Some city_monroe /\ isEditing (modal (page st1)) = true /\
    pending st1 = Some kyb_save /\ step st1 EvConfirm = None /\
    (save_stage kyb_save = AwaitHistory ->
       exists st2, step st1 EvHistoryDone = Some (st2, []) /\
         isEditing (modal (page st2)) = false /\ pending st2 = None).
Proof.
  assert (H1 : pending awaiting_history = Some kyb_save) by reflexivity.
  assert (H2 : saving (modal (page awaiting_history)) = true) by reflexivity.
  assert (H3 : forallb page_event edit_monroe = true) by reflexivity.
  split_and!; [exact H1|exact H2|exact H3|].
  eexists. assert (Hr : run awaiting_history edit_monroe = Some (_, [])) by reflexivity.
  destruct (interleaved_save_closes_next_modal _ _ _ _ _ H1 H2 H3 Hr) as (_ & Hp & Hc & Hd).
  split_and!; [exact Hr|reflexivity|reflexivity|exact Hp|exact Hc|exact Hd].
Defined.

(** The page with the KYB shock's modal open and its retail price
    edited, nothing pending. *)
Definition edit_kyb : state :=
  match run init (take 3 interleaved_save) with Some (st, _) => st | None => init end.

Lemma save_refines_witness :
  pending edit_kyb = None /\
  match prices_step (page edit_kyb) (Prices.EvSave (UpsertOk saved_row) (Some "admin")) with
  | Some (pg', ws) =>
      exists effs, run edit_kyb (save_events (UpsertOk saved_row) (Some "admin")) = Some (mk pg' None, effs) /\
        writes effs = ws
  | None => step edit_kyb EvConfirm = None
  end.
Proof. split; [reflexivity|]. apply (save_refines edit_kyb); reflexivity. Defined.

(** After the admin confirms the KYB shock's save, Confirm is disabled
    and the save is pending. *)
Lemma saving_iff_pending_witness :
  exists st e, run init (take 4 interleaved_save) = Some (st, e) /\
    (saving (modal (page st)) = true <-> is_Some (pending st)).
Proof.
  eexists _, _. split; [reflexivity|].
  eapply (saving_iff_pending (take 4 interleaved_save)). reflexivity.
Defined.

End PricesAsync.
