(* ===== verification/Settings.v ===== *)
(** * The visibility settings page

    [SettingsPage] of [src/app/admin/settings/page.js]: the rows of
    [app_settings] held in React state, switched by [handleToggle], sent
    back by [handleSave], and named by [formatLabel].  [handleToggle]
    copies the array ([[...settings]]) but not the row objects, and
    writes [is_visible] in place; the model therefore keeps the row
    objects in a heap addressed by locations and the arrays as lists of
    locations.  A handler reads the state of the render that created it
    ([rendered]); [setSettings] sets the value of the next render
    ([settings]).  [view] is the render: a card per row, read from the
    heap when the render happens, and the save button. *)

From stdpp Require Import base list strings gmap.
From Stdlib Require Import ZArith Ascii.
From S2P Require Import Prelude JsCore Catalog Matrix.

Module SettingsPage.

(** A reference to a row object. *)
Abbreviation loc := nat.

(** The row objects the page holds. *)
Abbreviation heap := (gmap loc SettingRow.t).

Record state : Type := mk {
  settings : list loc;
  rendered : list loc;
  loading : bool;
  saving : bool;
  store : heap;
  next_loc : loc
}.

(** The [useState] initial values; the mount effect has started
    [fetchSettings]. *)
Definition init : state := mk [] [] true false ∅ 0.

(** The [app_settings] query's [{ data, error }]. *)
Inductive Response : Type :=
  | RespError
  | RespData (data : option (list SettingRow.t)).

(** What a handler does outside React state. *)
Inductive Effect : Type :=
  | Upsert (rows : list SettingRow.t)
  | Alert (msg : string).

Inductive Event : Type :=
  | EvLoaded (r : Response)
  | EvRender
  | EvToggle (index : nat)
  | EvSaveClick
  | EvSaveDone (error : option string).

(** The response's rows become fresh objects. *)
Fixpoint alloc (h : heap) (next : loc) (rows : list SettingRow.t) : heap * list loc :=
  match rows with
  | [] => (h, [])
  | r :: rs => let '(h', ls) := alloc (<[next := r]> h) (S next) rs in (h', next :: ls)
  end.

(** The array as [JSON.stringify] sends it: the current contents of the
    objects it references. *)
Definition read_rows (h : heap) (arr : list loc) : list SettingRow.t :=
  omap (fun l => h !! l) arr.

(** [!s.is_visible] written back into the object. *)
Definition toggle_visible (s : SettingRow.t) : SettingRow.t :=
  SettingRow.mk (SettingRow.id s) (SettingRow.setting_key s) (negb (SettingRow.is_visible s)).

(** [handleToggle(index)] in the closure that captured [captured]:
    [None] is the [TypeError] of [newSettings[index].is_visible] out of
    range. *)
Definition handleToggle (captured : list loc) (h : heap) (index : nat) : option (list loc * heap) :=
  let newSettings := captured in
  newSettings !! index ≫= fun l =>
  h !! l ≫= fun obj =>
  Some (newSettings, <[l := toggle_visible obj]> h).

Definition save_message (error : option string) : string :=
  match error with
  | None => "Settings updated successfully!"
  | Some m => "Error saving settings: " +:+ m
  end.

(** [formatLabel(key)]: ['show_distributor'] becomes
    ['Distributor Price']. *)
Definition formatLabel (key : string) : string :=
  let words := split_char "_"%char (replace_first "show_" "" key) in
  join " " (map capitalize words) +:+ " Price".

(** One event; [None] when it cannot happen in this state (a second
    response, a click on the disabled save button, a toggle out of
    range). *)
Definition step (st : state) (ev : Event) : option (state * list Effect) :=
  match ev with
  | EvLoaded r =>
      if loading st then
        match r with
        | RespError => Some (mk (settings st) (rendered st) false (saving st) (store st) (next_loc st), [])
        | RespData data =>
            let rows := default [] data in
            let '(h, ls) := alloc (store st) (next_loc st) rows in
            Some (mk ls (rendered st) false (saving st) h (next_loc st + length rows), [])
        end
      else None
  | EvRender => Some (mk (settings st) (settings st) (loading st) (saving st) (store st) (next_loc st), [])
  | EvToggle i =>
      handleToggle (rendered st) (store st) i ≫= fun '(arr, h) =>
      Some (mk arr (rendered st) (loading st) (saving st) h (next_loc st), [])
  | EvSaveClick =>
      if saving st then None
      else Some (mk (settings st) (rendered st) (loading st) true (store st) (next_loc st),
                 [Upsert (read_rows (store st) (rendered st))])
  | EvSaveDone err =>
      if saving st then
        Some (mk (settings st) (rendered st) (loading st) false (store st) (next_loc st),
              [Alert (save_message err)])
      else None
  end.

Definition run : state -> list Event -> option (state * list Effect) := run_steps step.

(** Every array references distinct live objects, and fresh locations
    are fresh. *)
Definition wf (st : state) : Prop :=
  (forall l, l ∈ settings st -> is_Some (store st !! l)) /\
  (forall l, l ∈ rendered st -> is_Some (store st !! l)) /\
  NoDup (settings st) /\ NoDup (rendered st) /\
  (forall l, is_Some (store st !! l) -> l < next_loc st).

(** One switch card: the label, the key in monospace, the checkbox, the
    ["Visible"]/["Hidden"] text and the green frame of a visible tier. *)
Record Card : Type := mkCard {
  card_label : string;
  card_key : string;
  card_checked : bool;
  card_status : string;
  card_green : bool
}.

Definition card (s : SettingRow.t) : Card :=
  let v := SettingRow.is_visible s in
  mkCard (formatLabel (SettingRow.setting_key s)) (SettingRow.setting_key s) v
    (if v then "Visible" else "Hidden") v.

Inductive ListView : Type :=
  | ListLoading
  | ListCards (cards : list Card).

(** What a render shows: ["Loading settings..."] or a card per row of
    [settings] (the objects' contents at render time), and the save
    button with its [disabled] flag and label. *)
Definition view (st : state) : ListView * (bool * string) :=
  (if loading st then ListLoading else ListCards (map card (read_rows (store st) (settings st))),
   (saving st, if saving st then "Saving Changes..." else "Save Settings")).

(** Three rows of [app_settings] ordered by [id]. *)
Definition demo_rows : list SettingRow.t :=
  [SettingRow.mk 1 "show_distributor" false; SettingRow.mk 2 "show_retail" true;
   SettingRow.mk 3 "show_online" true].

(** The page once [demo_rows] are loaded and rendered. *)
Definition demo_loaded : state :=
  mk (seq 0 3) (seq 0 3) false false (alloc ∅ 0 demo_rows).1 3.

(** ** Lemmas *)

Lemma alloc_locs (h : heap) (next : loc) (rows : list SettingRow.t) :
  (alloc h next rows).2 = seq next (length rows).
Proof.
  revert h next. induction rows as [|r rows IH]; intros h next; [done|]. simpl.
  specialize (IH (<[next:=r]> h) (S next)). destruct (alloc _ _ rows). cbn [fst snd] in *. by rewrite IH.
Qed.

Lemma lookup_alloc (h : heap) (next : loc) (rows : list SettingRow.t) (l : loc) :
  (alloc h next rows).1 !! l =
  if decide (next <= l < next + length rows) then rows !! (l - next) else h !! l.
Proof.
  revert h next. induction rows as [|r rows IH]; intros h next; cbn [alloc length].
  - case_decide; [lia|done].
  - specialize (IH (<[next:=r]> h) (S next)). destruct (alloc _ _ rows) as [h' ls]. cbn [fst snd] in *.
    rewrite IH, lookup_insert.
    repeat case_decide; subst; try lia; rewrite ?Nat.sub_diag; try done.
    by replace (l - next) with (S (l - S next)) by lia.
Qed.

Lemma read_rows_lookup (h : heap) (arr : list loc) (k : nat) :
  (forall l, l ∈ arr -> is_Some (h !! l)) -> read_rows h arr !! k = arr !! k ≫= fun l => h !! l.
Proof.
  unfold read_rows. revert k. induction arr as [|l arr IH]; intros k Hl; [done|].
  rewrite omap_cons. destruct (Hl l) as [obj Hobj]; [apply list_elem_of_here|]. rewrite Hobj.
  destruct k as [|k]; [symmetry; exact Hobj|]. apply IH.
  intros l' Hl'. apply Hl. by apply list_elem_of_further.
Qed.

Lemma handleToggle_spec (r : list loc) (h : heap) (i : nat) (l : loc) (obj : SettingRow.t) :
  r !! i = Some l -> h !! l = Some obj ->
  handleToggle r h i = Some (r, <[l := toggle_visible obj]> h).
Proof.
  intros Hl Hobj. unfold handleToggle. rewrite Hl.
  change (h !! l ≫= (fun obj => Some (r, <[l := toggle_visible obj]> h)) =
          Some (r, <[l := toggle_visible obj]> h)).
  by rewrite Hobj.
Qed.

(** Writing one object through a reference changes the one row the
    array shows at that reference's index. *)
Lemma read_rows_toggle (r : list loc) (h : heap) (i : nat) (l : loc) (obj : SettingRow.t) :
  NoDup r -> (forall l', l' ∈ r -> is_Some (h !! l')) ->
  r !! i = Some l -> h !! l = Some obj ->
  read_rows (<[l := toggle_visible obj]> h) r = alter toggle_visible i (read_rows h r).
Proof.
  intros Hnd Hlive Hl Hobj. apply list_eq. intros k.
  rewrite read_rows_lookup.
  2: { intros l' Hl'. rewrite lookup_insert_is_Some'. by right; apply Hlive. }
  rewrite list_lookup_alter.
  destruct (decide (i = k)) as [<-|Hik].
  - rewrite (read_rows_lookup h r i Hlive), Hl.
    change (<[l:=toggle_visible obj]> h !! l = toggle_visible <$> h !! l).
    by rewrite lookup_insert_eq, Hobj.
  - rewrite (read_rows_lookup h r k Hlive).
    destruct (r !! k) as [l'|] eqn:Hk; [|done].
    change (<[l:=toggle_visible obj]> h !! l' = h !! l').
    rewrite lookup_insert_ne; [done|]. intros <-.
    apply Hik. by eapply NoDup_lookup.
Qed.

Lemma handleToggle_inv (r : list loc) (h h' : heap) (i : nat) (arr : list loc) :
  handleToggle r h i = Some (arr, h') ->
  exists l obj, r !! i = Some l /\ h !! l = Some obj /\ arr = r /\ h' = <[l := toggle_visible obj]> h.
Proof.
  unfold handleToggle. destruct (r !! i) as [l|] eqn:Hl; [|done]. cbn [mbind option_bind].
  destruct (h !! l) as [obj|] eqn:Hobj; [|done]. cbn [mbind option_bind].
  intros [= <- <-]. by exists l, obj.
Qed.

Lemma wf_alloc (st : state) (rows : list SettingRow.t) :
  wf st ->
  wf (mk (alloc (store st) (next_loc st) rows).2 (rendered st) false (saving st)
         (alloc (store st) (next_loc st) rows).1 (next_loc st + length rows)).
Proof.
  intros (_ & Hr & _ & Hnd & Hdom). rewrite alloc_locs. split_and!; simpl.
  - intros l Hl. apply elem_of_seq in Hl. rewrite lookup_alloc, decide_True by lia.
    apply lookup_lt_is_Some_2. lia.
  - intros l Hl. pose proof (Hdom l (Hr l Hl)). rewrite lookup_alloc, decide_False by lia. auto.
  - apply NoDup_seq.
  - done.
  - intros l. rewrite lookup_alloc. case_decide; [lia|]. intros Hl. pose proof (Hdom l Hl). lia.
Qed.

Lemma wf_toggle (st : state) (l : loc) (obj : SettingRow.t) :
  wf st -> store st !! l = Some obj ->
  wf (mk (rendered st) (rendered st) (loading st) (saving st)
         (<[l := toggle_visible obj]> (store st)) (next_loc st)).
Proof.
  intros (_ & Hr & _ & Hnd & Hdom) Hobj. split_and!; simpl; [| |done..|].
  - intros l' Hl'. rewrite lookup_insert_is_Some'. by right; apply Hr.
  - intros l' Hl'. rewrite lookup_insert_is_Some'. by right; apply Hr.
  - intros l'. rewrite lookup_insert_is_Some'. intros [<-|Hl']; apply Hdom; [by exists obj|done].
Qed.

Lemma wf_same (st : state) (sets rend : list loc) (ld sv : bool) :
  wf st -> (forall l, l ∈ sets -> is_Some (store st !! l)) ->
  (forall l, l ∈ rend -> is_Some (store st !! l)) -> NoDup sets -> NoDup rend ->
  wf (mk sets rend ld sv (store st) (next_loc st)).
Proof. intros (_ & _ & _ & _ & Hd) Hs Hr Hns Hnr. by split_and!. Qed.

Lemma step_wf (st st' : state) (ev : Event) (effs : list Effect) :
  wf st -> step st ev = Some (st', effs) -> wf st'.
Proof.
  intros Hwf Hstep. pose proof Hwf as (Hs & Hr & Hns & Hnr & _).
  destruct ev as [[|data]| |i| |err]; simpl in Hstep.
  - destruct (loading st); [|done]. injection Hstep as <- _. by apply wf_same.
  - destruct (loading st); [|done]. pose proof (wf_alloc st (default [] data) Hwf) as Ha.
    destruct (alloc _ _ _) as [h ls]. by injection Hstep as <- _.
  - injection Hstep as <- _. by apply wf_same.
  - destruct (handleToggle _ _ _) as [[arr h]|] eqn:E; [|done]. injection Hstep as <- _.
    apply handleToggle_inv in E as (l & obj & _ & Hobj & -> & ->). by apply wf_toggle.
  - destruct (saving st); [done|]. injection Hstep as <- _. by apply wf_same.
  - destruct (saving st); [|done]. injection Hstep as <- _. by apply wf_same.
Qed.

Lemma run_wf (st st' : state) (evs : list Event) (effs : list Effect) :
  wf st -> run st evs = Some (st', effs) -> wf st'.
Proof.
  apply run_steps_invariant, step_wf.
Qed.

Lemma wf_init : wf init.
Proof.
  split_and!; simpl; try constructor.
  - intros l Hl. by apply elem_of_nil in Hl.
  - intros l Hl. by apply elem_of_nil in Hl.
  - intros l [? Hl]. done.
Qed.

Lemma step_toggle (st : state) (i : nat) (l : loc) (obj : SettingRow.t) :
  rendered st !! i = Some l -> store st !! l = Some obj ->
  step st (EvToggle i) =
    Some (mk (rendered st) (rendered st) (loading st) (saving st)
             (<[l := toggle_visible obj]> (store st)) (next_loc st), []).
Proof. intros Hl Hobj. cbn [step]. by rewrite (handleToggle_spec _ _ _ _ _ Hl Hobj). Qed.

Lemma run_cons (st st1 : state) (ev : Event) (evs : list Event) (e1 : list Effect) :
  step st ev = Some (st1, e1) ->
  run st (ev :: evs) = run st1 evs ≫= fun '(st2, e2) => Some (st2, e1 ++ e2).
Proof. intros Hs. cbn [run run_steps]. by rewrite Hs. Qed.

Lemma run_cons_None (st : state) (ev : Event) (evs : list Event) :
  step st ev = None -> run st (ev :: evs) = None.
Proof. intros Hs. cbn [run run_steps]. by rewrite Hs. Qed.



(** *** What the public page reads back *)

Lemma settings_map_snoc (rows : list SettingRow.t) (r : SettingRow.t) :
  settings_map (Some (rows ++ [r])) =
    <[SettingRow.setting_key r := SettingRow.is_visible r]> (settings_map (Some rows)).
Proof. unfold settings_map. by rewrite fold_left_app. Qed.

Lemma settings_map_lookup_None (rows : list SettingRow.t) (k : string) :
  k ∉ map SettingRow.setting_key rows -> settings_map (Some rows) !! k = None.
Proof.
  induction rows as [|r rows IH] using rev_ind; intros Hk; [done|].
  rewrite settings_map_snoc, map_app in *. rewrite lookup_insert_ne.
  - apply IH. intros Hin. apply Hk, elem_of_app. by left.
  - intros <-. apply Hk, elem_of_app. right. apply list_elem_of_here.
Qed.

Lemma settings_map_lookup_elem (rows : list SettingRow.t) (r : SettingRow.t) :
  NoDup (map SettingRow.setting_key rows) -> r ∈ rows ->
  settings_map (Some rows) !! SettingRow.setting_key r = Some (SettingRow.is_visible r).
Proof.
  induction rows as [|s rows IH] using rev_ind; intros Hnd Hr; [by apply elem_of_nil in Hr|].
  rewrite settings_map_snoc. rewrite map_app in Hnd.
  apply NoDup_app in Hnd as (Hnd & Hdisj & _).
  apply elem_of_app in Hr as [Hr|Hr%list_elem_of_singleton]; [|subst; by rewrite lookup_insert_eq].
  rewrite lookup_insert_ne; [by apply IH|].
  intros Heq. apply (Hdisj (SettingRow.setting_key s)); [|apply list_elem_of_here].
  rewrite Heq. apply list_elem_of_In, in_map, list_elem_of_In, Hr.
Qed.

Lemma keys_alter_toggle (rows : list SettingRow.t) (i : nat) :
  map SettingRow.setting_key (alter toggle_visible i rows) = map SettingRow.setting_key rows.
Proof.
  revert i. induction rows as [|r rows IH]; intros [|i]; [done|done|done|].
  change (alter toggle_visible (S i) (r :: rows)) with (r :: alter toggle_visible i rows).
  cbn [map]. by rewrite IH.
Qed.

(** Saving rows with one switch flipped flips one entry of the map the
    public page builds from them. *)
Lemma settings_map_alter_toggle (rows : list SettingRow.t) (i : nat) (r : SettingRow.t) :
  NoDup (map SettingRow.setting_key rows) -> rows !! i = Some r ->
  settings_map (Some (alter toggle_visible i rows)) =
    <[SettingRow.setting_key r := negb (SettingRow.is_visible r)]> (settings_map (Some rows)).
Proof.
  intros Hnd Hi. pose proof Hnd as Hnd'. rewrite <- (keys_alter_toggle rows i) in Hnd'.
  apply map_eq. intros k. rewrite lookup_insert. case_decide as Hk.
  - subst k. apply (settings_map_lookup_elem _ (toggle_visible r) Hnd').
    apply list_elem_of_lookup_2 with i. by rewrite list_lookup_alter_eq, Hi.
  - destruct (decide (k ∈ map SettingRow.setting_key rows)) as [Hin|Hnin].
    + apply list_elem_of_In, in_map_iff in Hin as (r' & <- & Hr').
      apply list_elem_of_In, list_elem_of_lookup in Hr' as [j Hj].
      assert (i <> j) by (intros ->; congruence).
      rewrite (settings_map_lookup_elem _ r' Hnd) by (by eapply list_elem_of_lookup_2).
      apply (settings_map_lookup_elem _ r' Hnd').
      apply list_elem_of_lookup_2 with j. by rewrite list_lookup_alter_ne.
    + rewrite !settings_map_lookup_None; [done|done|by rewrite keys_alter_toggle].
Qed.

(** *** Loading, rendering and saving *)

Lemma read_rows_alloc (h : heap) (next : loc) (rows : list SettingRow.t) :
  read_rows (alloc h next rows).1 (seq next (length rows)) = rows.
Proof.
  apply list_eq. intros k. rewrite read_rows_lookup.
  - destruct (decide (k < length rows)).
    + rewrite lookup_seq_lt by done. cbn [mbind option_bind].
      rewrite lookup_alloc, decide_True by lia. f_equal. lia.
    + rewrite lookup_seq_ge by lia. symmetry. apply lookup_ge_None_2. lia.
  - intros l Hl. apply elem_of_seq in Hl. rewrite lookup_alloc, decide_True by lia.
    apply lookup_lt_is_Some_2. lia.
Qed.

Lemma step_load (st : state) (rows : list SettingRow.t) :
  loading st = true ->
  step st (EvLoaded (RespData (Some rows))) =
    Some (mk (seq (next_loc st) (length rows)) (rendered st) false (saving st)
             (alloc (store st) (next_loc st) rows).1 (next_loc st + length rows), []).
Proof.
  intros Hl. cbn [step]. rewrite Hl. cbn [default].
  rewrite <- (alloc_locs (store st) (next_loc st) rows). by destruct (alloc _ _ _).
Qed.

Lemma step_render (st : state) :
  step st EvRender =
    Some (mk (settings st) (settings st) (loading st) (saving st) (store st) (next_loc st), []).
Proof. reflexivity. Qed.

Lemma step_save (st : state) :
  saving st = false ->
  step st EvSaveClick =
    Some (mk (settings st) (rendered st) (loading st) true (store st) (next_loc st),
          [Upsert (read_rows (store st) (rendered st))]).
Proof. intros Hs. cbn [step]. by rewrite Hs. Qed.

Lemma step_toggle_out (st : state) (i : nat) :
  length (rendered st) <= i -> step st (EvToggle i) = None.
Proof.
  intros Hi. cbn [step]. unfold handleToggle. by rewrite lookup_ge_None_2 by done.
Qed.

(** A click on switch [i] of a loaded render flips that card and no
    other in the next render: checkbox, status text and frame. *)
Lemma view_after_toggle (st st' : state) (i : nat) (e : list Effect) :
  wf st -> loading st = false -> step st (EvToggle i) = Some (st', e) ->
  (view st').1 = ListCards (map card (alter toggle_visible i (read_rows (store st) (rendered st)))).
Proof.
  intros (_ & Hr & _ & Hnd & _) Hl Hs.
  destruct (rendered st !! i) as [l|] eqn:Hi; [|by unfold step, handleToggle in Hs; rewrite Hi in Hs].
  destruct (Hr l (list_elem_of_lookup_2 _ _ _ Hi)) as [obj Hobj].
  rewrite (step_toggle _ _ _ _ Hi Hobj) in Hs. injection Hs as <- _.
  unfold view. simpl. rewrite Hl. by rewrite (read_rows_toggle _ _ _ _ _ Hnd Hr Hi Hobj).
Qed.

(** ** Properties *)

(** C34: switches clicked within one render all take effect, in
    order: [handleToggle] copies the array but writes through to the row
    objects it shares with the state, so each toggle of a closure that
    has not been re-rendered acts on the rows as the previous toggles
    left them; the rows shown and saved are the loaded rows with every
    toggle applied in turn. *)
Theorem toggles_same_render (st : state) (idx : list nat) :
  wf st -> Forall (fun i => i < length (rendered st)) idx ->
  exists st', run st (map EvToggle idx) = Some (st', []) /\ wf st' /\
    rendered st' = rendered st /\ (idx <> [] -> settings st' = rendered st) /\
    read_rows (store st') (rendered st) =
      foldl (fun rows i => alter toggle_visible i rows) (read_rows (store st) (rendered st)) idx.
Proof.
  revert st. induction idx as [|i idx IH]; intros st Hwf His.
  - exists st. by split_and!.
  - apply Forall_cons in His as [Hi His].
    destruct (lookup_lt_is_Some_2 _ _ Hi) as [l Hl].
    pose proof Hwf as (_ & Hr & _ & Hnd & _).
    destruct (Hr l) as [obj Hobj]; [by eapply list_elem_of_lookup_2|].
    pose proof (step_toggle st i l obj Hl Hobj) as Hs.
    destruct (IH _ (step_wf _ _ _ _ Hwf Hs) His) as (st' & Hrun & Hwf' & Hrend & Hset & Hrows).
    exists st'. cbn [map]. rewrite (run_cons _ _ _ _ _ Hs), Hrun. simpl in *.
    split_and!; [done|done|done| |].
    + intros _. destruct idx; [|by apply Hset]. by injection Hrun as <-.
    + by rewrite Hrows, (read_rows_toggle _ _ i l obj Hnd Hr Hl Hobj).
Qed.

Lemma toggles_same_render_witness :
  wf demo_loaded /\ Forall (fun i => i < length (rendered demo_loaded)) [0; 2; 0] /\
  exists st', run demo_loaded (map EvToggle [0; 2; 0]) = Some (st', []) /\ wf st' /\
    rendered st' = rendered demo_loaded /\ ([0; 2; 0] <> [] -> settings st' = rendered demo_loaded) /\
    read_rows (store st') (rendered demo_loaded) =
      foldl (fun rows i => alter toggle_visible i rows) (read_rows (store demo_loaded) (rendered demo_loaded)) [0; 2; 0].
Proof.
  assert (Hwf : wf demo_loaded).
  { apply (run_wf init demo_loaded [EvLoaded (RespData (Some demo_rows)); EvRender] []); [apply wf_init|reflexivity]. }
  assert (Hi : Forall (fun i => i < length (rendered demo_loaded)) [0; 2; 0]) by (repeat constructor; simpl; lia).
  split_and!; [exact Hwf|exact Hi|exact (toggles_same_render demo_loaded [0; 2; 0] Hwf Hi)].
Defined.

(** C35: the admin loads the settings, flips the switch of row [i] and
    saves; the page sends exactly the loaded rows with that row's
    [is_visible] negated, and the visibility map the public page builds
    from them differs from the old one in that key alone, given the
    rows' keys are distinct. *)
Theorem save_after_toggle (rows : list SettingRow.t) (i : nat) (st : state) (effs : list Effect) :
  NoDup (map SettingRow.setting_key rows) ->
  run init [EvLoaded (RespData (Some rows)); EvRender; EvToggle i; EvRender; EvSaveClick] = Some (st, effs) ->
  exists r, rows !! i = Some r /\ effs = [Upsert (alter toggle_visible i rows)] /\
    settings_map (Some (alter toggle_visible i rows)) =
      <[SettingRow.setting_key r := negb (SettingRow.is_visible r)]> (settings_map (Some rows)).
Proof.
  intros Hnd Hrun.
  rewrite (run_cons _ _ _ _ _ (step_load init rows eq_refl)), (run_cons _ _ _ _ _ (step_render _)) in Hrun.
  cbn [rendered settings next_loc store loading saving init Nat.add] in Hrun.
  destruct (rows !! i) as [r|] eqn:Hi.
  2: { rewrite run_cons_None in Hrun; [done|]. apply step_toggle_out. simpl.
       rewrite length_seq. by apply lookup_ge_None_1. }
  assert (Hl : seq 0 (length rows) !! i = Some i).
  { rewrite lookup_seq_lt; [done|]. by eapply lookup_lt_Some. }
  assert (Hobj : (alloc ∅ 0 rows).1 !! i = Some r).
  { rewrite lookup_alloc, decide_True, Nat.sub_0_r; [done|]. split; [lia|]. by eapply lookup_lt_Some. }
  rewrite (run_cons _ _ _ _ _ (step_toggle (mk (seq 0 (length rows)) (seq 0 (length rows)) false false
    (alloc ∅ 0 rows).1 (length rows)) i i r Hl Hobj)), (run_cons _ _ _ _ _ (step_render _)) in Hrun.
  cbn [rendered settings next_loc store loading saving] in Hrun.
  rewrite (run_cons _ _ _ _ _ (step_save (mk (seq 0 (length rows)) (seq 0 (length rows)) false false
    (<[i := toggle_visible r]> (alloc ∅ 0 rows).1) (length rows)) eq_refl)) in Hrun.
  simpl in Hrun. injection Hrun as _ <-.
  exists r. split_and!; [done| |by apply settings_map_alter_toggle].
  rewrite (read_rows_toggle _ _ i i r (NoDup_seq 0 (length rows))), read_rows_alloc; [done| |done|done].
  intros l Hl'. apply elem_of_seq in Hl'. rewrite lookup_alloc, decide_True by lia.
  apply lookup_lt_is_Some_2. lia.
Qed.

Lemma save_after_toggle_witness :
  exists st effs,
    NoDup (map SettingRow.setting_key demo_rows) /\
    run init [EvLoaded (RespData (Some demo_rows)); EvRender; EvToggle 1; EvRender; EvSaveClick] = Some (st, effs) /\
    exists r, demo_rows !! 1 = Some r /\ effs = [Upsert (alter toggle_visible 1 demo_rows)] /\
      settings_map (Some (alter toggle_visible 1 demo_rows)) =
        <[SettingRow.setting_key r := negb (SettingRow.is_visible r)]> (settings_map (Some demo_rows)).
Proof.
  assert (Hnd : NoDup (map SettingRow.setting_key demo_rows)) by compute_decide.
  eexists _, _. split; [exact Hnd|]. split; [reflexivity|].
  eapply (save_after_toggle demo_rows 1 _ _ Hnd). reflexivity.
Defined.

(** [formatLabel] of ['show_'] followed by words joined with ['_']
    capitalises each word, joins them with spaces and appends
    [' Price'] (it undoes the [split('_')] exactly when no word contains
    ['_']). *)
Theorem formatLabel_words (ws : list string) :
  ws <> [] -> Forall (no_char "_"%char) ws ->
  formatLabel ("show_" +:+ join "_" ws) = join " " (map capitalize ws) +:+ " Price".
Proof.
  intros Hne Hws. unfold formatLabel.
  rewrite replace_first_prefix, string_app_nil_l, split_char_join; done.
Qed.

Lemma formatLabel_words_witness :
  ["retail"; "online"] <> [] /\ Forall (no_char "_"%char) ["retail"; "online"] /\
  formatLabel ("show_" +:+ join "_" ["retail"; "online"]) =
    join " " (map capitalize ["retail"; "online"]) +:+ " Price".
Proof.
  assert (Hw : Forall (no_char "_"%char) ["retail"; "online"]) by compute_decide.
  split_and!; [done|exact Hw|exact (formatLabel_words ["retail"; "online"] ltac:(done) Hw)].
Defined.

End SettingsPage.
