(* ===== verification/Brands.v ===== *)
(** * The brands page

    [ManageBrands] of [src/app/admin/brands/page.js] as a step function
    over its React state ([brands], [newBrand], [loading],
    [submitting]) returning what the handlers do outside React: the
    insert of [handleAdd], the delete of [handleDelete], the refetch
    [fetchBrands] and the alerts.  [handleAdd] and [handleDelete] are
    asynchronous: each is split at its [await] into the click and the
    database's answer.  [view] is the render: the input, the add button
    and the table body. *)

From stdpp Require Import base list strings.
From Stdlib Require Import ZArith.
From S2P Require Import Prelude JsCore.

Module BrandsPage.

(** A row of the [brands] table. *)
Record Brand : Type := mkBrand {
  id : Z;
  name : string
}.

Record state : Type := mk {
  brands : list Brand;
  newBrand : string;
  loading : bool;
  submitting : bool
}.

Definition init : state := mk [] "" true false.

(** A PostgREST error: [error.code] and [error.message]. *)
Record DbError : Type := mkError {
  code : string;
  message : string
}.

Inductive Effect : Type :=
  | Insert (brandName : string)
  | Delete (brandId : Z)
  | Fetch
  | Alert (msg : string).

Inductive Event : Type :=
  | EvBrandsResponse (data : option (list Brand))
  | EvInput (value : string)
  | EvSubmit
  | EvInsertDone (error : option DbError)
  | EvDeleteClick (brandId : Z) (brandName : string) (confirmed : bool)
  | EvDeleteDone (error : option DbError).

(** The alert of a failed insert: [23505] is PostgreSQL's
    unique_violation. *)
Definition insert_error_message (e : DbError) : string :=
  if String.eqb (code e) "23505" then "This brand already exists."
  else "Error adding brand: " +:+ message e.

(** [handleAdd] up to its [await]: a name that trims to [""] (falsy)
    returns before anything else. *)
Definition handleAdd (st : state) : state * list Effect :=
  if String.eqb (trim (newBrand st)) "" then (st, [])
  else (mk (brands st) (newBrand st) (loading st) true, [Insert (trim (newBrand st))]).

(** [handleAdd] after the insert answered. *)
Definition handleAdd_done (st : state) (error : option DbError) : state * list Effect :=
  match error with
  | Some e => (mk (brands st) (newBrand st) (loading st) false, [Alert (insert_error_message e)])
  | None => (mk (brands st) "" (loading st) false, [Fetch])
  end.

(** One event; [None] when it cannot happen (a click on the disabled
    add button, an answer with no insert in flight).  The input is
    [required]: the browser does not submit the form while it is empty,
    so [handleAdd] is not called then. *)
Definition step (st : state) (ev : Event) : option (state * list Effect) :=
  match ev with
  | EvBrandsResponse data =>
      let bs := match data with Some d => d | None => brands st end in
      Some (mk bs (newBrand st) false (submitting st), [])
  | EvInput v => Some (mk (brands st) v (loading st) (submitting st), [])
  | EvSubmit =>
      if submitting st then None
      else if String.eqb (newBrand st) "" then Some (st, []) else Some (handleAdd st)
  | EvInsertDone err => if submitting st then Some (handleAdd_done st err) else None
  | EvDeleteClick i _ confirmed => Some (st, if confirmed then [Delete i] else [])
  | EvDeleteDone err =>
      Some (st, match err with
                | Some e => [Alert ("Error deleting: " +:+ message e)]
                | None => [Fetch]
                end)
  end.

Definition run : state -> list Event -> option (state * list Effect) := run_steps step.

(** The body of the brands table. *)
Inductive BrandRows : Type :=
  | RowsLoading
  | RowsEmpty
  | RowsList (rows : list (Z * string)).

(** What a render shows: the input's value, the add button's
    [disabled] flag and label, and the table body (["Loading
    brands..."], ["No brands found. Add one above."] or a row with a
    delete button per brand). *)
Definition view (st : state) : (string * bool * string) * BrandRows :=
  ((newBrand st, submitting st, if submitting st then "Adding..." else "Add Brand"),
   if loading st then RowsLoading
   else match brands st with
        | [] => RowsEmpty
        | bs => RowsList (map (fun b => (id b, name b)) bs)
        end).

(** An insert carries a name with no surrounding white space that is
    not empty. *)
Definition insert_ok (e : Effect) : Prop :=
  match e with
  | Insert n => n <> "" /\ trim n = n
  | _ => True
  end.

(** ** Lemmas *)

Lemma handleAdd_insert_ok (st : state) : Forall insert_ok (handleAdd st).2.
Proof.
  unfold handleAdd. destruct (String.eqb_spec (trim (newBrand st)) "") as [_|Hne]; [constructor|].
  repeat constructor; [done|apply trim_idem].
Qed.

Lemma step_insert_ok (st st' : state) (ev : Event) (e : list Effect) :
  step st ev = Some (st', e) -> Forall insert_ok e.
Proof.
  intros Hs. destruct ev as [data|v| |err|i n [|]|err]; simpl in Hs.
  - by injection Hs as _ <-.
  - by injection Hs as _ <-.
  - destruct (submitting st); [done|]. destruct (String.eqb _ _); [by injection Hs as _ <-|].
    injection Hs as Hs. apply (f_equal snd) in Hs. simpl in Hs. subst e. apply handleAdd_insert_ok.
  - destruct (submitting st); [|done]. injection Hs as Hs.
    apply (f_equal snd) in Hs. simpl in Hs. subst e. destruct err; repeat constructor.
  - injection Hs as _ <-. repeat constructor.
  - by injection Hs as _ <-.
  - injection Hs as _ <-. destruct err; repeat constructor.
Qed.

(** The add button is shown disabled exactly when the page refuses a
    submit: the [disabled={submitting}] attribute and the guard agree. *)
Lemma view_disabled_refuses (st : state) :
  (view st).1.1.2 = true <-> step st EvSubmit = None.
Proof.
  simpl. destruct (submitting st); [done|]. split; [done|]. by case_match.
Qed.

(** ** Properties *)

(** C38: whatever the user types and clicks, every brand name the page
    inserts is non-empty and has no surrounding white space: a name of
    only white space is dropped by the [trim] guard, and the name sent
    is the trimmed input. *)
Theorem inserts_trimmed (st0 st : state) (evs : list Event) (effs : list Effect) :
  run st0 evs = Some (st, effs) -> Forall insert_ok effs.
Proof.
  apply run_steps_effects, step_insert_ok.
Qed.

(** The user types a name with spaces, submits, then submits only
    spaces. *)
Definition spaces_trace : list Event :=
  [EvBrandsResponse (Some []); EvInput "  Monroe "; EvSubmit; EvInsertDone None;
   EvInput "   "; EvSubmit].

Lemma inserts_trimmed_witness :
  exists st effs, run init spaces_trace = Some (st, effs) /\
    effs = [Insert "Monroe"; Fetch] /\ Forall insert_ok effs.
Proof.
  eexists _, _. split; [reflexivity|]. split; [reflexivity|].
  eapply (inserts_trimmed init _ spaces_trace). reflexivity.
Defined.

End BrandsPage.
