(* ===== verification/AdminLayout.v ===== *)
(** * The admin layout's session gate

    [AdminLayout] of [src/app/admin/layout.js]: while [loading] it
    renders "Loading Admin Panel..." instead of its children (every
    admin page), and the mount effect [checkUser] either redirects to
    [/login] (no session) or clears [loading].  [handleLogout] signs out
    and then redirects; its button is part of the sidebar, rendered only
    once [loading] is false.  [view] is the render: the loading text or
    the [sidebar]'s entries beside the page. *)

From stdpp Require Import base list strings.
From S2P Require Import Prelude.

Module AdminLayout.

Record state : Type := mk {
  loading : bool;
  checked : bool
}.

(** [useState(true)]; the mount effect has called [checkUser]. *)
Definition init : state := mk true false.

Inductive Effect : Type :=
  | Push (path : string)
  | SignOut.

(** A session is represented by its user id. *)
Inductive Event : Type :=
  | EvSession (session : option string)
  | EvLogoutClick
  | EvSignedOut.

(** The layout renders [children] instead of the loading message. *)
Definition shows_children (st : state) : bool := negb (loading st).

(** The entries of the sidebar's [<nav>], in order. *)
Inductive NavItem : Type :=
  | NavLink (href label : string)
  | NavHeading (text : string)
  | NavLogout.

Definition sidebar : list NavItem :=
  [NavLink "/admin" "Dashboard Home";
   NavHeading "Inventory";
   NavLink "/admin/brands" "Manage Brands"; NavLink "/admin/products" "Manage Products";
   NavHeading "Pricing";
   NavLink "/admin/prices" "Manage Prices"; NavLink "/admin/history" "Price History Logs";
   NavHeading "Tools";
   NavLink "/admin/settings" "Public Visibility"; NavLink "/admin/print" "Print Price List (PDF)";
   NavLogout].

Inductive LayoutView : Type :=
  | LayoutLoading
  | LayoutPanel (nav : list NavItem).

(** What the layout renders: ["Loading Admin Panel..."], or the sidebar
    beside the page in [<main>]. *)
Definition view (st : state) : LayoutView :=
  if loading st then LayoutLoading else LayoutPanel sidebar.

(** [checkUser] after [getSession] answered. *)
Definition checkUser (st : state) (session : option string) : state * list Effect :=
  match session with
  | None => (mk (loading st) true, [Push "/login"])
  | Some _ => (mk false true, [])
  end.

(** One event; [None] when it cannot happen (a second answer to the
    mount effect's [getSession], a click on a button not rendered). *)
Definition step (st : state) (ev : Event) : option (state * list Effect) :=
  match ev with
  | EvSession s => if checked st then None else Some (checkUser st s)
  | EvLogoutClick => if loading st then None else Some (st, [SignOut])
  | EvSignedOut => Some (st, [Push "/login"])
  end.

Definition run : state -> list Event -> option (state * list Effect) := run_steps step.

(** ** Lemmas *)

Lemma step_loading (st st' : state) (ev : Event) (e : list Effect) :
  step st ev = Some (st', e) ->
  (loading st' = false <-> loading st = false \/ exists s, ev = EvSession (Some s)).
Proof.
  destruct ev as [[s|]| |]; simpl; intros Hs.
  - destruct (checked st); [done|]. injection Hs as <- _. simpl. split; [eauto|done].
  - destruct (checked st); [done|]. injection Hs as <- _. simpl.
    split; [by left|]. by intros [?|[? ?]].
  - destruct (loading st) eqn:Hl; [done|]. injection Hs as <- _. split; [by left|done].
  - injection Hs as <- _. split; [by left|]. by intros [?|[? ?]].
Qed.

Lemma run_loading (st st' : state) (evs : list Event) (e : list Effect) :
  run st evs = Some (st', e) ->
  (loading st' = false <-> loading st = false \/ exists s, EvSession (Some s) ∈ evs).
Proof.
  revert st e. induction evs as [|ev evs IH]; intros st e Hrun; simpl in Hrun.
  - injection Hrun as <- _. split; [by left|]. intros [?|[s Hs]]; [done|]. by apply elem_of_nil in Hs.
  - destruct (step st ev) as [[st1 e1]|] eqn:Hs; [|done]. simpl in Hrun.
    destruct (run st1 evs) as [[st2 e2]|] eqn:Hr; [|done]. injection Hrun as <- _.
    rewrite (IH _ _ Hr), (step_loading _ _ _ _ Hs).
    setoid_rewrite elem_of_cons. naive_solver.
Qed.

(** The logout button can be clicked exactly when the panel with its
    sidebar is on screen. *)
Lemma logout_clickable (st : state) :
  step st EvLogoutClick <> None <-> exists nav, view st = LayoutPanel nav /\ NavLogout ∈ nav.
Proof.
  unfold view. simpl. destruct (loading st).
  - split; [done|]. by intros (? & ? & _).
  - split; [|done]. intros _. eexists. split; [done|]. vm_compute. repeat constructor.
Qed.

(** ** Properties *)

(** C39: along any run of the layout from its mount, an admin page is
    rendered exactly when [getSession] has answered with a session: no
    page (and none of its queries) runs before the check, none runs
    after an answer without a session, and signing out does not hide
    the pages before the redirect. *)
Theorem admin_pages_gated (evs : list Event) (st : state) (e : list Effect) :
  run init evs = Some (st, e) ->
  (shows_children st = true <-> exists s, EvSession (Some s) ∈ evs).
Proof.
  intros Hrun. unfold shows_children.
  rewrite negb_true_iff, (run_loading _ _ _ _ Hrun). simpl. naive_solver.
Qed.

(** A visitor with a session opens the panel and logs out. *)
Lemma admin_pages_gated_witness :
  exists st e, run init [EvSession (Some "admin"); EvLogoutClick; EvSignedOut] = Some (st, e) /\
    e = [SignOut; Push "/login"] /\
    (shows_children st = true <->
     exists s, EvSession (Some s) ∈ [EvSession (Some "admin"); EvLogoutClick; EvSignedOut]).
Proof.
  eexists _, _. split; [reflexivity|]. split; [reflexivity|].
  eapply (admin_pages_gated [EvSession (Some "admin"); EvLogoutClick; EvSignedOut]). reflexivity.
Defined.

End AdminLayout.
