(* ===== verification/Site.v ===== *)
(** * The site: routes, the root layout and the admin dashboard

    The App Router serves one page per [page] file under [src/app]:
    [/] ([PublicHomepage]) and the admin pages under [/admin], which
    [AdminLayout] of [src/app/admin/layout.js] wraps; [RootLayout] of
    [src/app/layout.tsx] wraps every page.  [AdminDashboard] of
    [src/app/admin/page.js] is the page of [/admin].  This file models
    the route table, the static content of the root layout (its
    [metadata] and [<html>]/[<body>] frame), the dashboard and the
    public page's header and footer, and composes the layouts into what
    a route shows ([render]); the links of the site are checked against
    the route table. *)

From stdpp Require Import base list strings.
From S2P Require Import Prelude AdminLayout.

Module Site.

(** The [page] files of [src/app], by the URL the App Router gives them. *)
Inductive Route : Type :=
  | RHome
  | RAdmin
  | RAdminBrands
  | RAdminProducts
  | RAdminPrices
  | RAdminHistory
  | RAdminSettings
  | RAdminPrint.

#[global] Instance route_eq_dec : EqDecision Route.
Proof. solve_decision. Defined.

Definition route_path (r : Route) : string :=
  match r with
  | RHome => "/"
  | RAdmin => "/admin"
  | RAdminBrands => "/admin/brands"
  | RAdminProducts => "/admin/products"
  | RAdminPrices => "/admin/prices"
  | RAdminHistory => "/admin/history"
  | RAdminSettings => "/admin/settings"
  | RAdminPrint => "/admin/print"
  end.

Definition routes : list Route :=
  [RHome; RAdmin; RAdminBrands; RAdminProducts; RAdminPrices; RAdminHistory;
   RAdminSettings; RAdminPrint].

(** The page a URL path is served by, if any. *)
Definition route_of_path (path : string) : option Route :=
  List.find (fun r => String.eqb (route_path r) path) routes.

(** The pages under [src/app/admin], wrapped by [AdminLayout]. *)
Definition is_admin (r : Route) : bool :=
  match r with RHome => false | _ => true end.

(** [export const metadata] of the root layout. *)
Record Metadata : Type := mkMetadata {
  title : string;
  description : string
}.

Definition metadata : Metadata :=
  mkMetadata "Suspension Price Tracker" "Official price comparison for automotive suspension.".

(** The frame [RootLayout] renders around a page:
    [<html lang="en"><body className=...>{children}</body></html>];
    [fontClass] is [inter.className], generated by [next/font]. *)
Record Document (A : Type) : Type := mkDocument {
  lang : string;
  body_class : string;
  body : A
}.
Arguments mkDocument {A}.
Arguments lang {A}.
Arguments body_class {A}.
Arguments body {A}.

Definition RootLayout {A : Type} (fontClass : string) (children : A) : Document A :=
  mkDocument "en" (fontClass +:+ " bg-gray-50 text-gray-900") children.

(** [AdminDashboard]: a heading, an introduction and one tip. *)
Record Dashboard : Type := mkDashboard {
  heading : string;
  intro : string;
  tip_title : string;
  tip : string
}.

Definition AdminDashboard : Dashboard :=
  mkDashboard "Welcome, Admin"
    "Select an option from the sidebar to manage your inventory and prices."
    "Quick Tip" "Always add Brands first, then Products, then Prices.".

(** The public page's header (logo text and the admin login link) and
    footer. *)
Definition home_header_links : list (string * string) := [("/login", "Admin Login")].

Definition home_header_title : string := "SuspensionPrice".

Definition home_footer : string := "Prices are for reference only. Subject to change.".

(** What the body of the document shows for a route: the public page,
    the admin layout's loading text, or the sidebar beside an admin
    page (the dashboard for [/admin]). *)
Inductive Screen : Type :=
  | ScreenPublic
  | ScreenAdminLoading
  | ScreenAdmin (nav : list AdminLayout.NavItem) (page : Route).

Definition render (fontClass : string) (r : Route) (gate : AdminLayout.state) : Document Screen :=
  RootLayout fontClass
    (if is_admin r then
       match AdminLayout.view gate with
       | AdminLayout.LayoutLoading => ScreenAdminLoading
       | AdminLayout.LayoutPanel nav => ScreenAdmin nav r
       end
     else ScreenPublic).

(** The redirects of the admin layout ([router.push]) and every [href]
    of the site's links. *)
Definition layout_redirects : list string :=
  omap (fun e => match e with AdminLayout.Push path => Some path | _ => None end)
    ((AdminLayout.checkUser AdminLayout.init None).2 ++
     default [] (snd <$> AdminLayout.step AdminLayout.init AdminLayout.EvSignedOut)).

Definition site_links : list string :=
  map fst home_header_links ++
  omap (fun it => match it with AdminLayout.NavLink href _ => Some href | _ => None end)
    AdminLayout.sidebar ++
  layout_redirects.

(** ** Lemmas *)

Lemma route_of_path_route (r : Route) : route_of_path (route_path r) = Some r.
Proof. by destruct r. Qed.

(** Every page of the route table has a distinct path. *)
Lemma route_path_inj (r r' : Route) : route_path r = route_path r' -> r = r'.
Proof.
  intros Hp. pose proof (route_of_path_route r) as H. rewrite Hp, route_of_path_route in H.
  by injection H.
Qed.

(** Every link of the sidebar leads to an admin page, and every admin
    page is the target of exactly one link of the sidebar. *)
Lemma sidebar_routes :
  (forall href label, AdminLayout.NavLink href label ∈ AdminLayout.sidebar ->
     exists r, route_of_path href = Some r /\ is_admin r = true) /\
  forall r, is_admin r = true ->
    length (List.filter (fun it => match it with
                                   | AdminLayout.NavLink href _ => String.eqb href (route_path r)
                                   | _ => false end) AdminLayout.sidebar) = 1.
Proof.
  split.
  - intros href label Hin. repeat (apply elem_of_cons in Hin as [Hin|Hin]);
      try (injection Hin as -> ->; eexists; split; reflexivity); try discriminate.
    by apply elem_of_nil in Hin.
  - by intros [] Hr.
Qed.

(** The only link or redirect of the site whose path has no page among
    the sources is [/login], the target of the admin login link and of
    both redirects of the admin layout. *)
Lemma unrouted_links :
  List.filter (fun href => bool_decide (route_of_path href = None)) site_links =
    ["/login"; "/login"; "/login"] /\
  route_of_path "/login" = None.
Proof. split; reflexivity. Qed.

(** An admin page is on screen exactly when the session gate has let it
    through; the public page never waits for it. *)
Lemma render_admin_gated (fontClass : string) (r : Route) (gate : AdminLayout.state) :
  body (render fontClass r gate) =
    if is_admin r then
      if AdminLayout.shows_children gate then ScreenAdmin AdminLayout.sidebar r else ScreenAdminLoading
    else ScreenPublic.
Proof.
  unfold render, RootLayout, AdminLayout.view, AdminLayout.shows_children. simpl.
  by destruct (is_admin r), (AdminLayout.loading gate).
Qed.

End Site.
