(* ===== verification/PrintPage.v ===== *)
(** * The print page as a state machine

    [PrintPage] of [src/app/admin/print/page.js]: its React state
    ([loading], [groupedData], [activeBrands], [rawProducts], [search],
    [printDate]) and the point where the asynchronous [fetchData] is
    suspended.  Events are the mount effect (which starts [fetchData] and
    sets [printDate]), the products response, keystrokes in the filter
    box ([handleSearch]) and the print button.  The filter box is part
    of the controls, rendered while the list is loading.  The pivot is
    [processData] of [Pivot] under the page's [PrintView]; [sheet_view]
    is the printable area. *)

From stdpp Require Import base list strings gmap.
From S2P Require Import Prelude JsCore Catalog Pivot Matrix.

Module PrintPage.

Inductive FetchPhase : Type :=
  | NotStarted
  | Awaiting
  | Done.

Record state : Type := mk {
  loading : bool;
  groupedData : list Row.t;
  activeBrands : list string;
  rawProducts : list Product.t;
  search : string;
  printDate : string;
  phase : FetchPhase
}.

(** The [useState] initial values. *)
Definition init : state := mk true [] [] [] "" "" NotStarted.

(** The products query's [{ data, error }]. *)
Inductive Response : Type :=
  | RespError
  | RespData (data : option (list Product.t)).

Inductive Event : Type :=
  | EvMount (date : string)
  | EvProductsResponse (r : Response)
  | EvSearchInput (value : string)
  | EvPrint.

(** [triggerPrint]. *)
Inductive Effect : Type :=
  | WindowPrint.

(** [processData(products, query)] of the print page: [setActiveBrands]
    then, unless the grouping loop threw, [setGroupedData]. *)
Definition apply_processData (st : state) (products : list Product.t) (query : string) : state :=
  let '(brands, rows) := @processData PrintView products query in
  mk (loading st) (default (groupedData st) rows) brands (rawProducts st) (search st)
    (printDate st) (phase st).

(** [handleSearch]. *)
Definition handleSearch (st : state) (value : string) : state :=
  let query := toLowerCase value in
  apply_processData
    (mk (loading st) (groupedData st) (activeBrands st) (rawProducts st) query (printDate st) (phase st))
    (rawProducts st) query.

(** [fetchData] after the query answered: on error only
    [setLoading(false)]. *)
Definition receive_products (st : state) (r : Response) : state :=
  match r with
  | RespError =>
      mk false (groupedData st) (activeBrands st) (rawProducts st) (search st) (printDate st) Done
  | RespData data =>
      let ps := default [] data in
      let st' := apply_processData
        (mk (loading st) (groupedData st) (activeBrands st) ps (search st) (printDate st) (phase st)) ps "" in
      mk false (groupedData st') (activeBrands st') (rawProducts st') (search st') (printDate st') Done
  end.

Definition step (st : state) (ev : Event) : option (state * list Effect) :=
  match ev, phase st with
  | EvMount date, NotStarted =>
      Some (mk true (groupedData st) (activeBrands st) (rawProducts st) (search st) date Awaiting, [])
  | EvProductsResponse r, Awaiting => Some (receive_products st r, [])
  | EvSearchInput v, _ => Some (handleSearch st v, [])
  | EvPrint, _ => Some (st, [WindowPrint])
  | _, _ => None
  end.

Definition run : state -> list Event -> option (state * list Effect) := run_steps step.

(** The printed table: one list of cells per row. *)
Definition print_table (st : state) : list (list PrintCell) :=
  map (print_row_cells (activeBrands st)) (groupedData st).

(** The sticky first cell of a sheet row: [{row.car_make} {row.car_model}],
    the variant after a bar, the position. *)
Definition sheet_row_head (row : Row.t) : string * string * string :=
  (Row.car_make row +:+ " " +:+ Row.car_model row, Row.product_variant row, Row.position row).

(** What [#print-area] shows below its title block. *)
Inductive SheetView : Type :=
  | SheetLoading
  | SheetTable (head1 : list (string * nat)) (head2 : list string)
      (body : list ((string * string * string) * list PrintCell)).

(** The printable area: ["Generated on: {printDate}"] and either
    ["Generating list..."] or the table (brand headers spanning two
    columns, then [Cost] and [RRP] per brand, then one row per group). *)
Definition sheet_view (st : state) : string * SheetView :=
  ("Generated on: " +:+ printDate st,
   if loading st then SheetLoading
   else SheetTable (map (fun b => (b, 2)) (activeBrands st))
          (flat_map (fun _ => ["Cost"; "RRP"]) (activeBrands st))
          (map (fun row => (sheet_row_head row, print_row_cells (activeBrands st) row)) (groupedData st))).

(** The controls above the printable area, hidden on paper
    ([print:hidden]): the heading, the filter box (its placeholder and
    [value={search}]), the print button and the tip below them. *)
Record Controls : Type := mkControls {
  controls_title : string;
  filter_placeholder : string;
  filter_value : string;
  print_label : string;
  print_tip : string
}.

Definition controls_view (st : state) : Controls :=
  mkControls "Print Price List" "Filter (e.g. Proton)..." (search st) "PRINT / SAVE PDF"
    ("* Tip: In the print dialog, select " +:+ quote +:+ "Save as PDF" +:+ quote +:+
     " and ensure " +:+ quote +:+ "Background Graphics" +:+ quote +:+ " is checked.").

(** The brand columns and rows on the sheet are [processData] of the
    cached batch under the current filter. *)
Definition consistent (st : state) : Prop :=
  @processData PrintView (rawProducts st) (search st) = (activeBrands st, Some (groupedData st)).

(** Events that keep the filter box empty until the list arrives. *)
Definition event_ok (st : state) (ev : Event) : Prop :=
  match ev with
  | EvProductsResponse (RespData _) => search st = ""
  | _ => True
  end.

Inductive reachable_ok : state -> Prop :=
  | reach_init : reachable_ok init
  | reach_step st ev st' e :
      reachable_ok st -> event_ok st ev -> step st ev = Some (st', e) -> reachable_ok st'.

(** A run whose every event is allowed by [event_ok]. *)
Fixpoint run_ok (st : state) (evs : list Event) : Prop :=
  match evs with
  | [] => True
  | ev :: evs' =>
      event_ok st ev /\
      match step st ev with Some (st', _) => run_ok st' evs' | None => False end
  end.

(** The sheet is generated on 9 Nov 2026, then filtered by "Monroe". *)
Definition print_trace : list Event :=
  [EvMount "09/11/2026"; EvProductsResponse (RespData (Some scenario)); EvSearchInput "Monroe"].

Definition print_state : state := default init (fst <$> run init print_trace).

(** The user types "Monroe" while the list is loading. *)
Definition print_stale_trace : list Event :=
  [EvMount "09/11/2026"; EvSearchInput "Monroe"; EvProductsResponse (RespData (Some scenario))].

(** ** Lemmas *)

Lemma print_apply_processData_consistent (st : state) :
  consistent (apply_processData st (rawProducts st) (search st)).
Proof.
  unfold consistent, apply_processData.
  destruct (@processData_some PrintView (rawProducts st) (search st)) as [rows Hr].
  rewrite Hr. simpl. by rewrite Hr.
Qed.

Lemma print_consistent_same_data (st st' : state) :
  rawProducts st' = rawProducts st -> search st' = search st ->
  activeBrands st' = activeBrands st -> groupedData st' = groupedData st ->
  consistent st -> consistent st'.
Proof. unfold consistent. intros -> -> -> ->. done. Qed.

Lemma print_reachable_ok_run (st st' : state) (evs : list Event) (e : list Effect) :
  reachable_ok st -> run_ok st evs -> run st evs = Some (st', e) -> reachable_ok st'.
Proof.
  revert st e. induction evs as [|ev evs IH]; intros st e Hr Hok Hrun; simpl in *.
  - by injection Hrun as <- _.
  - destruct Hok as [Hev Hok]. destruct (step st ev) as [[st1 e1]|] eqn:Hs; [|done].
    simpl in Hrun. destruct (run st1 evs) as [[st2 e2]|] eqn:Hr2; [|done].
    injection Hrun as <- _. apply (IH st1 e2); [|done|done]. by apply (reach_step st ev st1 e1).
Qed.

(** The sheet's columns line up: every body row has a [Cost] and a
    [RRP] cell per brand header, under the header row 2 entries of the
    same brand. *)
Lemma sheet_columns_aligned (st : state) (h1 : list (string * nat)) (h2 : list string)
    (body : list ((string * string * string) * list PrintCell)) :
  (sheet_view st).2 = SheetTable h1 h2 body ->
  sum_list (map snd h1) = length h2 /\
  Forall (fun rc => length rc.2 = length h2) body /\
  forall j b, activeBrands st !! j = Some b ->
    h2 !! (j * 2) = Some "Cost" /\ h2 !! (j * 2 + 1) = Some "RRP" /\
    forall row, row ∈ groupedData st ->
      print_row_cells (activeBrands st) row !! (j * 2) = Some (renderCell row b Tier.price_distributor) /\
      print_row_cells (activeBrands st) row !! (j * 2 + 1) = Some (renderCell row b Tier.price_retail).
Proof.
  unfold sheet_view. simpl. destruct (loading st); [done|]. intros [= <- <- <-].
  assert (Hlen : forall A (f : string -> list A), (forall b, length (f b) = 2) ->
            length (flat_map f (activeBrands st)) = 2 * length (activeBrands st)).
  { intros A f Hf. induction (activeBrands st) as [|b bs IH]; [done|].
    simpl. rewrite length_app, Hf, IH. lia. }
  split_and!.
  - rewrite map_map, Hlen by done. simpl. rewrite sum_list_const. lia.
  - apply Forall_forall. intros rc (row & -> & _)%list_elem_of_fmap. simpl.
    unfold print_row_cells. by rewrite !Hlen.
  - intros j b Hb.
    pose proof (lookup_flat_map_map (fun _ (y : string) => y) (activeBrands st) ["Cost"; "RRP"] j 0 b _ Hb eq_refl) as H1.
    pose proof (lookup_flat_map_map (fun _ (y : string) => y) (activeBrands st) ["Cost"; "RRP"] j 1 b _ Hb eq_refl) as H2.
    simpl length in H1, H2. rewrite Nat.add_0_r in H1. split_and!; [exact H1|exact H2|]. intros row _.
    split; unfold print_row_cells;
      [ rewrite <- (Nat.add_0_r (j * 2)); apply (lookup_flat_map_map (renderCell row) (activeBrands st)
                 [Tier.price_distributor; Tier.price_retail] j 0 b _ Hb eq_refl)
      | apply (lookup_flat_map_map (renderCell row) (activeBrands st)
                 [Tier.price_distributor; Tier.price_retail] j 1 b _ Hb eq_refl) ].
Qed.

(** ** Properties *)

(** C40: in every state of the print page reached without typing into
    the filter box while the list is loading, the brand columns and rows
    on the sheet are exactly [processData] of the cached batch under the
    current filter (by rule induction on [reachable_ok]). *)
Theorem print_consistent (st : state) : reachable_ok st -> consistent st.
Proof.
  induction 1 as [|st ev st' e Hreach IH Hok Hstep]; [reflexivity|].
  unfold step in Hstep.
  destruct ev as [date|[|data]|v|]; destruct (phase st); try discriminate;
    injection Hstep as <- _;
    first [ apply (print_consistent_same_data st); [done..|exact IH]
          | apply print_apply_processData_consistent
          | idtac ].
  simpl in Hok. unfold receive_products.
  pose proof (print_apply_processData_consistent
    (mk (loading st) (groupedData st) (activeBrands st) (default [] data) (search st)
       (printDate st) Awaiting)) as Hc.
  revert Hc. rewrite Hok. unfold consistent, apply_processData. simpl. by destruct (processData _ _).
Qed.

Lemma print_consistent_witness : reachable_ok print_state /\ consistent print_state.
Proof.
  assert (H : reachable_ok print_state).
  { apply (print_reachable_ok_run init _ print_trace [] reach_init); [|vm_compute; reflexivity].
    vm_compute. repeat split. }
  split; [exact H|exact (print_consistent print_state H)].
Defined.

(** The filter box is controlled by [search], which [handleSearch] sets
    to the lower-cased input: along any run the box shows no upper-case
    ASCII letter, whatever was typed into it. *)
Lemma step_search_lower (st st' : state) (ev : Event) (e : list Effect) :
  toLowerCase (search st) = search st -> step st ev = Some (st', e) ->
  toLowerCase (search st') = search st'.
Proof.
  intros Hl Hs. unfold step in Hs.
  destruct ev as [d|r|v|], (phase st); try discriminate; injection Hs as <- _;
    unfold receive_products, handleSearch, apply_processData; repeat case_match; simpl;
    rewrite ?toLowerCase_idem; done.
Qed.

Lemma controls_show_lowercase (evs : list Event) (st : state) (e : list Effect) :
  run init evs = Some (st, e) ->
  toLowerCase (filter_value (controls_view st)) = filter_value (controls_view st).
Proof. apply (run_steps_invariant step (fun st => toLowerCase (search st) = search st)); [|done]. apply step_search_lower. Qed.

(** The print page loses a filter typed while the list loads: after
    [print_stale_trace] the filter box holds "monroe" and the sheet
    still shows both brands, while [processData] of the batch under
    "monroe" has only the Monroe column. *)
Example print_stale_search :
  exists st, run init print_stale_trace = Some (st, []) /\
    loading st = false /\ search st = "monroe" /\
    activeBrands st = ["KYB"; "Monroe"] /\
    (@processData PrintView (rawProducts st) (search st)).1 = ["Monroe"] /\
    ~ consistent st.
Proof.
  eexists. split; [reflexivity|]. vm_compute. split_and!; try reflexivity. discriminate.
Qed.

End PrintPage.
