(* ===== verification/ProductsPage.v ===== *)
(** * The "Manage Products" page around its form

    [ManageProducts] of [src/app/admin/products/page.js] beyond the form
    of [ProductForm]: the [products], [brands], [loading] and
    [suggestions] state, [fetchData] with its two [await]s, the database
    answers of [handleSubmit] and [handleDelete].  [fetchData] runs on
    mount and again after every successful insert or delete, without
    waiting for a running one; each call is a task that waits first for
    the brands and then for the products, and the answers of two tasks
    can arrive in any order.  [view] is the render (the submit button
    and the product table); [pending] measures the answers still owed,
    for the termination and completion of the fetches. *)

From stdpp Require Import base list strings sets.
From Stdlib Require Import ZArith Wellfounded.
From S2P Require Import Prelude JsCore Catalog ProductForm Brands.

Module ProductsPage.

(** A row of the products query with its [id]. *)
Definition ProductRow : Type := Z * Product.t.

(** Where a [fetchData] call is suspended. *)
Inductive Stage : Type :=
  | AwaitBrands
  | AwaitProducts.

#[global] Instance stage_eq_dec : EqDecision Stage.
Proof. solve_decision. Defined.

Record state : Type := mk {
  products : list ProductRow;
  brands : list BrandsPage.Brand;
  loading : bool;
  suggestions : Suggestions;
  form : FormState;
  fetches : list (nat * Stage);
  next_task : nat
}.

(** [fetchData()]: [setLoading(true)] and a new task. *)
Definition start_fetch (st : state) : state :=
  mk (products st) (brands st) true (suggestions st) (form st)
    (fetches st ++ [(next_task st, AwaitBrands)]) (S (next_task st)).

(** The [useState] initial values; the mount effect calls [fetchData]. *)
Definition init : state :=
  start_fetch (mk [] [] true (mkSuggestions [] [] []) form_state_init [] 0).

Inductive Effect : Type :=
  | Insert (row : FormData)
  | Delete (productId : Z)
  | Alert (msg : string).

Inductive Event : Type :=
  | EvBrandsAnswer (task : nat) (brandData : option (list BrandsPage.Brand))
  | EvProductsAnswer (task : nat) (answer : option (option (list ProductRow)))
  | EvForm (fe : FormEvent)
  | EvInsertAnswer (error : option string)
  | EvDeleteClick (productId : Z) (confirmed : bool)
  | EvDeleteAnswer (error : option string).

Definition with_form (st : state) (f : FormState) : state :=
  mk (products st) (brands st) (loading st) (suggestions st) f (fetches st) (next_task st).

(** The first await of task [t]: [if (brandData) setBrands(brandData)]. *)
Definition brands_answer (st : state) (t : nat) (brandData : option (list BrandsPage.Brand)) : state :=
  mk (products st) (default (brands st) brandData) (loading st) (suggestions st) (form st)
    (map (fun ts => if decide (ts = (t, AwaitBrands)) then (t, AwaitProducts) else ts) (fetches st))
    (next_task st).

(** The second await of task [t]: on data, [setProducts(productData || [])]
    and [extractSuggestions(productData || [])]; then [setLoading(false)]. *)
Definition products_answer (st : state) (t : nat) (answer : option (option (list ProductRow))) : state :=
  let rest := List.filter (fun ts => negb (bool_decide (ts = (t, AwaitProducts)))) (fetches st) in
  match answer with
  | None => mk (products st) (brands st) false (suggestions st) (form st) rest (next_task st)
  | Some data =>
      let ps := default [] data in
      mk ps (brands st) false (extractSuggestions (map snd ps)) (form st) rest (next_task st)
  end.

(** One event and its effects; [None] when it cannot happen (an answer
    no task waits for, a form event the form refuses). *)
Definition step (st : state) (ev : Event) : option (state * list Effect) :=
  match ev with
  | EvBrandsAnswer t bd =>
      if decide ((t, AwaitBrands) ∈ fetches st) then Some (brands_answer st t bd, []) else None
  | EvProductsAnswer t r =>
      if decide ((t, AwaitProducts) ∈ fetches st) then Some (products_answer st t r, []) else None
  | EvForm (EvInsertDone _) => None
  | EvForm fe =>
      form_step (form st) fe ≫= fun '(f', out) =>
      Some (with_form st f', match out with Some row => [Insert row] | None => [] end)
  | EvInsertAnswer err =>
      form_step (form st) (EvInsertDone (bool_decide (err = None))) ≫= fun '(f', _) =>
      match err with
      | Some msg => Some (with_form st f', [Alert ("Error adding product: " +:+ msg)])
      | None => Some (start_fetch (with_form st f'), [])
      end
  | EvDeleteClick i confirmed => Some (st, if confirmed then [Delete i] else [])
  | EvDeleteAnswer err =>
      match err with
      | Some msg => Some (st, [Alert msg])
      | None => Some (start_fetch st, [])
      end
  end.

Definition run : state -> list Event -> option (state * list Effect) := run_steps step.

(** ** The product list *)

(** One line of the product table: id, brand ([p.brands?.name ||
    'Unknown']), vehicle, variant, category with its colour (purple for
    coil springs), position and the part number line. *)
Record ProductLine : Type := mkLine {
  line_id : Z;
  line_brand : string;
  line_vehicle : string;
  line_variant : string;
  line_category : string;
  line_coil : bool;
  line_position : string;
  line_part : option string
}.

Definition product_line (r : ProductRow) : ProductLine :=
  let p := r.2 in
  mkLine r.1
    (if String.eqb (Product.brand_name p) "" then "Unknown" else Product.brand_name p)
    (Product.car_make p +:+ " " +:+ Product.car_model p) (Product.product_variant p)
    (Product.category p) (String.eqb (Product.category p) "Coil Spring") (Product.position p)
    (match Product.part_number p with
     | Some pn => if String.eqb pn "" then None else Some ("PN: " +:+ pn)
     | None => None
     end).

Inductive ListView : Type :=
  | ListLoading
  | ListEmpty
  | ListLines (lines : list ProductLine).

(** What a render shows: the submit button's [disabled] flag and label,
    and the table body (["Loading..."], ["No products yet."] or a line
    with a delete button per product). *)
Definition view (st : state) : (bool * string) * ListView :=
  ((submitting (form st), if submitting (form st) then "Saving..." else "Save Product"),
   if loading st then ListLoading
   else match products st with
        | [] => ListEmpty
        | ps => ListLines (map product_line ps)
        end).

(** ** Pending work *)

(** What a task has left to receive: both answers, or the products. *)
Definition stage_weight (ts : nat * Stage) : nat :=
  match ts.2 with AwaitBrands => 2 | AwaitProducts => 1 end.

(** The answers the database still owes the page. *)
Definition pending (st : state) : nat := sum_list (map stage_weight (fetches st)).

(** The events that are answers of the database, not user actions. *)
Definition is_answer (ev : Event) : Prop :=
  match ev with EvBrandsAnswer _ _ | EvProductsAnswer _ _ => True | _ => False end.

(** [st'] follows [st] by one database answer. *)
Definition answers_after (st' st : state) : Prop :=
  exists ev effs, is_answer ev /\ step st ev = Some (st', effs).

(** The task ids are distinct and below the next one, and the page is
    loading only while some task runs. *)
Definition tasks_wf (st : state) : Prop :=
  NoDup (map fst (fetches st)) /\
  (forall ts, ts ∈ fetches st -> ts.1 < next_task st) /\
  (loading st = true -> fetches st <> []).

(** The answers that complete the given tasks, in order, each with the
    given brands and products data. *)
Definition drain (l : list (nat * Stage)) (bd : option (list BrandsPage.Brand))
    (ans : option (option (list ProductRow))) : list Event :=
  flat_map (fun ts => match ts.2 with
                      | AwaitBrands => [EvBrandsAnswer ts.1 bd; EvProductsAnswer ts.1 ans]
                      | AwaitProducts => [EvProductsAnswer ts.1 ans]
                      end) l.

(** ** Lemmas *)

Lemma products_run_cons (st st1 : state) (ev : Event) (evs : list Event) (e1 : list Effect) :
  step st ev = Some (st1, e1) ->
  run st (ev :: evs) = run st1 evs ≫= fun '(st2, e2) => Some (st2, e1 ++ e2).
Proof. intros Hs. cbn [run run_steps]. by rewrite Hs. Qed.

Lemma products_answer_fetches (st : state) (t : nat) (r : option (option (list ProductRow))) :
  fetches (products_answer st t r) =
    List.filter (fun ts => negb (bool_decide (ts = (t, AwaitProducts)))) (fetches st).
Proof. by destruct r. Qed.

(** Every answer consumes some of the pending work. *)
Lemma answer_decreases (st st' : state) : answers_after st' st -> pending st' < pending st.
Proof.
  intros (ev & effs & Hans & Hs). unfold pending.
  destruct ev as [t bd|t r| | | |]; try done; simpl in Hs.
  - case_decide as Hin; [|done]. injection Hs as <- _. simpl. rewrite map_map.
    apply (sum_list_map_lt _ _ _ (t, AwaitBrands)); [|done|cbn beta; rewrite decide_True by done; cbv; lia].
    intros y _. case_decide; subst; cbv; [lia|done].
  - case_decide as Hin; [|done]. injection Hs as <- _.
    rewrite products_answer_fetches, sum_list_map_filter.
    apply (sum_list_map_lt _ _ _ (t, AwaitProducts)); [|done|cbn beta; rewrite bool_decide_eq_true_2 by done; cbv; lia].
    intros y _. destruct (negb _); lia.
Qed.

Lemma fst_brands_answer (l : list (nat * Stage)) (t : nat) :
  map fst (map (fun ts => if decide (ts = (t, AwaitBrands)) then (t, AwaitProducts) else ts) l) = map fst l.
Proof. induction l as [|ts l IH]; [done|]. simpl. rewrite IH. by case_decide; subst. Qed.

Lemma elem_of_brands_answer (l : list (nat * Stage)) (t : nat) (ts : nat * Stage) :
  ts ∈ map (fun ts => if decide (ts = (t, AwaitBrands)) then (t, AwaitProducts) else ts) l ->
  exists ts0, ts0 ∈ l /\ ts.1 = ts0.1.
Proof.
  intros Hts. apply list_elem_of_In, in_map_iff in Hts as (ts0 & <- & Hin).
  exists ts0. split; [by apply list_elem_of_In|]. by case_decide; subst.
Qed.

Lemma tasks_wf_start_fetch (st : state) : tasks_wf st -> tasks_wf (start_fetch st).
Proof.
  intros (Hnd & Hlt & _). split_and!; simpl.
  - rewrite map_app. apply NoDup_app. split_and!; [done| |repeat constructor; set_solver].
    intros x Hx Hx'. apply list_elem_of_singleton in Hx'. subst x.
    apply list_elem_of_In, in_map_iff in Hx as (ts & Heq & Hts).
    apply list_elem_of_In, Hlt in Hts. simpl in *; lia.
  - intros ts Hts. apply elem_of_app in Hts as [Hts|Hts%list_elem_of_singleton]; [|subst; simpl; lia].
    apply Hlt in Hts. lia.
  - intros _ Hnil. by apply app_eq_nil in Hnil as [_ ?].
Qed.

Lemma step_tasks_wf (st st' : state) (ev : Event) (e : list Effect) :
  tasks_wf st -> step st ev = Some (st', e) -> tasks_wf st'.
Proof.
  intros Hwf Hs. pose proof Hwf as (Hnd & Hlt & Hld).
  destruct ev as [t bd|t r|fe|err|i c|err]; simpl in Hs.
  - case_decide as Hin; [|done]. injection Hs as <- _. split_and!; simpl.
    + by rewrite fst_brands_answer.
    + intros ts Hts. destruct (elem_of_brands_answer _ _ _ Hts) as (ts0 & Hts0 & ->). by apply Hlt.
    + intros Hl Hnil. apply map_eq_nil in Hnil. by apply Hld.
  - case_decide as Hin; [|done]. injection Hs as <- _.
    assert (Hsub : sublist (List.filter (fun ts => negb (bool_decide (ts = (t, AwaitProducts)))) (fetches st))
                     (fetches st)) by apply filter_bool_sublist.
    assert (Hnd' : NoDup (map fst (List.filter (fun ts => negb (bool_decide (ts = (t, AwaitProducts))))
                                    (fetches st))))
      by (eapply sublist_NoDup; [exact Hnd|apply (sublist_map fst); exact Hsub]).
    assert (Hlt' : forall ts, ts ∈ List.filter (fun ts => negb (bool_decide (ts = (t, AwaitProducts))))
                                  (fetches st) -> ts.1 < next_task st)
      by (intros ts Hts; apply Hlt; by eapply elem_of_sublist).
    by destruct r; split_and!.
  - destruct fe; try done; unfold mbind, option_bind in Hs; repeat case_match; simplify_eq; exact Hwf.
  - unfold mbind, option_bind in Hs; repeat case_match; simplify_eq; [exact Hwf|by apply tasks_wf_start_fetch].
  - by simplify_eq.
  - unfold mbind, option_bind in Hs; repeat case_match; simplify_eq; [exact Hwf|by apply tasks_wf_start_fetch].
Qed.

Lemma run_tasks_wf (st st' : state) (evs : list Event) (e : list Effect) :
  tasks_wf st -> run st evs = Some (st', e) -> tasks_wf st'.
Proof.
  apply run_steps_invariant, step_tasks_wf.
Qed.

Lemma tasks_wf_init : tasks_wf init.
Proof.
  split_and!; simpl.
  - repeat constructor. set_solver.
  - intros ts Hts. apply list_elem_of_singleton in Hts. subst; simpl; lia.
  - done.
Qed.

Lemma fresh_task (l : list (nat * Stage)) (t : nat) (s : Stage) :
  t ∉ map fst l -> (t, s) ∉ l.
Proof.
  intros Hfresh Hin. apply Hfresh, list_elem_of_In, in_map_iff.
  exists (t, s). split; [done|by apply list_elem_of_In].
Qed.

(** The brands answer of the first task when no other task has its id. *)
Lemma step_brands_head (st : state) (t : nat) (bd : option (list BrandsPage.Brand))
    (l : list (nat * Stage)) :
  fetches st = (t, AwaitBrands) :: l -> t ∉ map fst l ->
  step st (EvBrandsAnswer t bd) = Some (brands_answer st t bd, []) /\
  fetches (brands_answer st t bd) = (t, AwaitProducts) :: l.
Proof.
  intros Hl Hfresh. simpl. rewrite decide_True by (rewrite Hl; left). split; [done|].
  rewrite Hl. simpl. rewrite decide_True by done. f_equal.
  rewrite <- (map_id l) at 2. apply map_ext_in. intros y Hy.
  rewrite decide_False; [done|]. intros ->. by apply (fresh_task l t AwaitBrands); [|apply list_elem_of_In].
Qed.

(** The products answer of the first task when no other task has its id. *)
Lemma step_products_head (st : state) (t : nat) (ans : option (option (list ProductRow)))
    (l : list (nat * Stage)) :
  fetches st = (t, AwaitProducts) :: l -> t ∉ map fst l ->
  step st (EvProductsAnswer t ans) = Some (products_answer st t ans, []) /\
  fetches (products_answer st t ans) = l.
Proof.
  intros Hl Hfresh. simpl. rewrite decide_True by (rewrite Hl; left). split; [done|].
  assert (Hf : List.filter (fun ts => negb (bool_decide (ts = (t, AwaitProducts)))) (fetches st) = l).
  { rewrite Hl. simpl. rewrite bool_decide_eq_true_2 by done. simpl.
    apply filter_bool_all. intros y Hy. apply negb_true_iff, bool_decide_eq_false_2.
    intros ->. by apply (fresh_task l t AwaitProducts). }
  by destruct ans.
Qed.

(** Answering every running task, oldest first, empties the task list
    and clears [loading]. *)
Lemma run_drain (bd : option (list BrandsPage.Brand)) (ans : option (option (list ProductRow)))
    (l : list (nat * Stage)) :
  forall st, tasks_wf st -> fetches st = l ->
  exists st', run st (drain l bd ans) = Some (st', []) /\ fetches st' = [] /\ loading st' = false.
Proof.
  induction l as [|[t s] l IH]; intros st Hwf Hl.
  - exists st. split_and!; [done|done|]. destruct Hwf as (_ & _ & Hld).
    destruct (loading st); [by exfalso; apply Hld|done].
  - pose proof Hwf as (Hnd & _ & _). rewrite Hl in Hnd. apply NoDup_cons in Hnd as [Hfresh _].
    assert (Hprod : forall st1, tasks_wf st1 -> fetches st1 = (t, AwaitProducts) :: l ->
              exists st', run st1 (EvProductsAnswer t ans :: drain l bd ans) = Some (st', []) /\
                          fetches st' = [] /\ loading st' = false).
    { intros st1 Hwf1 Hl1. destruct (step_products_head st1 t ans l Hl1 Hfresh) as [Hs Hf].
      destruct (IH _ (step_tasks_wf _ _ _ _ Hwf1 Hs) Hf) as (st' & Hr & Hrest).
      exists st'. rewrite (products_run_cons _ _ _ _ _ Hs), Hr. by split. }
    destruct s; [|by apply Hprod].
    destruct (step_brands_head st t bd l Hl Hfresh) as [Hs Hf].
    destruct (Hprod _ (step_tasks_wf _ _ _ _ Hwf Hs) Hf) as (st' & Hr & Hrest).
    exists st'.
    change (drain ((t, AwaitBrands) :: l) bd ans)
      with (EvBrandsAnswer t bd :: EvProductsAnswer t ans :: drain l bd ans).
    rewrite (products_run_cons _ _ _ _ _ Hs), Hr. by split.
Qed.

(** ** The overlapping fetches *)

Definition kyb_brand : BrandsPage.Brand := BrandsPage.mkBrand 3 "KYB".

(** A task's products answer removes that task and no other. *)
Lemma elem_of_products_answer (st : state) (t : nat) (r : option (option (list ProductRow)))
    (ts : nat * Stage) :
  ts ∈ fetches (products_answer st t r) <-> ts ∈ fetches st /\ ts <> (t, AwaitProducts).
Proof.
  rewrite products_answer_fetches, elem_of_filter_bool, negb_true_iff, bool_decide_eq_false.
  done.
Qed.

(** C16: overlapping [fetchData] calls race.  Whenever two calls [t0]
    and [t1] both wait for their products query (as after an insert
    made while the mount's fetch is still running), the answer that
    arrives last decides the list, the suggestions and the end of
    loading, whatever the other one held: if the older call's answer
    comes after the newer one's, the page shows the older snapshot,
    without the product just inserted. *)
Theorem products_refetch_race (st : state) (t0 t1 : nat)
    (ans1 : option (option (list ProductRow))) (rows0 : list ProductRow) :
  (t0, AwaitProducts) ∈ fetches st -> (t1, AwaitProducts) ∈ fetches st -> t0 <> t1 ->
  exists st', run st [EvProductsAnswer t1 ans1; EvProductsAnswer t0 (Some (Some rows0))] = Some (st', []) /\
    products st' = rows0 /\ suggestions st' = extractSuggestions (map snd rows0) /\
    loading st' = false /\ (t0, AwaitProducts) ∉ fetches st' /\ (t1, AwaitProducts) ∉ fetches st'.
Proof.
  intros H0 H1 Hne.
  assert (H0' : (t0, AwaitProducts) ∈ fetches (products_answer st t1 ans1))
    by (apply elem_of_products_answer; split; [done|congruence]).
  exists (products_answer (products_answer st t1 ans1) t0 (Some (Some rows0))).
  split.
  - cbn [run run_steps step]. rewrite (decide_True _ _ H1). simpl.
    rewrite (decide_True _ _ H0'). reflexivity.
  - split_and!; try done; rewrite !elem_of_products_answer; naive_solver.
Qed.

(** The mount's brands arrive and the admin adds a Proton Saga shock
    while the mount's products query is still running; the refetch
    after the insert then gets its brands: both calls wait for their
    products. *)
Definition race_trace : list Event :=
  [EvBrandsAnswer 0 (Some [kyb_brand]);
   EvForm (EvText FBrand "3"); EvForm (EvText FMake "Proton"); EvForm (EvText FModel "Saga");
   EvForm (EvText FVariant "Standard"); EvForm EvSubmit; EvInsertAnswer None;
   EvBrandsAnswer 1 (Some [kyb_brand])].

Definition race_state : state := default init (fst <$> run init race_trace).

(** A product already in the table, and the one the admin adds. *)
Definition city_row : ProductRow :=
  (1%Z, Product.mk "Honda" "City" "Standard" "Front (2 pcs)" "Shock Absorber" None "KYB" PricesNull).

Definition saga_row : ProductRow :=
  (2%Z, Product.mk "Proton" "Saga" "Standard" "Front (2 pcs)" "Shock Absorber" None "KYB" PricesNull).

(** The refetch answers with both products, then the mount's query
    with the list it read before the insert. *)
Lemma products_refetch_race_witness :
  (0, AwaitProducts) ∈ fetches race_state /\ (1, AwaitProducts) ∈ fetches race_state /\ 0 <> 1 /\
  exists st', run race_state [EvProductsAnswer 1 (Some (Some [saga_row; city_row]));
                              EvProductsAnswer 0 (Some (Some [city_row]))] = Some (st', []) /\
    products st' = [city_row] /\ suggestions st' = extractSuggestions (map snd [city_row]) /\
    loading st' = false /\ (0, AwaitProducts) ∉ fetches st' /\ (1, AwaitProducts) ∉ fetches st'.
Proof.
  assert (H0 : (0, AwaitProducts) ∈ fetches race_state) by compute_decide.
  assert (H1 : (1, AwaitProducts) ∈ fetches race_state) by compute_decide.
  split_and!; [exact H0|exact H1|lia|]. by apply products_refetch_race.
Defined.

(** ** Termination and completion of the fetches *)

(** C25: the database's answers cannot go on for ever: the relation
    "one answer later" is well founded, since each answer lowers the
    number of answers still owed ([pending]: two for a task waiting for
    the brands, one for a task waiting for the products) and user
    actions are the only events that start a new [fetchData]. *)
Theorem fetch_answers_terminate : well_founded answers_after.
Proof.
  apply (wf_incl _ _ (ltof _ pending)); [|apply well_founded_ltof].
  intros st' st Hafter. exact (answer_decreases st st' Hafter).
Qed.

(** C13: whatever the admin did since the mount, once every running
    [fetchData] gets its answers (oldest task first, each answer
    accepted by [step]) no task is left and the page stops loading:
    the loading message never stays for ever. *)
Theorem fetches_complete (evs : list Event) (st : state) (effs : list Effect)
    (bd : option (list BrandsPage.Brand)) (ans : option (option (list ProductRow))) :
  run init evs = Some (st, effs) ->
  exists st', run st (drain (fetches st) bd ans) = Some (st', []) /\
    fetches st' = [] /\ loading st' = false.
Proof.
  intros Hrun. apply run_drain; [|done].
  exact (run_tasks_wf _ _ _ _ tasks_wf_init Hrun).
Qed.

(** After the insert of [race_trace]'s first seven events two tasks run;
    their answers end the loading. *)
Lemma fetches_complete_witness :
  exists st effs st', run init (take 7 race_trace) = Some (st, effs) /\
    fetches st = [(0, AwaitProducts); (1, AwaitBrands)] /\
    run st (drain (fetches st) (Some [kyb_brand]) (Some (Some [city_row]))) = Some (st', []) /\
    fetches st' = [] /\ loading st' = false.
Proof.
  eexists _, _. 
  destruct (fetches_complete (take 7 race_trace) _ _ (Some [kyb_brand]) (Some (Some [city_row]))
              eq_refl) as (st' & Hr & Hf & Hl).
  exists st'. split_and!; [reflexivity|reflexivity|exact Hr|exact Hf|exact Hl].
Defined.

End ProductsPage.
